(** * OpenHEXA MCP server: a shallow embedding of [openhexa_mcp_server.py]

    The server is a set of tool functions.  Each one builds a request, sends
    it through the OpenHEXA SDK client (the transport), walks the decoded JSON
    answer with [.get] chains and returns a dictionary.  Every body sits in a
    [try ... except Exception] block.

    The embedding has four layers:
    - Python values ([PyVal]) with the dynamic operations the tools use
      ([.get], [in], subscripting, [len], truthiness, [str]/[repr]);
    - a monad [M] for code that may raise and that talks to the transport,
      which records every transport call in a trace (the transport spy);
    - the external collaborators as records of behaviours: the SDK client
      ([Client]) and the archive library ([ZipLib]); base64 is written out;
    - the nineteen tools, named as in the source.

    Modelling conventions.
    - A Python [str] is a Rocq [string], text outside ASCII being held as
      its UTF-8 bytes; [str.lower] and [repr] follow Python on ASCII and on
      Latin-1 (U+0000 to U+00FF) and leave text beyond as it is.
    - [openhexa.execute] is called in two ways by the source, with keywords
      and with two positional arguments; the two are kept apart as two
      behaviours of the client.
    - JSON numbers are integers ([Z]); floating-point numbers are not modelled.
    - A [dict] is an association list in insertion order with string keys.
    - Exceptions are instances of [Exception] with their [str(e)] text
      (CPython 3.12 wording for the interpreter's own errors).
    - The [@mcp.tool] decorator is taken to leave the function callable, as
      [search_resources] assumes when it calls its sibling tools. *)

From Stdlib Require Import String Ascii List ZArith NArith Lia Bool.
From Stdlib Require Import DecimalString Strings.Byte.
Import ListNotations.
Open Scope string_scope.
Open Scope Z_scope.

(* ================================================================== *)
(** ** Python values *)

#[warnings="-register-all"]
Inductive PyVal : Type :=
| VNone
| VBool (b : bool)
| VInt (z : Z)
| VStr (s : string)
| VList (l : list PyVal)
| VDict (d : list (string * PyVal)).

Definition Dict := list (string * PyVal).

(** An exception object, reduced to its class name and its [str(e)]. *)
Inductive Exn : Type := PyExn (cls : string) (text : string).

Definition exn_text (e : Exn) : string :=
  match e with PyExn _ t => t end.

Inductive Result (A : Type) : Type :=
| Return (a : A)
| Raise (e : Exn).
Arguments Return {A} a.
Arguments Raise {A} e.

(* ------------------------------------------------------------------ *)
(** *** Strings *)

Definition dquote : ascii := ascii_of_nat 34.
Definition squote : ascii := ascii_of_nat 39.
Definition backslash : ascii := ascii_of_nat 92.

Definition str1 (c : ascii) : string := String c EmptyString.

Fixpoint has_char (c : ascii) (s : string) : bool :=
  match s with
  | EmptyString => false
  | String a s' => Ascii.eqb a c || has_char c s'
  end.

(** [needle in haystack] for two [str] operands. *)
Fixpoint is_substring (needle haystack : string) : bool :=
  String.prefix needle haystack
  || match haystack with
     | EmptyString => false
     | String _ rest => is_substring needle rest
     end.

Definition lower_char (c : ascii) : ascii :=
  let n := nat_of_ascii c in
  if (Nat.leb 65 n && Nat.leb n 90)%bool then ascii_of_nat (n + 32) else c.

(** A second byte, after the byte 195, of a capital letter of Latin-1
    (U+00C0 to U+00DE, the sign U+00D7 apart). *)
Definition latin1_capital (d : ascii) : bool :=
  let n := nat_of_ascii d in
  (Nat.leb 128 n && Nat.leb n 158 && negb (Nat.eqb n 151))%bool.

(** [str.lower()]: the letters of ASCII, and those of Latin-1, which UTF-8
    writes in two bytes; capital letters beyond Latin-1 are left as they
    are. *)
Fixpoint lower (s : string) : string :=
  match s with
  | EmptyString => EmptyString
  | String c s' =>
      match s' with
      | String d s'' =>
          if (Nat.eqb (nat_of_ascii c) 195 && latin1_capital d)%bool
          then String c (String (ascii_of_nat (nat_of_ascii d + 32)) (lower s''))
          else String (lower_char c) (lower s')
      | EmptyString => String (lower_char c) EmptyString
      end
  end.

Definition hex_digit (n : nat) : ascii :=
  if Nat.ltb n 10 then ascii_of_nat (48 + n) else ascii_of_nat (87 + n).

Definition escape_char (quote c : ascii) : string :=
  let n := nat_of_ascii c in
  if Ascii.eqb c backslash then String backslash (str1 backslash)
  else if Ascii.eqb c quote then String backslash (str1 c)
  else if Nat.eqb n 10 then String backslash "n"
  else if Nat.eqb n 13 then String backslash "r"
  else if Nat.eqb n 9 then String backslash "t"
  else if (Nat.ltb n 32 || Nat.eqb n 127)%bool
       then String backslash
              (String "x" (String (hex_digit (n / 16)) (str1 (hex_digit (n mod 16)))))
  else str1 c.

Definition hex_escape (n : nat) : string :=
  String backslash
         (String "x" (String (hex_digit (n / 16)) (str1 (hex_digit (n mod 16))))).

(** A second byte, after the byte 194, of a character of Latin-1 that is
    not printable: the controls U+0080 to U+009F, the no-break space U+00A0
    and the soft hyphen U+00AD. *)
Definition latin1_unprintable (d : ascii) : bool :=
  let n := nat_of_ascii d in
  (Nat.leb 128 n && Nat.leb n 160 || Nat.eqb n 173)%bool.

(** The body of [repr] of a [str]: the escapes of [escape_char], and
    [\xNN] for the characters of Latin-1 that are not printable; characters
    beyond Latin-1 are written as they are. *)
Fixpoint escape (quote : ascii) (s : string) : string :=
  match s with
  | EmptyString => EmptyString
  | String c s' =>
      match s' with
      | String d s'' =>
          if (Nat.eqb (nat_of_ascii c) 194 && latin1_unprintable d)%bool
          then hex_escape (nat_of_ascii d) ++ escape quote s''
          else escape_char quote c ++ escape quote s'
      | EmptyString => escape_char quote c
      end
  end.

(** [repr] of a [str]: single quotes, unless the text has a single quote and
    no double quote. *)
Definition repr_str (s : string) : string :=
  let quote := if (has_char squote s && negb (has_char dquote s))%bool
               then dquote else squote in
  str1 quote ++ escape quote s ++ str1 quote.

Definition str_of_Z (z : Z) : string := NilZero.string_of_int (Z.to_int z).

Fixpoint join (sep : string) (l : list string) : string :=
  match l with
  | [] => EmptyString
  | [x] => x
  | x :: rest => x ++ sep ++ join sep rest
  end.

(** [repr(v)] *)
Fixpoint py_repr (v : PyVal) : string :=
  match v with
  | VNone => "None"
  | VBool true => "True"
  | VBool false => "False"
  | VInt z => str_of_Z z
  | VStr s => repr_str s
  | VList l => "[" ++ join ", " (map py_repr l) ++ "]"
  | VDict d =>
      "{" ++ join ", " (map (fun '(k, x) => repr_str k ++ ": " ++ py_repr x) d) ++ "}"
  end.

(** [str(v)], which is what an f-string field [{v}] prints. *)
Definition py_str (v : PyVal) : string :=
  match v with
  | VStr s => s
  | _ => py_repr v
  end.

(** [msg] contains [part] as a substring. *)
Definition Contains (part msg : string) : Prop :=
  exists pre post, msg = pre ++ part ++ post.

(* ------------------------------------------------------------------ *)
(** *** Dictionaries *)

Fixpoint lookup (key : string) (d : Dict) : option PyVal :=
  match d with
  | [] => None
  | (k, v) :: rest => if String.eqb k key then Some v else lookup key rest
  end.

Definition has_key (key : string) (d : Dict) : bool :=
  match lookup key d with Some _ => true | None => false end.

(** [d[key] = v]: overwrite in place, or append. *)
Fixpoint dict_set (key : string) (v : PyVal) (d : Dict) : Dict :=
  match d with
  | [] => [(key, v)]
  | (k, x) :: rest =>
      if String.eqb k key then (k, v) :: rest else (k, x) :: dict_set key v rest
  end.

Definition keys (d : Dict) : list string := map fst d.

(* ------------------------------------------------------------------ *)
(** *** Dynamic operations *)

Definition type_name (v : PyVal) : string :=
  match v with
  | VNone => "NoneType"
  | VBool _ => "bool"
  | VInt _ => "int"
  | VStr _ => "str"
  | VList _ => "list"
  | VDict _ => "dict"
  end.

Definition AttributeError (v : PyVal) (attr : string) : Exn :=
  PyExn "AttributeError"
        ("'" ++ type_name v ++ "' object has no attribute '" ++ attr ++ "'").

Definition TypeError (text : string) : Exn := PyExn "TypeError" text.

Definition KeyError (key : string) : Exn := PyExn "KeyError" (repr_str key).

(** [bool(v)] *)
Definition truthy (v : PyVal) : bool :=
  match v with
  | VNone => false
  | VBool b => b
  | VInt z => negb (Z.eqb z 0)
  | VStr s => negb (String.eqb s EmptyString)
  | VList l => match l with [] => false | _ => true end
  | VDict d => match d with [] => false | _ => true end
  end.

(** [v.get(key, default)] *)
Definition py_get (v : PyVal) (key : string) (default : PyVal) : Result PyVal :=
  match v with
  | VDict d => Return (match lookup key d with Some x => x | None => default end)
  | _ => Raise (AttributeError v "get")
  end.

(** [v == s] for a [str] right operand. *)
Definition py_eq_str (v : PyVal) (s : string) : bool :=
  match v with
  | VStr s' => String.eqb s' s
  | _ => false
  end.

(** [key in v] for a [str] left operand. *)
Definition py_in (key : string) (v : PyVal) : Result bool :=
  match v with
  | VDict d => Return (has_key key d)
  | VList l => Return (existsb (fun x => py_eq_str x key) l)
  | VStr s => Return (is_substring key s)
  | _ => Raise (TypeError ("argument of type '" ++ type_name v ++ "' is not iterable"))
  end.

(** [v[key]] for a [str] subscript. *)
Definition py_getitem (v : PyVal) (key : string) : Result PyVal :=
  match v with
  | VDict d => match lookup key d with
               | Some x => Return x
               | None => Raise (KeyError key)
               end
  | VList _ => Raise (TypeError "list indices must be integers or slices, not str")
  | VStr _ => Raise (TypeError "string indices must be integers, not 'str'")
  | _ => Raise (TypeError ("'" ++ type_name v ++ "' object is not subscriptable"))
  end.

(** [len(v)] *)
Definition py_len (v : PyVal) : Result Z :=
  match v with
  | VStr s => Return (Z.of_nat (String.length s))
  | VList l => Return (Z.of_nat (List.length l))
  | VDict d => Return (Z.of_nat (List.length d))
  | _ => Raise (TypeError ("object of type '" ++ type_name v ++ "' has no len()"))
  end.

Fixpoint chars (s : string) : list PyVal :=
  match s with
  | EmptyString => []
  | String c s' => VStr (str1 c) :: chars s'
  end.

(** The elements a [for] loop or a comprehension visits. *)
Definition py_iter (v : PyVal) : Result (list PyVal) :=
  match v with
  | VList l => Return l
  | VDict d => Return (map VStr (keys d))
  | VStr s => Return (chars s)
  | _ => Raise (TypeError ("'" ++ type_name v ++ "' object is not iterable"))
  end.

(** [v.lower()] *)
Definition py_lower (v : PyVal) : Result string :=
  match v with
  | VStr s => Return (lower s)
  | _ => Raise (AttributeError v "lower")
  end.

(* ================================================================== *)
(** ** The transport and the trace of calls *)

(** A pydantic model object of the SDK, seen through [model_dump()]. *)
Definition Model := Dict.

Definition model_dump (m : Model) : PyVal := VDict m.

(** A page of the SDK: [.items] and [.total_pages]. *)
Record Page : Type := { items : list Model; total_pages : Z }.

(** A pipeline object of the SDK: its fields and [.runs.items]. *)
Record PipelineModel : Type := { pipeline_fields : Model; runs_items : list Model }.

(** The answer of [openhexa.execute]; [json] is the outcome of [.json()]. *)
Record Response : Type := { json : Result PyVal }.

(** One call on the SDK client, with its arguments.  The source calls
    [execute] in two ways: [ReqExecute] is [execute(query=..., variables=...)],
    with both arguments named; [ReqExecuteArgs] is [execute(query, second)],
    with two positional arguments, whose binding to the parameters of
    [execute] is the client's. *)
Inductive Request : Type :=
| ReqWorkspaces (page per_page : Z)
| ReqWorkspace (slug : string)
| ReqDatasets (page per_page : Z)
| ReqDataset (id : string)
| ReqPipelines (workspace_slug : option string) (page per_page : Z)
| ReqPipeline (workspace_slug pipeline_code : string)
| ReqGetUsers (query workspace_slug : string)
| ReqExecute (query : string) (variables : PyVal)
| ReqExecuteArgs (query : string) (second : PyVal).

(** What the spy writes down: the call, and the exception if it raised. *)
Record Event : Type := { request : Request; raised : option Exn }.

Definition Trace := list Event.

(** The SDK client.  Each behaviour sees the calls made so far, so that two
    calls with the same arguments may observe different snapshots. *)
Record Client : Type := {
  sdk_workspaces : Trace -> Z -> Z -> Result Page;
  sdk_workspace : Trace -> string -> Result (option Model);
  sdk_datasets : Trace -> Z -> Z -> Result Page;
  sdk_dataset : Trace -> string -> Result (option Model);
  sdk_pipelines : Trace -> option string -> Z -> Z -> Result Page;
  sdk_pipeline : Trace -> string -> string -> Result (option PipelineModel);
  sdk_get_users : Trace -> string -> string -> Result (list Model);
  sdk_execute : Trace -> string -> PyVal -> Result Response;
  sdk_execute_args : Trace -> string -> PyVal -> Result Response
}.

(** Code that may raise and that appends to the trace. *)
Definition M (A : Type) : Type := Trace -> Result A * Trace.

Definition ret {A} (a : A) : M A := fun t => (Return a, t).

Definition raise {A} (e : Exn) : M A := fun t => (Raise e, t).

Definition bind {A B} (m : M A) (k : A -> M B) : M B :=
  fun t => match m t with
           | (Return a, t') => k a t'
           | (Raise e, t') => (Raise e, t')
           end.

Notation "x <- m ;; k" := (bind m (fun x => k))
  (at level 61, m at next level, right associativity).

(** A pure step that may raise. *)
Definition lift {A} (r : Result A) : M A := fun t => (r, t).

(** [try: body except Exception as e: handler e] *)
Definition try_except {A} (body : M A) (handler : Exn -> M A) : M A :=
  fun t => match body t with
           | (Return a, t') => (Return a, t')
           | (Raise e, t') => handler e t'
           end.

Definition outcome_exn {A} (r : Result A) : option Exn :=
  match r with Return _ => None | Raise e => Some e end.

(** A call on the client: run the behaviour on the history, log the call. *)
Definition transport {A} (req : Request) (behaviour : Trace -> Result A) : M A :=
  fun t => let r := behaviour t in
           (r, (t ++ [{| request := req; raised := outcome_exn r |}])%list).

Definition is_execute (query : string) (ev : Event) : bool :=
  match request ev with
  | ReqExecute q _ => String.eqb q query
  | _ => false
  end.

(** How many times a GraphQL document was sent. *)
Definition count_execute (query : string) (t : Trace) : nat :=
  List.length (filter (is_execute query) t).

(** The exception [e] was raised by a transport call of the trace. *)
Definition transport_raised (e : Exn) (t : Trace) : Prop :=
  exists req, In {| request := req; raised := Some e |} t.

(* ================================================================== *)
(** ** Pipeline packaging: base64 and the archive library *)

Module Base64.

Definition alphabet : string :=
  "ABCDEFGHIJKLMNOPQRSTUVWXYZabcdefghijklmnopqrstuvwxyz0123456789+/".

Definition pad : ascii := ascii_of_nat 61.

(** The character of a six-bit value. *)
Definition char_of (n : N) : ascii :=
  match String.get (N.to_nat n) alphabet with
  | Some c => c
  | None => pad
  end.

Fixpoint index_from (i : N) (c : ascii) (s : string) : option N :=
  match s with
  | EmptyString => None
  | String a s' => if Ascii.eqb a c then Some i else index_from (N.succ i) c s'
  end.

(** The six-bit value of a character of the alphabet. *)
Definition index_of (c : ascii) : option N := index_from 0%N c alphabet.

Definition quad (c1 c2 c3 c4 : ascii) (rest : string) : string :=
  String c1 (String c2 (String c3 (String c4 rest))).

(** [base64.b64encode]: three bytes become four characters; a last group of
    one or two bytes is padded with [=]. *)
Fixpoint b64encode (bs : list byte) : string :=
  match bs with
  | [] => EmptyString
  | [a] =>
      let x := Byte.to_N a in
      quad (char_of (x / 4)) (char_of ((x mod 4) * 16)) pad pad EmptyString
  | [a; b] =>
      let x := Byte.to_N a in
      let y := Byte.to_N b in
      quad (char_of (x / 4)) (char_of ((x mod 4) * 16 + y / 16))
           (char_of ((y mod 16) * 4)) pad EmptyString
  | a :: b :: c :: rest =>
      let x := Byte.to_N a in
      let y := Byte.to_N b in
      let z := Byte.to_N c in
      quad (char_of (x / 4)) (char_of ((x mod 4) * 16 + y / 16))
           (char_of ((y mod 16) * 4 + z / 64)) (char_of (z mod 64))
           (b64encode rest)
  end%N.

Definition is_empty (s : string) : bool :=
  match s with EmptyString => true | _ => false end.

Definition opt_cons {A} (x : option A) (l : option (list A)) : option (list A) :=
  match x, l with
  | Some a, Some r => Some (a :: r)
  | _, _ => None
  end.

(** The inverse reading: groups of four characters, padding only at the end. *)
Fixpoint b64decode (s : string) : option (list byte) :=
  match s with
  | EmptyString => Some []
  | String c1 (String c2 (String c3 (String c4 rest))) =>
      match index_of c1, index_of c2 with
      | Some s1, Some s2 =>
          let b1 := Byte.of_N (s1 * 4 + s2 / 16) in
          if Ascii.eqb c3 pad then
            if (Ascii.eqb c4 pad && is_empty rest)%bool
            then opt_cons b1 (Some [])
            else None
          else
            match index_of c3 with
            | Some s3 =>
                let b2 := Byte.of_N ((s2 mod 16) * 16 + s3 / 4) in
                if Ascii.eqb c4 pad then
                  if is_empty rest
                  then opt_cons b1 (opt_cons b2 (Some []))
                  else None
                else
                  match index_of c4 with
                  | Some s4 =>
                      let b3 := Byte.of_N ((s3 mod 4) * 64 + s4) in
                      opt_cons b1 (opt_cons b2 (opt_cons b3 (b64decode rest)))
                  | None => None
                  end
            | None => None
            end
      | _, _ => None
      end
  | _ => None
  end%N.

End Base64.

(** The six fields [time.localtime(...)[:6]] gives a member. *)
Record DateTime : Type := {
  year : Z; month : Z; day : Z; hour : Z; minute : Z; second : Z
}.

(** [zipfile.ZipInfo], as far as [writestr] sets it. *)
Record ZipInfo : Type := {
  filename : string;
  date_time : DateTime;
  compress_type : Z
}.

(** A member of an archive: its header and its data as stored. *)
Record ZipEntry : Type := { info : ZipInfo; stored : list byte }.

Definition ZIP_DEFLATED : Z := 8.

(** The archive library ([zipfile] over [zlib]), an external collaborator:
    [compress] is the compressor of a method, which may raise,
    [decompress] its inverse reading, and [archive_bytes] the byte image that
    closing the archive leaves in the buffer. *)
Record ZipLib : Type := {
  compress : Z -> list byte -> Result (list byte);
  decompress : Z -> list byte -> option (list byte);
  archive_bytes : list ZipEntry -> list byte
}.

(** The contract the deflate method is used under: it compresses every
    input, and what it returns inflates to that input. *)
Record ZipLibOk (lib : ZipLib) : Prop := {
  compress_total :
    forall data, exists c, compress lib ZIP_DEFLATED data = Return c;
  decompress_compress :
    forall data c, compress lib ZIP_DEFLATED data = Return c ->
                   decompress lib ZIP_DEFLATED c = Some data
}.

(** [str.encode("utf-8")]: a [str] is held as its UTF-8 bytes. *)
Definition encode_utf8 (s : string) : list byte := list_byte_of_string s.

(** [ZipFile.writestr(arcname, data)] on an archive opened for writing with
    a default compression method: the member is stamped with the clock. *)
Definition writestr (lib : ZipLib) (now : DateTime) (compression : Z)
           (archive : list ZipEntry) (arcname : string) (data : string)
  : Result (list ZipEntry) :=
  match compress lib compression (encode_utf8 data) with
  | Raise e => Raise e
  | Return c =>
      Return (archive ++
              [{| info := {| filename := arcname; date_time := now;
                             compress_type := compression |};
                  stored := c |}])%list
  end.

(** [_create_pipeline_zipfile(code_content)] *)
Definition _create_pipeline_zipfile (lib : ZipLib) (now : DateTime)
           (code_content : string) : Result string :=
  match writestr lib now ZIP_DEFLATED [] "pipeline.py" code_content with
  | Raise e => Raise e
  | Return zip_file =>
      let zip_bytes := archive_bytes lib zip_file in
      Return (Base64.b64encode zip_bytes)
  end.

(** What a reader finds in a member: its name and its inflated content. *)
Definition member_content (lib : ZipLib) (m : ZipEntry)
  : option (string * list byte) :=
  match decompress lib (compress_type (info m)) (stored m) with
  | Some data => Some (filename (info m), data)
  | None => None
  end.


(* ================================================================== *)
(** ** The GraphQL documents, as the source writes them *)

Definition create_query : string :=
"
            mutation createPipeline($input: CreatePipelineInput!) {
                createPipeline(input: $input) {
                    success
                    errors
                    pipeline {
                        id
                        name
                        code
                        type
                        workspace { slug }
                    }
                }
            }
        ".

Definition upload_query : string :=
"
            mutation uploadPipeline($input: UploadPipelineInput!) {
                uploadPipeline(input: $input) {
                    success
                    errors
                }
            }
        ".

Definition list_connections_query : string :=
"
        query WorkspaceConnections($slug: String!) {
            workspace(slug: $slug) {
                connections {
                    id
                    name
                    slug
                    description
                    type
                    createdAt
                    updatedAt
                    user {
                        id
                        displayName
                        email
                    }
                    fields {
                        code
                        value
                        secret
                    }
                }
            }
        }
        ".

Definition list_webapps_query : string :=
"
        query WorkspaceWebapps($slug: String!, $page: Int = 1, $perPage: Int = 10) {
            workspace(slug: $slug) {
                webapps(page: $page, perPage: $perPage) {
                    items {
                        id
                        name
                        description
                        url
                        icon
                        isFavorite
                        createdAt
                        createdBy {
                            id
                            displayName
                            email
                        }
                        permissions {
                            delete
                            update
                        }
                    }
                    pageNumber
                    totalItems
                    totalPages
                }
            }
        }
        ".

Definition list_dataset_versions_query : string :=
"
        query getDataset($id: ID!) {
            dataset(id: $id) {
                versions {
                    items {
                        id
                        name
                        changelog
                        createdAt
                        createdBy {
                            id
                            displayName
                            email
                        }
                    }
                }
            }
        }
        ".

Definition get_dataset_version_details_query : string :=
"
        query getDatasetVersion($id: ID!) {
            datasetVersion(id: $id) {
                id
                name
                changelog
                createdAt
                createdBy {
                    id
                    displayName
                    email
                }
                files {
                    items {
                        id
                        size
                        createdAt
                    }
                }
            }
        }
        ".

Definition list_dataset_files_query : string :=
"
        query getDataset($id: ID!) {
            dataset(id: $id) {
                versions {
                    items {
                        id
                        name
                        files {
                            items {
                                id
                                size
                                createdAt
                            }
                        }
                    }
                }
            }
        }
        ".

Definition get_dataset_file_details_query : string :=
"
        query getFile($id: ID!) {
            datasetVersionFile(id: $id) {
                id
                filename
                size
                contentType
                createdAt
                createdBy {
                    id
                    displayName
                    email
                }
                downloadUrl
                uri
            }
        }
        ".

Definition search_datasets_query : string :=
"
        query searchDatasets($query: String, $page: Int!, $perPage: Int!) {
            datasets(query: $query, page: $page, perPage: $perPage) {
                items {
                    id
                    name
                    slug
                    description
                    createdAt
                    updatedAt
                    createdBy {
                        id
                        displayName
                        email
                    }
                }
                totalItems
                totalPages
            }
        }
        ".

Definition list_datasets_by_creator_query : string :=
"
        query datasetsByCreator($page: Int!, $perPage: Int!) {
            datasets(page: $page, perPage: $perPage) {
                items {
                    id
                    name
                    slug
                    description
                    createdAt
                    updatedAt
                    createdBy {
                        id
                        displayName
                        email
                    }
                }
                totalItems
                totalPages
            }
        }
        ".

Definition preview_dataset_file_query : string :=
"
        query GetDatasetVersionFileSample($id: ID!) {
          datasetVersionFile(id: $id) {
            id
            properties
            fileSample {
              sample
              status
              statusReason
              __typename
            }
            __typename
          }
        }
        ".

(* ================================================================== *)
(** ** Process-wide configuration *)

(** What the module reads at import time: the SDK client ([None] when the
    import failed), the environment variables, and the two collaborators of
    the packaging helper (archive library and clock). *)
Record Env : Type := {
  openhexa : option Client;
  environ : list (string * string);
  zipfile : ZipLib;
  localtime : DateTime
}.

(** [os.environ.get(name)] *)
Fixpoint getenv (name : string) (vars : list (string * string)) : option string :=
  match vars with
  | [] => None
  | (k, v) :: rest => if String.eqb k name then Some v else getenv name rest
  end.

(** [bool(x)] for [x : str | None] *)
Definition str_truthy (x : option string) : bool :=
  match x with
  | Some s => negb (String.eqb s EmptyString)
  | None => false
  end.

Definition OPENHEXA_AVAILABLE (env : Env) : bool :=
  (match openhexa env with Some _ => true | None => false end
   && str_truthy (getenv "HEXA_SERVER_URL" (environ env))
   && str_truthy (getenv "HEXA_TOKEN" (environ env)))%bool.

(** A method call [openhexa.attr(...)]: on [None] it is an attribute error. *)
Definition sdk {A} (env : Env) (attr : string) (req : Request)
           (behaviour : Client -> Trace -> Result A) : M A :=
  match openhexa env with
  | Some client => transport req (behaviour client)
  | None => raise (AttributeError VNone attr)
  end.

(** [openhexa.execute(query=query, variables=variables)] *)
Definition execute (env : Env) (query : string) (variables : PyVal) : M Response :=
  sdk env "execute" (ReqExecute query variables)
      (fun client t => sdk_execute client t query variables).

(** [openhexa.execute(query, second)], both arguments positional. *)
Definition execute_args (env : Env) (query : string) (second : PyVal) : M Response :=
  sdk env "execute" (ReqExecuteArgs query second)
      (fun client t => sdk_execute_args client t query second).

(* ------------------------------------------------------------------ *)
(** *** Small helpers shared by the tools *)

Definition rbind {A B} (r : Result A) (k : A -> Result B) : Result B :=
  match r with
  | Return a => k a
  | Raise e => Raise e
  end.

Notation "x <~ r ;; k" := (rbind r (fun x => k))
  (at level 61, r at next level, right associativity).

Definition error_dict (msg : string) : PyVal := VDict [("error", VStr msg)].

Definition config_error : PyVal :=
  error_dict "OpenHEXA SDK not available. Please configure your OpenHEXA credentials.".

(** [str(e)] *)
Definition str_exn (e : Exn) : string := exn_text e.

Definition len {A} (l : list A) : Z := Z.of_nat (List.length l).

(** A list comprehension with a condition that may raise. *)
Fixpoint filter_r (cond : PyVal -> Result bool) (l : list PyVal)
  : Result (list PyVal) :=
  match l with
  | [] => Return []
  | x :: rest =>
      keep <~ cond x ;;
      kept <~ filter_r cond rest ;;
      Return (if keep then x :: kept else kept)
  end.

Definition opt_str (x : option string) : PyVal :=
  match x with Some s => VStr s | None => VNone end.

(* ================================================================== *)
(** ** The tools *)

Definition list_workspaces (env : Env) (page per_page : Z) : M PyVal :=
  if negb (OPENHEXA_AVAILABLE env) then ret config_error else
  try_except
    (workspaces_page <- sdk env "workspaces" (ReqWorkspaces page per_page)
                            (fun c t => sdk_workspaces c t page per_page) ;;
     ret (VDict [("workspaces", VList (map model_dump (items workspaces_page)));
                 ("total_pages", VInt (total_pages workspaces_page));
                 ("current_page", VInt page);
                 ("per_page", VInt per_page);
                 ("count", VInt (len (items workspaces_page)))]))
    (fun e => ret (error_dict (str_exn e))).

Definition get_workspace_details (env : Env) (workspace_slug : string) : M PyVal :=
  if negb (OPENHEXA_AVAILABLE env) then ret config_error else
  try_except
    (workspace <- sdk env "workspace" (ReqWorkspace workspace_slug)
                      (fun c t => sdk_workspace c t workspace_slug) ;;
     match workspace with
     | Some w => ret (model_dump w)
     | None => ret (error_dict ("Workspace '" ++ workspace_slug ++ "' not found"))
     end)
    (fun e => ret (error_dict (str_exn e))).

(** The test of the comprehension in [list_datasets]:
    [d.get("workspace", {}).get("slug") == workspace_slug] *)
Definition in_workspace (workspace_slug : string) (d : PyVal) : Result bool :=
  workspace <~ py_get d "workspace" (VDict []) ;;
  slug <~ py_get workspace "slug" VNone ;;
  Return (py_eq_str slug workspace_slug).

Definition list_datasets (env : Env) (page per_page : Z)
           (workspace_slug : option string) : M PyVal :=
  if negb (OPENHEXA_AVAILABLE env) then ret config_error else
  try_except
    (datasets_page <- sdk env "datasets" (ReqDatasets page per_page)
                          (fun c t => sdk_datasets c t page per_page) ;;
     let datasets := map model_dump (items datasets_page) in
     datasets <- lift (match workspace_slug with
                       | Some slug => if str_truthy workspace_slug
                                      then filter_r (in_workspace slug) datasets
                                      else Return datasets
                       | None => Return datasets
                       end) ;;
     ret (VDict [("datasets", VList datasets);
                 ("total_pages", VInt (total_pages datasets_page));
                 ("current_page", VInt page);
                 ("per_page", VInt per_page);
                 ("count", VInt (len datasets))]))
    (fun e => ret (error_dict (str_exn e))).

Definition get_dataset_details (env : Env) (dataset_id : string) : M PyVal :=
  if negb (OPENHEXA_AVAILABLE env) then ret config_error else
  try_except
    (dataset <- sdk env "dataset" (ReqDataset dataset_id)
                    (fun c t => sdk_dataset c t dataset_id) ;;
     match dataset with
     | Some d => ret (model_dump d)
     | None => ret (error_dict ("Dataset with ID '" ++ dataset_id ++ "' not found"))
     end)
    (fun e => ret (error_dict (str_exn e))).

(** [workspace_slug] is a [str] for the tool; [search_resources] passes its
    own optional argument through. *)
Definition list_pipelines (env : Env) (workspace_slug : option string)
           (page per_page : Z) : M PyVal :=
  if negb (OPENHEXA_AVAILABLE env) then ret config_error else
  try_except
    (pipelines_page <- sdk env "pipelines" (ReqPipelines workspace_slug page per_page)
                           (fun c t => sdk_pipelines c t workspace_slug page per_page) ;;
     ret (VDict [("pipelines", VList (map model_dump (items pipelines_page)));
                 ("total_pages", VInt (total_pages pipelines_page));
                 ("current_page", VInt page);
                 ("per_page", VInt per_page);
                 ("count", VInt (len (items pipelines_page)))]))
    (fun e => ret (error_dict (str_exn e))).

Definition pipeline_not_found (workspace_slug pipeline_code : string) : PyVal :=
  error_dict ("Pipeline '" ++ pipeline_code ++ "' not found in workspace '"
              ++ workspace_slug ++ "'").

Definition get_pipeline_details (env : Env) (workspace_slug pipeline_code : string)
  : M PyVal :=
  if negb (OPENHEXA_AVAILABLE env) then ret config_error else
  try_except
    (pipeline <- sdk env "pipeline" (ReqPipeline workspace_slug pipeline_code)
                     (fun c t => sdk_pipeline c t workspace_slug pipeline_code) ;;
     match pipeline with
     | Some p => ret (model_dump (pipeline_fields p))
     | None => ret (pipeline_not_found workspace_slug pipeline_code)
     end)
    (fun e => ret (error_dict (str_exn e))).

Definition get_pipeline_runs (env : Env) (workspace_slug pipeline_code : string)
  : M PyVal :=
  if negb (OPENHEXA_AVAILABLE env) then ret config_error else
  try_except
    (pipeline <- sdk env "pipeline" (ReqPipeline workspace_slug pipeline_code)
                     (fun c t => sdk_pipeline c t workspace_slug pipeline_code) ;;
     match pipeline with
     | Some p =>
         let runs := runs_items p in
         ret (VDict [("runs", VList (map model_dump runs)); ("count", VInt (len runs))])
     | None => ret (pipeline_not_found workspace_slug pipeline_code)
     end)
    (fun e => ret (error_dict (str_exn e))).

Definition list_workspace_members (env : Env) (workspace_slug : string) : M PyVal :=
  if negb (OPENHEXA_AVAILABLE env) then ret config_error else
  try_except
    (members <- sdk env "get_users" (ReqGetUsers EmptyString workspace_slug)
                    (fun c t => sdk_get_users c t EmptyString workspace_slug) ;;
     ret (VDict [("members", VList (map model_dump members));
                 ("count", VInt (len members))]))
    (fun e => ret (error_dict (str_exn e))).

(** The note of the partial-failure answers of [create_pipeline]. *)
Definition upload_failed_note : PyVal :=
  VStr "Pipeline was created but code upload failed".

Definition partial_failure (msg : string) (pipeline : PyVal) : PyVal :=
  VDict [("error", VStr msg); ("pipeline", pipeline); ("note", upload_failed_note)].

(** [create_input]: name and workspace, then the optional type and tags. *)
Definition create_input (workspace_slug name : string)
           (functional_type : option string) (tags : option (list string)) : Dict :=
  let input := [("name", VStr name); ("workspaceSlug", VStr workspace_slug)] in
  let input := match functional_type with
               | Some ft => if str_truthy functional_type
                            then dict_set "functionalType" (VStr (lower ft)) input
                            else input
               | None => input
               end in
  match tags with
  | Some (tag :: more) => dict_set "tags" (VList (map VStr (tag :: more))) input
  | _ => input
  end.

(** [description or "Created via MCP"] *)
Definition description_or_default (description : option string) : string :=
  match description with
  | Some d => if str_truthy description then d else "Created via MCP"
  | None => "Created via MCP"
  end.

Definition upload_input (workspace_slug : string) (pipeline_code : PyVal)
           (description : option string) (zipfile_b64 : string) : Dict :=
  [("workspaceSlug", VStr workspace_slug);
   ("pipelineCode", pipeline_code);
   ("name", VStr "Initial version");
   ("description", VStr (description_or_default description));
   ("zipfile", VStr zipfile_b64)].

Definition create_pipeline (env : Env) (workspace_slug name code_content : string)
           (description functional_type : option string)
           (tags : option (list string)) : M PyVal :=
  if negb (OPENHEXA_AVAILABLE env) then ret config_error else
  try_except
    (if (String.eqb workspace_slug EmptyString || String.eqb name EmptyString
         || String.eqb code_content EmptyString)%bool
     then ret (error_dict "workspace_slug, name, and code_content are required")
     else
     let create_variables :=
       VDict [("input", VDict (create_input workspace_slug name functional_type tags))] in
     result <- execute env create_query create_variables ;;
     response_data <- lift (json result) ;;
     has_errors <- lift (py_in "errors" response_data) ;;
     if has_errors
     then errors <- lift (py_getitem response_data "errors") ;;
          ret (error_dict ("GraphQL error: " ++ py_str errors))
     else
     data <- lift (py_get response_data "data" (VDict [])) ;;
     create_result <- lift (py_get data "createPipeline" (VDict [])) ;;
     success <- lift (py_get create_result "success" VNone) ;;
     if negb (truthy success)
     then errors <- lift (py_get create_result "errors" (VList [])) ;;
          ret (error_dict ("Failed to create pipeline: " ++ py_str errors))
     else
     pipeline <- lift (py_get create_result "pipeline" VNone) ;;
     if negb (truthy pipeline)
     then ret (error_dict "Pipeline creation succeeded but no pipeline data returned")
     else
     pipeline_code <- lift (py_getitem pipeline "code") ;;
     match _create_pipeline_zipfile (zipfile env) (localtime env) code_content with
     | Raise e =>
         ret (partial_failure ("Failed to create ZIP file: " ++ str_exn e) pipeline)
     | Return zipfile_b64 =>
         let upload_variables :=
           VDict [("input", VDict (upload_input workspace_slug pipeline_code
                                                description zipfile_b64))] in
         upload_result <- execute env upload_query upload_variables ;;
         upload_response_data <- lift (json upload_result) ;;
         has_errors <- lift (py_in "errors" upload_response_data) ;;
         if has_errors
         then errors <- lift (py_getitem upload_response_data "errors") ;;
              ret (partial_failure ("GraphQL error during upload: " ++ py_str errors)
                                   pipeline)
         else
         data <- lift (py_get upload_response_data "data" (VDict [])) ;;
         upload_result_data <- lift (py_get data "uploadPipeline" (VDict [])) ;;
         success <- lift (py_get upload_result_data "success" VNone) ;;
         if negb (truthy success)
         then errors <- lift (py_get upload_result_data "errors" (VList [])) ;;
              ret (partial_failure ("Failed to upload pipeline code: " ++ py_str errors)
                                   pipeline)
         else
         ret (VDict [("success", VBool true);
                     ("pipeline", pipeline);
                     ("message", VStr ("Pipeline '" ++ name
                                       ++ "' created and code uploaded successfully"))])
     end)
    (fun e => ret (error_dict ("Failed to create pipeline: " ++ str_exn e))).

Definition list_connections (env : Env) (workspace_slug : string) : M PyVal :=
  if negb (OPENHEXA_AVAILABLE env) then ret config_error else
  try_except
    (let variables := VDict [("slug", VStr workspace_slug)] in
     result <- execute_args env list_connections_query variables ;;
     response_data <- lift (json result) ;;
     has_errors <- lift (py_in "errors" response_data) ;;
     if has_errors
     then errors <- lift (py_getitem response_data "errors") ;;
          ret (error_dict ("GraphQL error: " ++ py_str errors))
     else
     data <- lift (py_get response_data "data" (VDict [])) ;;
     workspace <- lift (py_get data "workspace" VNone) ;;
     if negb (truthy workspace)
     then ret (error_dict ("Workspace '" ++ workspace_slug ++ "' not found"))
     else
     connections <- lift (py_get workspace "connections" (VList [])) ;;
     count <- lift (py_len connections) ;;
     ret (VDict [("connections", connections); ("count", VInt count)]))
    (fun e => ret (error_dict ("Failed to list connections: " ++ str_exn e))).

Definition list_webapps (env : Env) (workspace_slug : string) (page per_page : Z)
  : M PyVal :=
  if negb (OPENHEXA_AVAILABLE env) then ret config_error else
  try_except
    (let variables := VDict [("slug", VStr workspace_slug);
                             ("page", VInt page);
                             ("perPage", VInt per_page)] in
     result <- execute_args env list_webapps_query variables ;;
     response_data <- lift (json result) ;;
     has_errors <- lift (py_in "errors" response_data) ;;
     if has_errors
     then errors <- lift (py_getitem response_data "errors") ;;
          ret (error_dict ("GraphQL error: " ++ py_str errors))
     else
     data <- lift (py_get response_data "data" (VDict [])) ;;
     workspace <- lift (py_get data "workspace" VNone) ;;
     if negb (truthy workspace)
     then ret (error_dict ("Workspace '" ++ workspace_slug ++ "' not found"))
     else
     webapps_data <- lift (py_get workspace "webapps" (VDict [])) ;;
     webapps <- lift (py_get webapps_data "items" (VList [])) ;;
     total_pages <- lift (py_get webapps_data "totalPages" (VInt 0)) ;;
     total_items <- lift (py_get webapps_data "totalItems" (VInt 0)) ;;
     current_page <- lift (py_get webapps_data "pageNumber" (VInt page)) ;;
     ret (VDict [("webapps", webapps);
                 ("total_pages", total_pages);
                 ("total_items", total_items);
                 ("current_page", current_page)]))
    (fun e => ret (error_dict ("Failed to list webapps: " ++ str_exn e))).

(** The test of the three loops of [search_resources]:
    [query.lower() in obj.get("name", "").lower()
     or query.lower() in obj.get("description", "").lower()] *)
Definition matches_query (query : string) (obj : PyVal) : Result bool :=
  name <~ py_get obj "name" (VStr EmptyString) ;;
  name <~ py_lower name ;;
  if is_substring (lower query) name then Return true else
  description <~ py_get obj "description" (VStr EmptyString) ;;
  description <~ py_lower description ;;
  Return (is_substring (lower query) description).

(** One loop of [search_resources]: [unwrap] picks the object to test and to
    report; matches are appended to [results]. *)
Fixpoint search_loop (query type : string) (unwrap : PyVal -> Result PyVal)
         (entries : list PyVal) (results : list PyVal) : Result (list PyVal) :=
  match entries with
  | [] => Return results
  | entry :: rest =>
      obj <~ unwrap entry ;;
      hit <~ matches_query query obj ;;
      search_loop query type unwrap rest
        (if hit
         then (results ++ [VDict [("type", VStr type); ("resource", obj)]])%list
         else results)
  end.

(** One block of [search_resources]: the listing answer is searched only when
    it has a truthy [success] entry. *)
Definition search_block (query type key : string) (unwrap : PyVal -> Result PyVal)
           (listing : PyVal) (results : list PyVal) : Result (list PyVal) :=
  success <~ py_get listing "success" VNone ;;
  if truthy success
  then found <~ py_get listing key (VList []) ;;
       entries <~ py_iter found ;;
       search_loop query type unwrap entries results
  else Return results.

(** [not resource_type or resource_type == type] *)
Definition wants (resource_type : option string) (type : string) : bool :=
  (negb (str_truthy resource_type) || py_eq_str (opt_str resource_type) type)%bool.

Definition search_resources (env : Env) (query : string)
           (resource_type workspace_slug : option string) : M PyVal :=
  if negb (OPENHEXA_AVAILABLE env) then ret config_error else
  try_except
    (let results := [] in
     results <- (if wants resource_type "workspace"
                 then workspace_results <- list_workspaces env 1 10 ;;
                      lift (search_block query "workspace" "workspaces"
                                         (fun w => Return w) workspace_results results)
                 else ret results) ;;
     results <- (if wants resource_type "dataset"
                 then dataset_results <- list_datasets env 1 10 workspace_slug ;;
                      lift (search_block query "dataset" "datasets"
                                         (fun d => py_get d "dataset" d)
                                         dataset_results results)
                 else ret results) ;;
     results <- (if wants resource_type "pipeline"
                 then pipeline_results <- list_pipelines env workspace_slug 1 10 ;;
                      lift (search_block query "pipeline" "pipelines"
                                         (fun p => Return p) pipeline_results results)
                 else ret results) ;;
     ret (VDict [("success", VBool true);
                 ("query", VStr query);
                 ("results", VList results);
                 ("count", VInt (len results))]))
    (fun e => ret (error_dict ("Failed to search resources: " ++ str_exn e))).

Definition list_dataset_versions (env : Env) (dataset_id : string) : M PyVal :=
  if negb (OPENHEXA_AVAILABLE env) then ret config_error else
  try_except
    (result <- execute env list_dataset_versions_query
                       (VDict [("id", VStr dataset_id)]) ;;
     response_data <- lift (json result) ;;
     has_errors <- lift (py_in "errors" response_data) ;;
     if has_errors
     then errors <- lift (py_getitem response_data "errors") ;;
          ret (error_dict ("GraphQL error: " ++ py_str errors))
     else
     data <- lift (py_get response_data "data" (VDict [])) ;;
     dataset <- lift (py_get data "dataset" VNone) ;;
     if negb (truthy dataset)
     then ret (error_dict ("Dataset '" ++ dataset_id ++ "' not found"))
     else
     versions <- lift (py_get dataset "versions" (VDict [])) ;;
     versions <- lift (py_get versions "items" (VList [])) ;;
     count <- lift (py_len versions) ;;
     ret (VDict [("versions", versions); ("count", VInt count)]))
    (fun e => ret (error_dict ("Failed to list dataset versions: " ++ str_exn e))).

Definition get_dataset_version_details (env : Env) (version_id : string) : M PyVal :=
  if negb (OPENHEXA_AVAILABLE env) then ret config_error else
  try_except
    (result <- execute env get_dataset_version_details_query
                       (VDict [("id", VStr version_id)]) ;;
     response_data <- lift (json result) ;;
     has_errors <- lift (py_in "errors" response_data) ;;
     if has_errors
     then errors <- lift (py_getitem response_data "errors") ;;
          ret (error_dict ("GraphQL error: " ++ py_str errors))
     else
     data <- lift (py_get response_data "data" (VDict [])) ;;
     version <- lift (py_get data "datasetVersion" VNone) ;;
     if negb (truthy version)
     then ret (error_dict ("Dataset version '" ++ version_id ++ "' not found"))
     else ret (VDict [("version", version)]))
    (fun e => ret (error_dict ("Failed to get dataset version details: " ++ str_exn e))).

(** [{**file, "version_id": version["id"], "version_name": version["name"]}] *)
Definition file_row (version file : PyVal) : Result PyVal :=
  match file with
  | VDict fields =>
      version_id <~ py_getitem version "id" ;;
      version_name <~ py_getitem version "name" ;;
      Return (VDict (dict_set "version_name" version_name
                              (dict_set "version_id" version_id fields)))
  | _ => Raise (TypeError ("'" ++ type_name file ++ "' object is not a mapping"))
  end.

(** The inner loop of [list_dataset_files], over the files of one version. *)
Fixpoint files_loop (version : PyVal) (version_files : list PyVal)
         (files : list PyVal) : Result (list PyVal) :=
  match version_files with
  | [] => Return files
  | file :: rest =>
      row <~ file_row version file ;;
      files_loop version rest (files ++ [row])%list
  end.

(** The outer loop of [list_dataset_files], over the versions. *)
Fixpoint versions_loop (versions : list PyVal) (files : list PyVal)
  : Result (list PyVal) :=
  match versions with
  | [] => Return files
  | version :: rest =>
      version_files <~ py_get version "files" (VDict []) ;;
      version_files <~ py_get version_files "items" (VList []) ;;
      version_files <~ py_iter version_files ;;
      files <~ files_loop version version_files files ;;
      versions_loop rest files
  end.

Definition list_dataset_files (env : Env) (dataset_id : string) : M PyVal :=
  if negb (OPENHEXA_AVAILABLE env) then ret config_error else
  try_except
    (result <- execute env list_dataset_files_query
                       (VDict [("id", VStr dataset_id)]) ;;
     response_data <- lift (json result) ;;
     has_errors <- lift (py_in "errors" response_data) ;;
     if has_errors
     then errors <- lift (py_getitem response_data "errors") ;;
          ret (VDict [("error", VStr ("GraphQL error: " ++ py_str errors));
                      ("raw", response_data)])
     else
     data <- lift (py_get response_data "data" (VDict [])) ;;
     dataset <- lift (py_get data "dataset" VNone) ;;
     if negb (truthy dataset)
     then ret (error_dict ("Dataset '" ++ dataset_id ++ "' not found"))
     else
     versions <- lift (py_get dataset "versions" (VDict [])) ;;
     versions <- lift (py_get versions "items" (VList [])) ;;
     versions <- lift (py_iter versions) ;;
     files <- lift (versions_loop versions []) ;;
     ret (VDict [("files", VList files); ("count", VInt (len files))]))
    (fun e => ret (error_dict ("Failed to list dataset files: " ++ str_exn e))).

Definition get_dataset_file_details (env : Env) (file_id : string) : M PyVal :=
  if negb (OPENHEXA_AVAILABLE env) then ret config_error else
  try_except
    (let variables := VDict [("id", VStr file_id)] in
     result <- execute env get_dataset_file_details_query variables ;;
     response_data <- lift (json result) ;;
     has_errors <- lift (py_in "errors" response_data) ;;
     if has_errors
     then errors <- lift (py_getitem response_data "errors") ;;
          ret (error_dict ("GraphQL error: " ++ py_str errors))
     else
     data <- lift (py_get response_data "data" (VDict [])) ;;
     file <- lift (py_get data "datasetVersionFile" VNone) ;;
     if negb (truthy file)
     then ret (error_dict ("File '" ++ file_id ++ "' not found"))
     else ret (VDict [("file", file)]))
    (fun e => ret (error_dict ("Failed to get file details: " ++ str_exn e))).

Definition search_datasets (env : Env) (query_str : string) (page per_page : Z)
  : M PyVal :=
  if negb (OPENHEXA_AVAILABLE env) then ret config_error else
  try_except
    (let variables := VDict [("query", VStr query_str);
                             ("page", VInt page);
                             ("perPage", VInt per_page)] in
     result <- execute env search_datasets_query variables ;;
     response_data <- lift (json result) ;;
     has_errors <- lift (py_in "errors" response_data) ;;
     if has_errors
     then errors <- lift (py_getitem response_data "errors") ;;
          ret (error_dict ("GraphQL error: " ++ py_str errors))
     else
     data <- lift (py_get response_data "data" (VDict [])) ;;
     datasets_info <- lift (py_get data "datasets" (VDict [])) ;;
     datasets <- lift (py_get datasets_info "items" (VList [])) ;;
     total_items <- lift (py_get datasets_info "totalItems" (VInt 0)) ;;
     total_pages <- lift (py_get datasets_info "totalPages" (VInt 0)) ;;
     count <- lift (py_len datasets) ;;
     ret (VDict [("datasets", datasets);
                 ("count", VInt count);
                 ("total_items", total_items);
                 ("total_pages", total_pages);
                 ("current_page", VInt page);
                 ("per_page", VInt per_page)]))
    (fun e => ret (error_dict ("Failed to search datasets: " ++ str_exn e))).

(** The test of the comprehension in [list_datasets_by_creator]:
    [d.get("createdBy", {}).get("email") == creator_email] *)
Definition created_by (creator_email : string) (d : PyVal) : Result bool :=
  creator <~ py_get d "createdBy" (VDict []) ;;
  email <~ py_get creator "email" VNone ;;
  Return (py_eq_str email creator_email).

Definition list_datasets_by_creator (env : Env) (creator_email : string)
           (page per_page : Z) : M PyVal :=
  if negb (OPENHEXA_AVAILABLE env) then ret config_error else
  try_except
    (let variables := VDict [("page", VInt page); ("perPage", VInt per_page)] in
     result <- execute env list_datasets_by_creator_query variables ;;
     response_data <- lift (json result) ;;
     has_errors <- lift (py_in "errors" response_data) ;;
     if has_errors
     then errors <- lift (py_getitem response_data "errors") ;;
          ret (error_dict ("GraphQL error: " ++ py_str errors))
     else
     data <- lift (py_get response_data "data" (VDict [])) ;;
     datasets <- lift (py_get data "datasets" (VDict [])) ;;
     datasets <- lift (py_get datasets "items" (VList [])) ;;
     datasets <- lift (py_iter datasets) ;;
     filtered <- lift (filter_r (created_by creator_email) datasets) ;;
     ret (VDict [("datasets", VList filtered);
                 ("count", VInt (len filtered));
                 ("current_page", VInt page);
                 ("per_page", VInt per_page)]))
    (fun e => ret (error_dict ("Failed to list datasets by creator: " ++ str_exn e))).

(** [sample_info.get(key) if sample_info else None] *)
Definition sample_field (sample_info : PyVal) (key : string) : Result PyVal :=
  if truthy sample_info then py_get sample_info key VNone else Return VNone.

Definition preview_dataset_file (env : Env) (file_id : string) : M PyVal :=
  if negb (OPENHEXA_AVAILABLE env) then ret config_error else
  try_except
    (let variables := VDict [("id", VStr file_id)] in
     result <- execute env preview_dataset_file_query variables ;;
     response_data <- lift (json result) ;;
     has_errors <- lift (py_in "errors" response_data) ;;
     if has_errors
     then errors <- lift (py_getitem response_data "errors") ;;
          ret (VDict [("error", VStr ("GraphQL error: " ++ py_str errors));
                      ("raw", response_data)])
     else
     data <- lift (py_get response_data "data" (VDict [])) ;;
     file_data <- lift (py_get data "datasetVersionFile" VNone) ;;
     if negb (truthy file_data)
     then ret (error_dict ("File '" ++ file_id ++ "' not found"))
     else
     sample_info <- lift (py_get file_data "fileSample" VNone) ;;
     sample <- lift (sample_field sample_info "sample") ;;
     status <- lift (sample_field sample_info "status") ;;
     status_reason <- lift (sample_field sample_info "statusReason") ;;
     properties <- lift (py_get file_data "properties" VNone) ;;
     ret (VDict [("file_id", VStr file_id);
                 ("sample", sample);
                 ("status", status);
                 ("status_reason", status_reason);
                 ("properties", properties)]))
    (fun e => ret (error_dict ("Failed to preview file: " ++ str_exn e))).

(* ================================================================== *)
(** ** The tool surface *)

(** A call of one of the nineteen tools with its arguments (defaults are
    filled in by the caller). *)
Inductive ToolCall : Type :=
| Call_list_workspaces (page per_page : Z)
| Call_get_workspace_details (workspace_slug : string)
| Call_list_datasets (page per_page : Z) (workspace_slug : option string)
| Call_get_dataset_details (dataset_id : string)
| Call_list_pipelines (workspace_slug : string) (page per_page : Z)
| Call_get_pipeline_details (workspace_slug pipeline_code : string)
| Call_get_pipeline_runs (workspace_slug pipeline_code : string)
| Call_list_workspace_members (workspace_slug : string)
| Call_create_pipeline (workspace_slug name code_content : string)
                       (description functional_type : option string)
                       (tags : option (list string))
| Call_list_connections (workspace_slug : string)
| Call_list_webapps (workspace_slug : string) (page per_page : Z)
| Call_search_resources (query : string) (resource_type workspace_slug : option string)
| Call_list_dataset_versions (dataset_id : string)
| Call_get_dataset_version_details (version_id : string)
| Call_list_dataset_files (dataset_id : string)
| Call_get_dataset_file_details (file_id : string)
| Call_search_datasets (query_str : string) (page per_page : Z)
| Call_list_datasets_by_creator (creator_email : string) (page per_page : Z)
| Call_preview_dataset_file (file_id : string).

Definition invoke (env : Env) (call : ToolCall) : M PyVal :=
  match call with
  | Call_list_workspaces page per_page => list_workspaces env page per_page
  | Call_get_workspace_details slug => get_workspace_details env slug
  | Call_list_datasets page per_page slug => list_datasets env page per_page slug
  | Call_get_dataset_details id => get_dataset_details env id
  | Call_list_pipelines slug page per_page => list_pipelines env (Some slug) page per_page
  | Call_get_pipeline_details slug code => get_pipeline_details env slug code
  | Call_get_pipeline_runs slug code => get_pipeline_runs env slug code
  | Call_list_workspace_members slug => list_workspace_members env slug
  | Call_create_pipeline slug name code description functional_type tags =>
      create_pipeline env slug name code description functional_type tags
  | Call_list_connections slug => list_connections env slug
  | Call_list_webapps slug page per_page => list_webapps env slug page per_page
  | Call_search_resources query resource_type slug =>
      search_resources env query resource_type slug
  | Call_list_dataset_versions id => list_dataset_versions env id
  | Call_get_dataset_version_details id => get_dataset_version_details env id
  | Call_list_dataset_files id => list_dataset_files env id
  | Call_get_dataset_file_details id => get_dataset_file_details env id
  | Call_search_datasets query page per_page => search_datasets env query page per_page
  | Call_list_datasets_by_creator email page per_page =>
      list_datasets_by_creator env email page per_page
  | Call_preview_dataset_file id => preview_dataset_file env id
  end.

(** A tool call from a fresh spy: what it returns and what the spy saw. *)
Definition run (env : Env) (call : ToolCall) : Result PyVal * Trace :=
  invoke env call [].

(* ================================================================== *)
(** ** Vocabulary of the properties *)

(** The strict reading of a path of keys through nested JSON objects. *)
Fixpoint walk (path : list string) (v : PyVal) : option PyVal :=
  match path with
  | [] => Some v
  | key :: rest =>
      match v with
      | VDict d => match lookup key d with
                   | Some x => walk rest x
                   | None => None
                   end
      | _ => None
      end
  end.

(** The JSON object the transport answers a first [execute] call with, when
    the call returns, the body decodes to an object and the object has no
    [errors] entry. *)
Definition answer (env : Env) (query : string) (variables : PyVal) : option Dict :=
  match openhexa env with
  | Some client =>
      match sdk_execute client [] query variables with
      | Return response =>
          match json response with
          | Return (VDict d) => if has_key "errors" d then None else Some d
          | _ => None
          end
      | Raise _ => None
      end
  | None => None
  end.

(** The same for a first [execute] call with positional arguments. *)
Definition answer_args (env : Env) (query : string) (second : PyVal) : option Dict :=
  match openhexa env with
  | Some client =>
      match sdk_execute_args client [] query second with
      | Return response =>
          match json response with
          | Return (VDict d) => if has_key "errors" d then None else Some d
          | _ => None
          end
      | Raise _ => None
      end
  | None => None
  end.

Definition answer_list_args (env : Env) (query : string) (second : PyVal)
           (path : list string) : option (list PyVal) :=
  match answer_args env query second with
  | Some d => match walk path (VDict d) with
              | Some (VList l) => Some l
              | _ => None
              end
  | None => None
  end.

(** The list found at [path] in that answer. *)
Definition answer_list (env : Env) (query : string) (variables : PyVal)
           (path : list string) : option (list PyVal) :=
  match answer env query variables with
  | Some d => match walk path (VDict d) with
              | Some (VList l) => Some l
              | _ => None
              end
  | None => None
  end.

(** The page an SDK accessor answers a first call with. *)
Definition answer_page (env : Env) (accessor : Client -> Trace -> Result Page)
  : option (list PyVal) :=
  match openhexa env with
  | Some client =>
      match accessor client [] with
      | Return page => Some (map model_dump (items page))
      | Raise _ => None
      end
  | None => None
  end.

(** The resource list the transport delivers to a listing operation; [None]
    for the other tools and when the transport does not deliver one. *)
Definition fetched (env : Env) (call : ToolCall) : option (list PyVal) :=
  match call with
  | Call_list_workspaces page per_page =>
      answer_page env (fun c t => sdk_workspaces c t page per_page)
  | Call_list_datasets page per_page _ =>
      answer_page env (fun c t => sdk_datasets c t page per_page)
  | Call_list_pipelines slug page per_page =>
      answer_page env (fun c t => sdk_pipelines c t (Some slug) page per_page)
  | Call_list_connections slug =>
      answer_list_args env list_connections_query (VDict [("slug", VStr slug)])
                       ["data"; "workspace"; "connections"]
  | Call_list_webapps slug page per_page =>
      answer_list_args env list_webapps_query
                  (VDict [("slug", VStr slug); ("page", VInt page);
                          ("perPage", VInt per_page)])
                  ["data"; "workspace"; "webapps"; "items"]
  | Call_list_dataset_versions id =>
      answer_list env list_dataset_versions_query (VDict [("id", VStr id)])
                  ["data"; "dataset"; "versions"; "items"]
  | Call_list_dataset_files id =>
      answer_list env list_dataset_files_query (VDict [("id", VStr id)])
                  ["data"; "dataset"; "versions"; "items"]
  | Call_search_datasets query page per_page =>
      answer_list env search_datasets_query
                  (VDict [("query", VStr query); ("page", VInt page);
                          ("perPage", VInt per_page)])
                  ["data"; "datasets"; "items"]
  | Call_list_datasets_by_creator _ page per_page =>
      answer_list env list_datasets_by_creator_query
                  (VDict [("page", VInt page); ("perPage", VInt per_page)])
                  ["data"; "datasets"; "items"]
  | _ => None
  end.

(** The key a listing operation files its list under. *)
Definition resource_key (call : ToolCall) : option string :=
  match call with
  | Call_list_workspaces _ _ => Some "workspaces"
  | Call_list_datasets _ _ _ => Some "datasets"
  | Call_list_pipelines _ _ _ => Some "pipelines"
  | Call_list_connections _ => Some "connections"
  | Call_list_webapps _ _ _ => Some "webapps"
  | Call_list_dataset_versions _ => Some "versions"
  | Call_list_dataset_files _ => Some "files"
  | Call_search_datasets _ _ _ => Some "datasets"
  | Call_list_datasets_by_creator _ _ _ => Some "datasets"
  | _ => None
  end.

Definition is_list_webapps (call : ToolCall) : bool :=
  match call with Call_list_webapps _ _ _ => true | _ => false end.

Definition is_search_resources (call : ToolCall) : bool :=
  match call with Call_search_resources _ _ _ => true | _ => false end.

(** An object whose entry [key] is absent or is itself an object. *)
Definition opens (key : string) (v : PyVal) : bool :=
  match v with
  | VDict d => match lookup key d with
               | None => true
               | Some (VDict _) => true
               | Some _ => false
               end
  | _ => false
  end.

Definition is_object (v : PyVal) : bool :=
  match v with VDict _ => true | _ => false end.

(** The files of a version, read strictly: [files.items], or nothing when
    either level is absent. *)
Definition version_files (version : PyVal) : option (list PyVal) :=
  match version with
  | VDict d =>
      match lookup "files" d with
      | None => Some []
      | Some (VDict f) => match lookup "items" f with
                          | None => Some []
                          | Some (VList l) => Some l
                          | Some _ => None
                          end
      | Some _ => None
      end
  | _ => None
  end.

(** A version as the query of [list_dataset_files] asks for it: an object
    with a list of file objects, and with [id] and [name] when it has files. *)
Definition version_ok (version : PyVal) : bool :=
  match version_files version, version with
  | Some [], _ => true
  | Some files, VDict d =>
      (forallb is_object files && has_key "id" d && has_key "name" d)%bool
  | _, _ => false
  end.

(** The shape of an item that the client-side step of a listing operation
    can read: the two filters open [workspace] and [createdBy], the file
    listing walks each version. *)
Definition item_ok (call : ToolCall) (item : PyVal) : bool :=
  match call with
  | Call_list_datasets _ _ slug =>
      if str_truthy slug then opens "workspace" item else true
  | Call_list_datasets_by_creator _ _ _ => opens "createdBy" item
  | Call_list_dataset_files _ => version_ok item
  | _ => true
  end.

(** The listing operations that hand the fetched list over as it is. *)
Definition verbatim (call : ToolCall) : bool :=
  match call with
  | Call_list_datasets _ _ slug => negb (str_truthy slug)
  | Call_list_datasets_by_creator _ _ _ => false
  | Call_list_dataset_files _ => false
  | _ => true
  end.

(** The answer has the list [l] under [key] and its length under [count]. *)
Definition counted (key : string) (l : list PyVal) (out : PyVal) : Prop :=
  exists d, out = VDict d
            /\ lookup key d = Some (VList l)
            /\ lookup "count" d = Some (VInt (len l)).

(** [item.createdBy.email == email], read strictly. *)
Definition creator_is (email : string) (item : PyVal) : bool :=
  match walk ["createdBy"; "email"] item with
  | Some v => py_eq_str v email
  | None => false
  end.

(** [item.workspace.slug == slug], read strictly. *)
Definition workspace_is (slug : string) (item : PyVal) : bool :=
  match walk ["workspace"; "slug"] item with
  | Some v => py_eq_str v slug
  | None => false
  end.

(** The event of a transport call that returned. *)
Definition returned (req : Request) : Event := {| request := req; raised := None |}.

(** What the remote reports when step 1 of [create_pipeline] fails: a
    GraphQL [errors] entry, or a [createPipeline] result whose [success] is
    not truthy, with the errors it lists. *)
Inductive reports_failure (mutation : string) (response_data : Dict) : PyVal -> Prop :=
| graphql_errors errors :
    lookup "errors" response_data = Some errors ->
    reports_failure mutation response_data errors
| success_false data result :
    lookup "errors" response_data = None ->
    lookup "data" response_data = Some (VDict data) ->
    lookup mutation data = Some (VDict result) ->
    truthy (match lookup "success" result with Some s => s | None => VNone end) = false ->
    reports_failure mutation response_data
      (match lookup "errors" result with Some e => e | None => VList [] end).

(** Step 1 of [create_pipeline] succeeded with the object [pipeline]. *)
Definition reports_pipeline (response_data : Dict) (pipeline : PyVal) (code : PyVal)
  : Prop :=
  lookup "errors" response_data = None
  /\ exists data result fields success,
      lookup "data" response_data = Some (VDict data)
      /\ lookup "createPipeline" data = Some (VDict result)
      /\ lookup "success" result = Some success /\ truthy success = true
      /\ lookup "pipeline" result = Some pipeline
      /\ pipeline = VDict fields /\ lookup "code" fields = Some code.

(** A member with its timestamp blanked. *)
Definition epoch : DateTime :=
  {| year := 1980; month := 1; day := 1; hour := 0; minute := 0; second := 0 |}.

Definition without_time (m : ZipEntry) : ZipEntry :=
  {| info := {| filename := filename (info m); date_time := epoch;
                compress_type := compress_type (info m) |};
     stored := stored m |}.

(** [text] is base64 for the byte image of [archive]. *)
Definition packs (lib : ZipLib) (text : string) (archive : list ZipEntry) : Prop :=
  Base64.b64decode text = Some (archive_bytes lib archive).

(** Step 2 of [create_pipeline] fails after [history]: the packaging helper
    raises, or the [uploadPipeline] mutation reports failure. *)
Inductive upload_step_fails (env : Env) (client : Client) (history : Trace)
          (workspace_slug code_content : string) (description : option string)
          (pipeline_code : PyVal) : Prop :=
| packaging_raises e :
    _create_pipeline_zipfile (zipfile env) (localtime env) code_content = Raise e ->
    upload_step_fails env client history workspace_slug code_content description
                      pipeline_code
| upload_reports_failure zipfile_b64 response response_data errors :
    _create_pipeline_zipfile (zipfile env) (localtime env) code_content
    = Return zipfile_b64 ->
    sdk_execute client history upload_query
                (VDict [("input", VDict (upload_input workspace_slug pipeline_code
                                                      description zipfile_b64))])
    = Return response ->
    json response = Return (VDict response_data) ->
    reports_failure "uploadPipeline" response_data errors ->
    upload_step_fails env client history workspace_slug code_content description
                      pipeline_code.

(** The failure answer with the single key [error]. *)
Definition single_error (out : PyVal) : Prop :=
  exists msg, out = VDict [("error", VStr msg)].

Definition is_create_pipeline (call : ToolCall) : bool :=
  match call with Call_create_pipeline _ _ _ _ _ _ => true | _ => false end.

(** The two tools that attach the raw answer to a GraphQL error. *)
Definition attaches_raw (call : ToolCall) : bool :=
  match call with
  | Call_list_dataset_files _ => true
  | Call_preview_dataset_file _ => true
  | _ => false
  end.

(** The answer of a details tool that is the remote object itself, as the
    SDK dumps it: the tool does not choose its keys. *)
Definition remote_dump (env : Env) (call : ToolCall) (out : PyVal) : Prop :=
  match call with
  | Call_get_workspace_details slug =>
      exists client w, openhexa env = Some client
                       /\ sdk_workspace client [] slug = Return (Some w)
                       /\ out = model_dump w
  | Call_get_dataset_details id =>
      exists client d, openhexa env = Some client
                       /\ sdk_dataset client [] id = Return (Some d)
                       /\ out = model_dump d
  | Call_get_pipeline_details slug code =>
      exists client p, openhexa env = Some client
                       /\ sdk_pipeline client [] slug code = Return (Some p)
                       /\ out = model_dump (pipeline_fields p)
  | _ => False
  end.

(* ------------------------------------------------------------------ *)
(** *** Properties of computations *)

(** A computation in which an exception of the transport ends the
    computation with that exception: nothing catches it on the way. *)
Definition fails_fast {A} (m : M A) : Prop :=
  forall t, exists events,
    snd (m t) = (t ++ events)%list
    /\ forall e, transport_raised e events -> fst (m t) = Raise e.

(** Every value a computation returns satisfies [Q]. *)
Definition yields (Q : PyVal -> Prop) (m : M PyVal) : Prop :=
  forall t v t', m t = (Return v, t') -> Q v.

(** No listing tool ever puts a [success] entry in its answer. *)
Definition lacks_success (out : PyVal) : Prop :=
  exists d, out = VDict d /\ lookup "success" d = None.


(* ================================================================== *)
(** ** Stub collaborators for concrete runs *)

Module Stub.

Definition refused : Exn := PyExn "ConnectionError" "connection refused".

(** A client every call of which raises [refused]. *)
Definition offline : Client := {|
  sdk_workspaces := fun _ _ _ => Raise refused;
  sdk_workspace := fun _ _ => Raise refused;
  sdk_datasets := fun _ _ _ => Raise refused;
  sdk_dataset := fun _ _ => Raise refused;
  sdk_pipelines := fun _ _ _ _ => Raise refused;
  sdk_pipeline := fun _ _ _ => Raise refused;
  sdk_get_users := fun _ _ _ => Raise refused;
  sdk_execute := fun _ _ _ => Raise refused;
  sdk_execute_args := fun _ _ _ => Raise refused
|}.

(** A client whose n-th call of [execute] answers with the n-th body, and
    whose other calls raise. *)
Definition scripted (bodies : list PyVal) : Client := {|
  sdk_workspaces := fun _ _ _ => Raise refused;
  sdk_workspace := fun _ _ => Raise refused;
  sdk_datasets := fun _ _ _ => Raise refused;
  sdk_dataset := fun _ _ => Raise refused;
  sdk_pipelines := fun _ _ _ _ => Raise refused;
  sdk_pipeline := fun _ _ _ => Raise refused;
  sdk_get_users := fun _ _ _ => Raise refused;
  sdk_execute := fun t _ _ =>
    match nth_error bodies (List.length t) with
    | Some body => Return {| json := Return body |}
    | None => Raise refused
    end;
  sdk_execute_args := fun t _ _ =>
    match nth_error bodies (List.length t) with
    | Some body => Return {| json := Return body |}
    | None => Raise refused
    end
|}.

(** A client whose three page accessors answer with one page. *)
Definition paged (page : Page) : Client := {|
  sdk_workspaces := fun _ _ _ => Return page;
  sdk_workspace := fun _ _ => Raise refused;
  sdk_datasets := fun _ _ _ => Return page;
  sdk_dataset := fun _ _ => Raise refused;
  sdk_pipelines := fun _ _ _ _ => Return page;
  sdk_pipeline := fun _ _ _ => Raise refused;
  sdk_get_users := fun _ _ _ => Raise refused;
  sdk_execute := fun _ _ _ => Raise refused;
  sdk_execute_args := fun _ _ _ => Raise refused
|}.

(** An archive library that stores members as they are and lays them end
    to end. *)
Definition storing : ZipLib := {|
  compress := fun _ data => Return data;
  decompress := fun _ data => Some data;
  archive_bytes := fun archive => concat (map stored archive)
|}.

(** An archive library whose compressor gives up. *)
Definition exhausted : ZipLib := {|
  compress := fun _ _ => Raise (PyExn "MemoryError" "out of memory");
  decompress := fun _ _ => None;
  archive_bytes := fun _ => []
|}.

Definition noon : DateTime :=
  {| year := 2025; month := 6; day := 1; hour := 12; minute := 0; second := 0 |}.

Definition midnight : DateTime :=
  {| year := 2026; month := 1; day := 1; hour := 0; minute := 0; second := 1 |}.

Definition credentials : list (string * string) :=
  [("HEXA_SERVER_URL", "https://hexa.example.org"); ("HEXA_TOKEN", "secret")].

Definition configured (client : Client) : Env :=
  {| openhexa := Some client; environ := credentials;
     zipfile := storing; localtime := noon |}.

(** The SDK import failed and no credential is set. *)
Definition unconfigured : Env :=
  {| openhexa := None; environ := []; zipfile := storing; localtime := noon |}.

Definition malaria : Model :=
  [("slug", VStr "malaria"); ("name", VStr "Malaria Survey");
   ("description", VStr "District level surveillance")].

Definition one_page : Page := {| items := [malaria]; total_pages := 1 |}.

Definition created_pipeline : PyVal :=
  VDict [("id", VStr "p1"); ("name", VStr "etl"); ("code", VStr "etl")].

Definition creation_ok : PyVal :=
  VDict [("data", VDict [("createPipeline",
           VDict [("success", VBool true); ("errors", VList []);
                  ("pipeline", created_pipeline)])])].

Definition creation_refused : PyVal :=
  VDict [("data", VDict [("createPipeline",
           VDict [("success", VBool false);
                  ("errors", VList [VStr "PERMISSION_DENIED"])])])].

Definition upload_refused : PyVal :=
  VDict [("data", VDict [("uploadPipeline",
           VDict [("success", VBool false);
                  ("errors", VList [VStr "INVALID_ZIP"])])])].

Definition graphql_failure : PyVal :=
  VDict [("errors", VList [VStr "boom"])].

Definition dataset_of (id email : string) : PyVal :=
  VDict [("id", VStr id); ("createdBy", VDict [("email", VStr email)])].

Definition datasets_answer : PyVal :=
  VDict [("data", VDict [("datasets", VDict [("items",
           VList [dataset_of "d1" "ada@example.org";
                  dataset_of "d2" "bob@example.org";
                  dataset_of "d3" "ada@example.org"])])])].

Definition webapps_answer : PyVal :=
  VDict [("data", VDict [("workspace", VDict [("webapps",
           VDict [("items", VList [VDict [("id", VStr "w1")]]);
                  ("pageNumber", VInt 1); ("totalItems", VInt 1);
                  ("totalPages", VInt 1)])])])].

End Stub.

(* ================================================================== *)
(** ** Vocabulary of the further properties *)

(** The requests a computation adds to the trace, whatever it returns. *)
Definition emits {A} (reqs : list Request) (m : M A) : Prop :=
  forall t, map request (snd (m t)) = (map request t ++ reqs)%list.

Definition is_mapping (out : PyVal) : Prop := exists d, out = VDict d.

(** The call on the client that a tool makes, for the tools that make one
    call; [create_pipeline] and [search_resources] make several. *)
Definition request_of (call : ToolCall) : option Request :=
  match call with
  | Call_list_workspaces page per_page => Some (ReqWorkspaces page per_page)
  | Call_get_workspace_details slug => Some (ReqWorkspace slug)
  | Call_list_datasets page per_page _ => Some (ReqDatasets page per_page)
  | Call_get_dataset_details id => Some (ReqDataset id)
  | Call_list_pipelines slug page per_page =>
      Some (ReqPipelines (Some slug) page per_page)
  | Call_get_pipeline_details slug code => Some (ReqPipeline slug code)
  | Call_get_pipeline_runs slug code => Some (ReqPipeline slug code)
  | Call_list_workspace_members slug => Some (ReqGetUsers EmptyString slug)
  | Call_create_pipeline _ _ _ _ _ _ => None
  | Call_list_connections slug =>
      Some (ReqExecuteArgs list_connections_query (VDict [("slug", VStr slug)]))
  | Call_list_webapps slug page per_page =>
      Some (ReqExecuteArgs list_webapps_query
                       (VDict [("slug", VStr slug); ("page", VInt page);
                               ("perPage", VInt per_page)]))
  | Call_search_resources _ _ _ => None
  | Call_list_dataset_versions id =>
      Some (ReqExecute list_dataset_versions_query (VDict [("id", VStr id)]))
  | Call_get_dataset_version_details id =>
      Some (ReqExecute get_dataset_version_details_query (VDict [("id", VStr id)]))
  | Call_list_dataset_files id =>
      Some (ReqExecute list_dataset_files_query (VDict [("id", VStr id)]))
  | Call_get_dataset_file_details id =>
      Some (ReqExecute get_dataset_file_details_query (VDict [("id", VStr id)]))
  | Call_search_datasets query page per_page =>
      Some (ReqExecute search_datasets_query
                       (VDict [("query", VStr query); ("page", VInt page);
                               ("perPage", VInt per_page)]))
  | Call_list_datasets_by_creator _ page per_page =>
      Some (ReqExecute list_datasets_by_creator_query
                       (VDict [("page", VInt page); ("perPage", VInt per_page)]))
  | Call_preview_dataset_file id =>
      Some (ReqExecute preview_dataset_file_query (VDict [("id", VStr id)]))
  end.

(** The listing calls of [search_resources], in the order it makes them. *)
Definition search_requests (resource_type workspace_slug : option string)
  : list Request :=
  ((if wants resource_type "workspace" then [ReqWorkspaces 1 10] else [])
   ++ (if wants resource_type "dataset" then [ReqDatasets 1 10] else [])
   ++ (if wants resource_type "pipeline"
       then [ReqPipelines workspace_slug 1 10] else []))%list.

Definition create_request (workspace_slug name : string)
           (functional_type : option string) (tags : option (list string)) : Request :=
  ReqExecute create_query
             (VDict [("input", VDict (create_input workspace_slug name
                                                   functional_type tags))]).

Definition upload_request (workspace_slug : string) (pipeline_code : PyVal)
           (description : option string) (zipfile_b64 : string) : Request :=
  ReqExecute upload_query
             (VDict [("input", VDict (upload_input workspace_slug pipeline_code
                                                   description zipfile_b64))]).

(** A computation that adds nothing to the trace, or only the upload of the
    packaged [code_content]. *)
Definition uploads_at_most (env : Env) (workspace_slug code_content : string)
           (description : option string) (m : M PyVal) : Prop :=
  forall t,
    map request (snd (m t)) = map request t
    \/ exists pipeline_code zipfile_b64,
        _create_pipeline_zipfile (zipfile env) (localtime env) code_content
        = Return zipfile_b64
        /\ map request (snd (m t))
           = (map request t
              ++ [upload_request workspace_slug pipeline_code description
                                 zipfile_b64])%list.

(** The text a tool puts before [str(e)] in its handler. *)
Definition failure_prefix (call : ToolCall) : string :=
  match call with
  | Call_create_pipeline _ _ _ _ _ _ => "Failed to create pipeline: "
  | Call_list_connections _ => "Failed to list connections: "
  | Call_list_webapps _ _ _ => "Failed to list webapps: "
  | Call_search_resources _ _ _ => "Failed to search resources: "
  | Call_list_dataset_versions _ => "Failed to list dataset versions: "
  | Call_get_dataset_version_details _ => "Failed to get dataset version details: "
  | Call_list_dataset_files _ => "Failed to list dataset files: "
  | Call_get_dataset_file_details _ => "Failed to get file details: "
  | Call_search_datasets _ _ _ => "Failed to search datasets: "
  | Call_list_datasets_by_creator _ _ _ => "Failed to list datasets by creator: "
  | Call_preview_dataset_file _ => "Failed to preview file: "
  | _ => EmptyString
  end.

(** For the tools that look one resource up under [data]: the key of the
    resource and the message when it is missing. *)
Definition looked_up (call : ToolCall) : option (string * string) :=
  match call with
  | Call_list_connections slug =>
      Some ("workspace", "Workspace '" ++ slug ++ "' not found")
  | Call_list_webapps slug _ _ =>
      Some ("workspace", "Workspace '" ++ slug ++ "' not found")
  | Call_list_dataset_versions id =>
      Some ("dataset", "Dataset '" ++ id ++ "' not found")
  | Call_get_dataset_version_details id =>
      Some ("datasetVersion", "Dataset version '" ++ id ++ "' not found")
  | Call_list_dataset_files id =>
      Some ("dataset", "Dataset '" ++ id ++ "' not found")
  | Call_get_dataset_file_details id =>
      Some ("datasetVersionFile", "File '" ++ id ++ "' not found")
  | Call_preview_dataset_file id =>
      Some ("datasetVersionFile", "File '" ++ id ++ "' not found")
  | _ => None
  end.

(** The body has no [data] entry, or its [data] object has no truthy entry
    under [key]. *)
Definition resource_missing (key : string) (response_data : Dict) : Prop :=
  lookup "data" response_data = None
  \/ exists data,
      lookup "data" response_data = Some (VDict data)
      /\ truthy (match lookup key data with Some v => v | None => VNone end) = false.

(** The decoded body of the one [execute] call of a tool, in either form of
    the call. *)
Definition decoded (env : Env) (call : ToolCall) : option (Result PyVal) :=
  match openhexa env, request_of call with
  | Some client, Some (ReqExecute query variables) =>
      match sdk_execute client [] query variables with
      | Return response => Some (json response)
      | Raise _ => None
      end
  | Some client, Some (ReqExecuteArgs query second) =>
      match sdk_execute_args client [] query second with
      | Return response => Some (json response)
      | Raise _ => None
      end
  | _, _ => None
  end.

(** A file of a version, tagged with the version it belongs to. *)
Definition tagged_file (version_id version_name : PyVal) (file : PyVal) : PyVal :=
  match file with
  | VDict fields =>
      VDict (dict_set "version_name" version_name
                      (dict_set "version_id" version_id fields))
  | other => other
  end.

(** The rows of one version: its files, tagged. *)
Definition version_rows (version : PyVal) : list PyVal :=
  match version_files version, walk ["id"] version, walk ["name"] version with
  | Some files, Some id, Some name => map (tagged_file id name) files
  | _, _, _ => []
  end.

Module Fixture.

Definition empty_errors : PyVal := VDict [("errors", VList []); ("data", VDict [])].

Definition no_data : PyVal := VDict [].

Definition null_data : PyVal := VDict [("data", VNone)].

Definition upload_ok : PyVal :=
  VDict [("data", VDict [("uploadPipeline",
           VDict [("success", VBool true); ("errors", VList [])])])].

(** A client whose [execute] answers with a body that does not decode. *)
Definition garbled : Client := {|
  sdk_workspaces := fun _ _ _ => Raise Stub.refused;
  sdk_workspace := fun _ _ => Return None;
  sdk_datasets := fun _ _ _ => Raise Stub.refused;
  sdk_dataset := fun _ _ => Return None;
  sdk_pipelines := fun _ _ _ _ => Raise Stub.refused;
  sdk_pipeline := fun _ _ _ =>
    Return (Some {| pipeline_fields := [("code", VStr "etl")];
                    runs_items := [[("id", VStr "r1")]; [("id", VStr "r2")]] |});
  sdk_get_users := fun _ _ _ => Return [[("email", VStr "ada@example.org")]];
  sdk_execute := fun _ _ _ =>
    Return {| json := Raise (PyExn "JSONDecodeError" "Expecting value") |};
  sdk_execute_args := fun _ _ _ =>
    Return {| json := Raise (PyExn "JSONDecodeError" "Expecting value") |}
|}.

Definition two_versions : PyVal :=
  VDict [("data", VDict [("dataset", VDict [("versions", VDict [("items",
    VList [VDict [("id", VStr "v1"); ("name", VStr "first");
                  ("files", VDict [("items",
                     VList [VDict [("id", VStr "f1")];
                            VDict [("id", VStr "f2")]])])];
           VDict [("id", VStr "v2"); ("name", VStr "second")]])])])])].

Definition surveys : Page :=
  {| items := [[("id", VStr "d1"); ("workspace", VDict [("slug", VStr "malaria")])];
               [("id", VStr "d2"); ("workspace", VDict [("slug", VStr "polio")])];
               [("id", VStr "d3")]];
     total_pages := 4 |}.

Definition sampled_file : PyVal :=
  VDict [("data", VDict [("datasetVersionFile",
    VDict [("id", VStr "f1"); ("properties", VStr "{}");
           ("fileSample", VDict [("sample", VStr "a,b"); ("status", VStr "FINISHED")])])])].

(** A page of two datasets, the second of which lost its creator. *)
Definition orphaned_answer : PyVal :=
  VDict [("data", VDict [("datasets", VDict [("items",
           VList [Stub.dataset_of "d1" "ada@example.org";
                  VDict [("id", VStr "d2"); ("createdBy", VNone)]])])])].

(** A page of two datasets, the second of which has no workspace object. *)
Definition detached : Page :=
  {| items := [[("id", VStr "d1"); ("workspace", VDict [("slug", VStr "malaria")])];
               [("id", VStr "d2"); ("workspace", VNone)]];
     total_pages := 1 |}.

End Fixture.

(** A request that sends one of the two mutations of the server. *)
Definition is_mutation (req : Request) : bool :=
  match req with
  | ReqExecute query _ =>
      (String.eqb query create_query || String.eqb query upload_query)%bool
  | ReqExecuteArgs query _ =>
      (String.eqb query create_query || String.eqb query upload_query)%bool
  | _ => false
  end.

(** An entry of the [fileSample] object of a file, [None] when there is no
    such object or no such entry. *)
Definition sample_entry (sample_info : PyVal) (key : string) : PyVal :=
  match sample_info with
  | VDict s => match lookup key s with Some v => v | None => VNone end
  | _ => VNone
  end.

Definition entry_or (default : PyVal) (key : string) (d : Dict) : PyVal :=
  match lookup key d with Some v => v | None => default end.

(** The answer of the two dataset searches on a body that holds no page. *)
Definition empty_page (call : ToolCall) : option PyVal :=
  match call with
  | Call_search_datasets _ page per_page =>
      Some (VDict [("datasets", VList []); ("count", VInt 0);
                   ("total_items", VInt 0); ("total_pages", VInt 0);
                   ("current_page", VInt page); ("per_page", VInt per_page)])
  | Call_list_datasets_by_creator _ page per_page =>
      Some (VDict [("datasets", VList []); ("count", VInt 0);
                   ("current_page", VInt page); ("per_page", VInt per_page)])
  | _ => None
  end.

(** The four SDK lookups and the message of each when the SDK finds nothing. *)
Definition sdk_lookup_missing (client : Client) (call : ToolCall) : option string :=
  match call with
  | Call_get_workspace_details slug =>
      match sdk_workspace client [] slug with
      | Return None => Some ("Workspace '" ++ slug ++ "' not found")
      | _ => None
      end
  | Call_get_dataset_details id =>
      match sdk_dataset client [] id with
      | Return None => Some ("Dataset with ID '" ++ id ++ "' not found")
      | _ => None
      end
  | Call_get_pipeline_details slug code =>
      match sdk_pipeline client [] slug code with
      | Return None =>
          Some ("Pipeline '" ++ code ++ "' not found in workspace '" ++ slug ++ "'")
      | _ => None
      end
  | Call_get_pipeline_runs slug code =>
      match sdk_pipeline client [] slug code with
      | Return None =>
          Some ("Pipeline '" ++ code ++ "' not found in workspace '" ++ slug ++ "'")
      | _ => None
      end
  | _ => None
  end.

(** The datasets [list_datasets] keeps of a page: those of the workspace
    when a non-empty slug is given, all of them otherwise. *)
Definition kept_datasets (workspace_slug : option string) (page_items : list PyVal)
  : list PyVal :=
  match workspace_slug with
  | Some slug => if str_truthy workspace_slug
                 then filter (workspace_is slug) page_items
                 else page_items
  | None => page_items
  end.

(* ------------------------------------------------------------------ *)
(** *** The kinds of answer of a tool *)

(** The keys of the answer a tool gives when nothing failed, in the order
    the tool writes them; [None] for the three details tools, whose answer is
    then the remote object's own dump. *)
Definition success_keys (call : ToolCall) : option (list string) :=
  match call with
  | Call_list_workspaces _ _ =>
      Some ["workspaces"; "total_pages"; "current_page"; "per_page"; "count"]
  | Call_get_workspace_details _ => None
  | Call_list_datasets _ _ _ =>
      Some ["datasets"; "total_pages"; "current_page"; "per_page"; "count"]
  | Call_get_dataset_details _ => None
  | Call_list_pipelines _ _ _ =>
      Some ["pipelines"; "total_pages"; "current_page"; "per_page"; "count"]
  | Call_get_pipeline_details _ _ => None
  | Call_get_pipeline_runs _ _ => Some ["runs"; "count"]
  | Call_list_workspace_members _ => Some ["members"; "count"]
  | Call_create_pipeline _ _ _ _ _ _ => Some ["success"; "pipeline"; "message"]
  | Call_list_connections _ => Some ["connections"; "count"]
  | Call_list_webapps _ _ _ =>
      Some ["webapps"; "total_pages"; "total_items"; "current_page"]
  | Call_search_resources _ _ _ => Some ["success"; "query"; "results"; "count"]
  | Call_list_dataset_versions _ => Some ["versions"; "count"]
  | Call_get_dataset_version_details _ => Some ["version"]
  | Call_list_dataset_files _ => Some ["files"; "count"]
  | Call_get_dataset_file_details _ => Some ["file"]
  | Call_search_datasets _ _ _ =>
      Some ["datasets"; "count"; "total_items"; "total_pages"; "current_page";
            "per_page"]
  | Call_list_datasets_by_creator _ _ _ =>
      Some ["datasets"; "count"; "current_page"; "per_page"]
  | Call_preview_dataset_file _ =>
      Some ["file_id"; "sample"; "status"; "status_reason"; "properties"]
  end.

(** The answer of a tool when nothing failed. *)
Definition success_answer (env : Env) (call : ToolCall) (out : PyVal) : Prop :=
  match success_keys call with
  | Some result_keys => exists d, out = VDict d /\ keys d = result_keys
  | None => remote_dump env call out
  end.

(** The creation step of [create_pipeline] returned the object [pipeline]:
    the first call went through, and its body reports success with it. *)
Definition created (env : Env) (workspace_slug name : string)
           (functional_type : option string) (tags : option (list string))
           (pipeline : PyVal) : Prop :=
  exists client response response_data pipeline_code,
    openhexa env = Some client
    /\ sdk_execute client [] create_query
                   (VDict [("input", VDict (create_input workspace_slug name
                                                         functional_type tags))])
       = Return response
    /\ json response = Return (VDict response_data)
    /\ reports_pipeline response_data pipeline pipeline_code.

(** The partial-failure answer of [create_pipeline]: after a creation step
    that returned [pipeline], an error with that object and the note. *)
Definition partial_failure_answer (env : Env) (call : ToolCall) (out : PyVal) : Prop :=
  match call with
  | Call_create_pipeline workspace_slug name _ _ functional_type tags =>
      exists msg pipeline,
        out = VDict [("error", VStr msg);
                     ("pipeline", pipeline);
                     ("note", VStr "Pipeline was created but code upload failed")]
        /\ created env workspace_slug name functional_type tags pipeline
  | _ => False
  end.

(** The answer of [list_dataset_files] and [preview_dataset_file] to a body
    with an [errors] entry: the error, and the decoded body under [raw]. *)
Definition raw_error_answer (env : Env) (call : ToolCall) (out : PyVal) : Prop :=
  attaches_raw call = true
  /\ exists body errors,
      decoded env call = Some (Return (VDict body))
      /\ lookup "errors" body = Some errors
      /\ out = VDict [("error", VStr ("GraphQL error: " ++ py_str errors));
                      ("raw", VDict body)].

(** An answer is the success answer of the tool or one of the three failure
    answers. *)
Definition classified (env : Env) (call : ToolCall) (out : PyVal) : Prop :=
  success_answer env call out
  \/ single_error out
  \/ partial_failure_answer env call out
  \/ raw_error_answer env call out.

(** Every value a computation returns from the trace [t] satisfies [Q]. *)
Definition yields_from (t : Trace) (Q : PyVal -> Prop) (m : M PyVal) : Prop :=
  forall v t', m t = (Return v, t') -> Q v.
(* ================================================================== *)
(** ** Base64 decoding inverts encoding *)

Module Base64Facts.
Import Base64.
Open Scope N_scope.

Lemma div_glue (k r q : N) : k <> 0 -> q < k -> (r * k + q) / k = r.
Proof. intros Hk Hq. symmetry. apply N.div_unique with q; lia. Qed.

Lemma mod_glue (k r q : N) : k <> 0 -> q < k -> (r * k + q) mod k = q.
Proof. intros Hk Hq. symmetry. apply N.mod_unique with r; lia. Qed.

(** Replace [x / k] and [x mod k] by fresh numbers tied by [x = k*q + r]. *)
Ltac split_byte x k :=
  let H := fresh in
  let H' := fresh in
  pose proof (N.div_mod x k ltac:(lia)) as H;
  pose proof (N.mod_lt x k ltac:(lia)) as H';
  generalize dependent (x / k); generalize dependent (x mod k); intros.

Lemma sextet_char (n : N) :
  n < 64 -> index_of (char_of n) = Some n /\ Ascii.eqb (char_of n) pad = false.
Proof.
  intros Hn. rewrite <- (N2Nat.id n).
  assert (Hm : (N.to_nat n < 64)%nat) by lia.
  generalize dependent (N.to_nat n). clear. intros m Hm.
  do 64 (destruct m as [|m]; [split; reflexivity|]). lia.
Qed.

Lemma index_char (n : N) : n < 64 -> index_of (char_of n) = Some n.
Proof. intros H. apply (sextet_char n H). Qed.

Lemma char_not_pad (n : N) : n < 64 -> Ascii.eqb (char_of n) pad = false.
Proof. intros H. apply (sextet_char n H). Qed.

Lemma byte_bound (a : byte) : Byte.to_N a < 256.
Proof. pose proof (Byte.to_N_bounded a). lia. Qed.

Lemma pad_is_pad : Ascii.eqb pad pad = true.
Proof. reflexivity. Qed.

Lemma decode_group1 (a : byte) : b64decode (b64encode [a]) = Some [a].
Proof.
  cbn [b64encode]. unfold quad. cbn [b64decode].
  pose proof (byte_bound a) as Ha.
  assert (H1 : Byte.to_N a / 4 < 64) by (split_byte (Byte.to_N a) 4; lia).
  assert (H2 : Byte.to_N a mod 4 * 16 < 64) by (split_byte (Byte.to_N a) 4; lia).
  rewrite (index_char _ H1), (index_char _ H2), pad_is_pad.
  cbn [andb is_empty].
  replace (Byte.to_N a / 4 * 4 + Byte.to_N a mod 4 * 16 / 16) with (Byte.to_N a).
  - rewrite Byte.of_to_N. reflexivity.
  - rewrite N.div_mul by lia. split_byte (Byte.to_N a) 4. lia.
Qed.

Lemma decode_group2 (a b : byte) : b64decode (b64encode [a; b]) = Some [a; b].
Proof.
  cbn [b64encode]. unfold quad. cbn [b64decode].
  pose proof (byte_bound a) as Ha. pose proof (byte_bound b) as Hb.
  set (x := Byte.to_N a) in *. set (y := Byte.to_N b) in *.
  assert (H1 : x / 4 < 64) by (split_byte x 4; lia).
  assert (H2 : x mod 4 * 16 + y / 16 < 64)
    by (split_byte x 4; split_byte y 16; lia).
  assert (H3 : y mod 16 * 4 < 64) by (split_byte y 16; lia).
  rewrite (index_char _ H1), (index_char _ H2), (char_not_pad _ H3),
    (index_char _ H3), pad_is_pad.
  cbn [is_empty].
  replace (x / 4 * 4 + (x mod 4 * 16 + y / 16) / 16) with x
    by (split_byte x 4; split_byte y 16; rewrite div_glue; lia).
  replace ((x mod 4 * 16 + y / 16) mod 16 * 16 + y mod 16 * 4 / 4) with y
    by (rewrite N.div_mul by lia; split_byte x 4; split_byte y 16;
        rewrite mod_glue; lia).
  subst x y. rewrite !Byte.of_to_N. reflexivity.
Qed.

Lemma decode_group3 (a b c : byte) (rest : list byte) :
  b64decode (b64encode (a :: b :: c :: rest))
  = opt_cons (Some a) (opt_cons (Some b) (opt_cons (Some c)
             (b64decode (b64encode rest)))).
Proof.
  cbn [b64encode]. unfold quad. cbn [b64decode]. fold b64decode.
  pose proof (byte_bound a) as Ha. pose proof (byte_bound b) as Hb.
  pose proof (byte_bound c) as Hc.
  set (x := Byte.to_N a) in *. set (y := Byte.to_N b) in *.
  set (z := Byte.to_N c) in *.
  assert (H1 : x / 4 < 64) by (split_byte x 4; lia).
  assert (H2 : x mod 4 * 16 + y / 16 < 64)
    by (split_byte x 4; split_byte y 16; lia).
  assert (H3 : y mod 16 * 4 + z / 64 < 64)
    by (split_byte y 16; split_byte z 64; lia).
  assert (H4 : z mod 64 < 64) by (split_byte z 64; lia).
  rewrite (index_char _ H1), (index_char _ H2), (char_not_pad _ H3),
    (index_char _ H3), (char_not_pad _ H4), (index_char _ H4).
  replace (x / 4 * 4 + (x mod 4 * 16 + y / 16) / 16) with x
    by (split_byte x 4; split_byte y 16; rewrite div_glue; lia).
  replace ((x mod 4 * 16 + y / 16) mod 16 * 16 + (y mod 16 * 4 + z / 64) / 4)
    with y
    by (split_byte x 4; split_byte y 16; split_byte z 64;
        rewrite mod_glue, div_glue; lia).
  replace ((y mod 16 * 4 + z / 64) mod 4 * 64 + z mod 64) with z
    by (split_byte y 16; split_byte z 64; rewrite mod_glue; lia).
  subst x y z. rewrite !Byte.of_to_N. reflexivity.
Qed.

(** Induction three bytes at a time. *)
Lemma list_ind3 {A} (P : list A -> Prop) :
  P [] -> (forall a, P [a]) -> (forall a b, P [a; b]) ->
  (forall a b c rest, P rest -> P (a :: b :: c :: rest)) ->
  forall l, P l.
Proof.
  intros H0 H1 H2 H3.
  assert (H : forall l, P l /\ (forall a, P (a :: l)) /\ (forall a b, P (a :: b :: l))).
  { induction l as [|x l [IH0 [IH1 IH2]]].
    - auto.
    - repeat split; auto. }
  intros l. apply H.
Qed.

Lemma b64decode_b64encode (bs : list byte) : b64decode (b64encode bs) = Some bs.
Proof.
  induction bs as [| a | a b | a b c rest IH] using list_ind3.
  - reflexivity.
  - apply decode_group1.
  - apply decode_group2.
  - rewrite decode_group3, IH. reflexivity.
Qed.

End Base64Facts.

(* ================================================================== *)
(** ** The string primitives on Latin-1 *)

(** [str.lower()] on the capital E with acute accent, U+00C9. *)
Example lower_latin1 :
  lower (String (ascii_of_nat 195) (String (ascii_of_nat 137) "TL"))
  = String (ascii_of_nat 195) (String (ascii_of_nat 169) "tl").
Proof. reflexivity. Qed.

(** [repr] writes the no-break space, U+00A0, as an escape. *)
Example repr_no_break_space :
  repr_str (String "a" (String (ascii_of_nat 194) (String (ascii_of_nat 160) "b")))
  = String squote (String "a" (String backslash "xa0b'")).
Proof. reflexivity. Qed.

(* ================================================================== *)
(** ** Configuration gate *)

Lemma unavailable_without_sdk (env : Env) :
  openhexa env = None -> OPENHEXA_AVAILABLE env = false.
Proof. intros H. unfold OPENHEXA_AVAILABLE. rewrite H. reflexivity. Qed.

Lemma unavailable_without_variable (env : Env) :
  getenv "HEXA_SERVER_URL" (environ env) = None
  \/ getenv "HEXA_TOKEN" (environ env) = None ->
  OPENHEXA_AVAILABLE env = false.
Proof.
  unfold OPENHEXA_AVAILABLE. intros [H | H]; rewrite H; cbn [str_truthy].
  - rewrite andb_false_r. reflexivity.
  - apply andb_false_r.
Qed.

Ltac unfold_tools :=
  unfold list_workspaces, get_workspace_details, list_datasets,
    get_dataset_details, list_pipelines, get_pipeline_details,
    get_pipeline_runs, list_workspace_members, create_pipeline,
    list_connections, list_webapps, search_resources, list_dataset_versions,
    get_dataset_version_details, list_dataset_files, get_dataset_file_details,
    search_datasets, list_datasets_by_creator, preview_dataset_file.

(** C2. When the configuration is absent ([OPENHEXA_AVAILABLE] is false),
    every tool returns exactly the fixed configuration-error mapping and
    makes no transport call: the spy's trace is left as it was. *)
Theorem config_absent_short_circuits (env : Env) (call : ToolCall) (t : Trace) :
  OPENHEXA_AVAILABLE env = false ->
  invoke env call t = (Return config_error, t).
Proof.
  intros H. destruct call; cbn [invoke]; unfold_tools; rewrite H; reflexivity.
Qed.

Lemma config_absent_short_circuits_witness :
  OPENHEXA_AVAILABLE Stub.unconfigured = false
  /\ invoke Stub.unconfigured (Call_list_workspaces 1 10) []
     = (Return (VDict [("error",
          VStr "OpenHEXA SDK not available. Please configure your OpenHEXA credentials.")]),
        []).
Proof.
  split; [reflexivity|].
  apply (config_absent_short_circuits Stub.unconfigured (Call_list_workspaces 1 10) []).
  reflexivity.
Defined.

(* ================================================================== *)
(** ** [create_pipeline]: argument validation *)

(** C10. With the configuration present, [create_pipeline] called with an
    empty [workspace_slug], [name] or [code_content] returns the fixed
    "are required" error and makes no transport call. *)
Theorem create_pipeline_requires_arguments
        (env : Env) (workspace_slug name code_content : string)
        (description functional_type : option string)
        (tags : option (list string)) (t : Trace) :
  OPENHEXA_AVAILABLE env = true ->
  workspace_slug = EmptyString \/ name = EmptyString \/ code_content = EmptyString ->
  create_pipeline env workspace_slug name code_content description functional_type
                  tags t
  = (Return (VDict [("error",
               VStr "workspace_slug, name, and code_content are required")]),
     t).
Proof.
  intros Hav Hempty. unfold create_pipeline. rewrite Hav. cbn [negb].
  unfold try_except.
  assert (Hguard : (String.eqb workspace_slug EmptyString
                    || String.eqb name EmptyString
                    || String.eqb code_content EmptyString)%bool = true).
  { destruct Hempty as [-> | [-> | ->]]; cbn [String.eqb];
      rewrite ?orb_true_r; reflexivity. }
  rewrite Hguard. reflexivity.
Qed.

Lemma create_pipeline_requires_arguments_witness :
  create_pipeline (Stub.configured Stub.offline) "demo" EmptyString "print(1)"
                  None None None []
  = (Return (VDict [("error",
               VStr "workspace_slug, name, and code_content are required")]),
     []).
Proof.
  apply (create_pipeline_requires_arguments
           (Stub.configured Stub.offline) "demo" EmptyString "print(1)"
           None None None []).
  - reflexivity.
  - right. left. reflexivity.
Defined.

(* ================================================================== *)
(** ** Transport exceptions *)

Lemma append_empty (s : string) : s ++ EmptyString = s.
Proof. induction s as [|c s IH]; cbn; [reflexivity | rewrite IH; reflexivity]. Qed.

Lemma Contains_suffix (pre part : string) : Contains part (pre ++ part).
Proof. exists pre, EmptyString. rewrite append_empty. reflexivity. Qed.

Lemma Contains_self (part : string) : Contains part part.
Proof. apply (Contains_suffix EmptyString). Qed.

Lemma transport_raised_app (e : Exn) (t1 t2 : Trace) :
  transport_raised e (t1 ++ t2)%list -> transport_raised e t1 \/ transport_raised e t2.
Proof.
  intros [req H]. apply in_app_or in H. destruct H; [left | right]; exists req; assumption.
Qed.

Lemma transport_raised_nil (e : Exn) : ~ transport_raised e [].
Proof. intros [req []]. Qed.

Section FailsFast.
Context {A B : Type}.

Lemma ff_ret (a : A) : fails_fast (ret a).
Proof.
  intros t. exists []. cbn. rewrite app_nil_r. split; [reflexivity|].
  intros e H. destruct (transport_raised_nil e H).
Qed.

Lemma ff_raise (e0 : Exn) : fails_fast (@raise A e0).
Proof.
  intros t. exists []. cbn. rewrite app_nil_r. split; [reflexivity|].
  intros e H. destruct (transport_raised_nil e H).
Qed.

Lemma ff_lift (r : Result A) : fails_fast (lift r).
Proof.
  intros t. exists []. cbn. rewrite app_nil_r. split; [reflexivity|].
  intros e H. destruct (transport_raised_nil e H).
Qed.

Lemma ff_transport (req : Request) (behaviour : Trace -> Result A) :
  fails_fast (transport req behaviour).
Proof.
  intros t. eexists. unfold transport. cbn [fst snd]. split; [reflexivity|].
  intros e [req' [H | []]]. injection H as _ H.
  destruct (behaviour t); cbn in H; [discriminate | congruence].
Qed.

Lemma ff_sdk (env : Env) (attr : string) (req : Request)
      (behaviour : Client -> Trace -> Result A) :
  fails_fast (sdk env attr req behaviour).
Proof.
  unfold sdk. destruct (openhexa env); [apply ff_transport | apply ff_raise].
Qed.

Lemma ff_bind (m : M A) (k : A -> M B) :
  fails_fast m -> (forall a, fails_fast (k a)) -> fails_fast (bind m k).
Proof.
  intros Hm Hk t. destruct (Hm t) as [ev1 [Ht1 Hr1]].
  unfold bind. destruct (m t) as [[a | e1] t1]; cbn [fst snd] in *.
  - destruct (Hk a t1) as [ev2 [Ht2 Hr2]].
    exists (ev1 ++ ev2)%list. subst t1. rewrite Ht2, app_assoc.
    split; [reflexivity|].
    intros e He. apply transport_raised_app in He. destruct He as [He | He].
    + specialize (Hr1 e He). discriminate.
    + apply Hr2, He.
  - exists ev1. split; [assumption|].
    intros e He. specialize (Hr1 e He). injection Hr1 as ->. reflexivity.
Qed.
End FailsFast.

Lemma ff_execute (env : Env) (query : string) (variables : PyVal) :
  fails_fast (execute env query variables).
Proof. apply ff_sdk. Qed.

(** Walks a tool body: every step is a return, a pure step, a transport call
    or a branch. *)
Ltac fails_fast_body :=
  repeat first
    [ apply ff_ret
    | apply ff_lift
    | apply ff_raise
    | apply ff_execute
    | apply ff_sdk
    | apply ff_bind; [| intros ?]
    | match goal with
      | |- fails_fast (if ?c then _ else _) => destruct c
      | |- fails_fast (match ?x with _ => _ end) => destruct x
      | |- fails_fast (let _ := _ in _) => cbv zeta
      end ].

(** A tool whose body fails fast reports the transport's exception. *)
Lemma guarded_body_reports (env : Env) (body : M PyVal) (pre : string) (e : Exn) :
  fails_fast body ->
  let tool := if negb (OPENHEXA_AVAILABLE env) then ret config_error
              else try_except body (fun e => ret (error_dict (pre ++ str_exn e))) in
  transport_raised e (snd (tool [])) ->
  fst (tool []) = Return (error_dict (pre ++ exn_text e)).
Proof.
  intros Hff tool. subst tool. destruct (OPENHEXA_AVAILABLE env); cbn [negb].
  - unfold try_except. destruct (Hff []) as [events [Ht Hr]].
    destruct (body []) as [[a | e'] t'] eqn:Hbody; cbn [fst snd] in *.
    + intros He. subst t'. specialize (Hr e He). discriminate.
    + intros He. subst t'. specialize (Hr e He). injection Hr as ->. reflexivity.
  - intros He. destruct (transport_raised_nil e He).
Qed.

(** A tool returns: its handler turns every exception into a mapping. *)
Lemma guarded_body_returns (env : Env) (body : M PyVal) (handler : Exn -> PyVal)
      (t : Trace) :
  exists out,
    fst ((if negb (OPENHEXA_AVAILABLE env) then ret config_error
          else try_except body (fun e => ret (handler e))) t) = Return out.
Proof.
  destruct (OPENHEXA_AVAILABLE env); cbn [negb].
  - unfold try_except. destruct (body t) as [[a | e] t']; eexists; reflexivity.
  - eexists. reflexivity.
Qed.

Lemma invoke_returns (env : Env) (call : ToolCall) (t : Trace) :
  exists out, fst (invoke env call t) = Return out.
Proof.
  destruct call; cbn [invoke]; unfold_tools; apply guarded_body_returns.
Qed.

(** C3 (amended). Whenever a transport call raises during a tool call, no
    exception leaves the tool; and for every tool other than
    [search_resources] the tool returns a mapping whose [error] value is a
    string that contains the exception's text. *)
Theorem transport_exception_reported (env : Env) (call : ToolCall) (e : Exn) :
  transport_raised e (snd (run env call)) ->
  (exists out, fst (run env call) = Return out)
  /\ (is_search_resources call = false ->
      exists msg, fst (run env call) = Return (VDict [("error", VStr msg)])
                  /\ Contains (exn_text e) msg).
Proof.
  intros Hraised. split; [apply invoke_returns|].
  intros Hcall. unfold run in *.
  destruct call; try discriminate Hcall; cbn [invoke] in *; unfold_tools.
  all: lazymatch goal with
       | |- exists msg, fst ((if _ then _ else try_except ?body
                                (fun e => ret (error_dict (?pre ++ str_exn e)))) _) = _ /\ _ =>
           exists (pre ++ exn_text e); split;
           [ apply (guarded_body_reports env body pre e); [fails_fast_body | exact Hraised]
           | apply Contains_suffix ]
       | |- exists msg, fst ((if _ then _ else try_except ?body
                                (fun e => ret (error_dict (str_exn e)))) _) = _ /\ _ =>
           exists (exn_text e); split;
           [ apply (guarded_body_reports env body EmptyString e);
             [fails_fast_body | exact Hraised]
           | apply Contains_self ]
       end.
Qed.

Lemma transport_exception_reported_witness :
  transport_raised Stub.refused
    (snd (run (Stub.configured Stub.offline) (Call_list_connections "demo")))
  /\ (exists out,
        fst (run (Stub.configured Stub.offline) (Call_list_connections "demo"))
        = Return out)
  /\ exists msg,
      fst (run (Stub.configured Stub.offline) (Call_list_connections "demo"))
      = Return (VDict [("error", VStr msg)])
      /\ Contains "connection refused" msg.
Proof.
  assert (H : transport_raised Stub.refused
                (snd (run (Stub.configured Stub.offline)
                          (Call_list_connections "demo")))).
  { eexists. left. reflexivity. }
  split; [exact H|].
  destruct (transport_exception_reported
              (Stub.configured Stub.offline) (Call_list_connections "demo")
              Stub.refused H) as [Hret Hmsg].
  split; [exact Hret | exact (Hmsg eq_refl)].
Defined.

(** C3 as stated fails on [search_resources]: the three listing calls raise,
    each nested listing tool absorbs its exception, and the search answers
    with a success mapping that has no [error] entry. *)
Lemma search_resources_drops_transport_exception :
  transport_raised Stub.refused
    (snd (run (Stub.configured Stub.offline)
              (Call_search_resources "malaria" None None)))
  /\ fst (run (Stub.configured Stub.offline)
              (Call_search_resources "malaria" None None))
     = Return (VDict [("success", VBool true); ("query", VStr "malaria");
                      ("results", VList []); ("count", VInt 0)])
  /\ ~ (exists d msg,
          fst (run (Stub.configured Stub.offline)
                   (Call_search_resources "malaria" None None))
          = Return (VDict d)
          /\ lookup "error" d = Some (VStr msg)
          /\ Contains (exn_text Stub.refused) msg).
Proof.
  split; [eexists; left; reflexivity|].
  split; [reflexivity|].
  intros [d [msg [Hout [Herr _]]]].
  vm_compute in Hout. injection Hout as <-. discriminate Herr.
Qed.

(* ================================================================== *)
(** ** [create_pipeline]: the two-step protocol *)

Lemma eqb_empty_false (s : string) : s <> EmptyString -> String.eqb s EmptyString = false.
Proof. intros H. apply String.eqb_neq, H. Qed.

Lemma has_key_true (key : string) (d : Dict) (v : PyVal) :
  lookup key d = Some v -> has_key key d = true.
Proof. unfold has_key. intros ->. reflexivity. Qed.

Lemma has_key_false (key : string) (d : Dict) :
  lookup key d = None -> has_key key d = false.
Proof. unfold has_key. intros ->. reflexivity. Qed.

Lemma lookup_truthy (key : string) (d : Dict) (v : PyVal) :
  lookup key d = Some v -> truthy (VDict d) = true.
Proof. destruct d; [discriminate | reflexivity]. Qed.

(** Unfolds the monad around a tool body. *)
Ltac open_body :=
  unfold try_except, bind, execute, execute_args, sdk, transport, lift, ret;
  cbv zeta.

(** C5. When the [createPipeline] mutation reports failure (a GraphQL
    [errors] entry, or a result whose [success] is false), [create_pipeline]
    returns at once a mapping whose [error] text contains the reported errors;
    the only transport call is the creation call, so the [uploadPipeline]
    mutation is never sent. *)
Theorem create_failure_stops_before_upload
        (env : Env) (client : Client) (workspace_slug name code_content : string)
        (description functional_type : option string) (tags : option (list string))
        (response : Response) (response_data : Dict) (errors : PyVal) :
  OPENHEXA_AVAILABLE env = true ->
  openhexa env = Some client ->
  workspace_slug <> EmptyString -> name <> EmptyString -> code_content <> EmptyString ->
  sdk_execute client [] create_query
              (VDict [("input", VDict (create_input workspace_slug name
                                                    functional_type tags))])
  = Return response ->
  json response = Return (VDict response_data) ->
  reports_failure "createPipeline" response_data errors ->
  exists msg,
    run env (Call_create_pipeline workspace_slug name code_content description
                                  functional_type tags)
    = (Return (VDict [("error", VStr msg)]),
       [returned (ReqExecute create_query
                    (VDict [("input", VDict (create_input workspace_slug name
                                                          functional_type tags))]))])
    /\ Contains (py_str errors) msg
    /\ count_execute upload_query
         (snd (run env (Call_create_pipeline workspace_slug name code_content
                                             description functional_type tags))) = 0%nat.
Proof.
  intros Hav Hclient Hslug Hname Hcode Hexec Hjson Hfail.
  unfold run. cbn [invoke]. unfold create_pipeline.
  rewrite Hav, (eqb_empty_false _ Hslug), (eqb_empty_false _ Hname),
    (eqb_empty_false _ Hcode).
  cbn [negb orb]. open_body. rewrite Hclient, Hexec. cbn [app outcome_exn].
  rewrite Hjson. cbn [py_in].
  destruct Hfail as [errors Herrors | data result Hnone Hdata Hresult Hsuccess].
  - rewrite (has_key_true _ _ _ Herrors). cbn [py_getitem]. rewrite Herrors.
    eexists. split; [reflexivity|]. split; [apply Contains_suffix|]. reflexivity.
  - rewrite (has_key_false _ _ Hnone). cbn [py_get]. rewrite Hdata.
    cbn [py_get]. rewrite Hresult. cbn [py_get]. rewrite Hsuccess. cbn [negb].
    eexists. split; [reflexivity|]. split; [apply Contains_suffix|]. reflexivity.
Qed.

Lemma create_failure_stops_before_upload_witness :
  exists msg,
    run (Stub.configured (Stub.scripted [Stub.creation_refused]))
        (Call_create_pipeline "demo" "etl" "print(1)" None None None)
    = (Return (VDict [("error", VStr msg)]),
       [returned (ReqExecute create_query
                    (VDict [("input", VDict (create_input "demo" "etl" None None))]))])
    /\ Contains (py_str (VList [VStr "PERMISSION_DENIED"])) msg
    /\ count_execute upload_query
         (snd (run (Stub.configured (Stub.scripted [Stub.creation_refused]))
                   (Call_create_pipeline "demo" "etl" "print(1)" None None None)))
       = 0%nat.
Proof.
  apply (create_failure_stops_before_upload
           (Stub.configured (Stub.scripted [Stub.creation_refused]))
           (Stub.scripted [Stub.creation_refused])
           "demo" "etl" "print(1)" None None None
           {| json := Return Stub.creation_refused |}
           [("data", VDict [("createPipeline",
                VDict [("success", VBool false);
                       ("errors", VList [VStr "PERMISSION_DENIED"])])])]
           (VList [VStr "PERMISSION_DENIED"])).
  - reflexivity.
  - reflexivity.
  - discriminate.
  - discriminate.
  - discriminate.
  - reflexivity.
  - reflexivity.
  - apply (success_false "createPipeline" _
             [("createPipeline",
               VDict [("success", VBool false);
                      ("errors", VList [VStr "PERMISSION_DENIED"])])]
             [("success", VBool false);
              ("errors", VList [VStr "PERMISSION_DENIED"])]);
      reflexivity.
Defined.

(** C6. When the creation step succeeds with a pipeline object and a later
    step fails (the packaging helper raises, the upload answer has a GraphQL
    [errors] entry, or its [success] is false), the answer has an [error]
    entry, a [pipeline] entry equal to the object the creation step returned,
    and the note that the pipeline was created but the code upload failed. *)
Theorem upload_failure_keeps_pipeline
        (env : Env) (client : Client) (workspace_slug name code_content : string)
        (description functional_type : option string) (tags : option (list string))
        (response : Response) (response_data : Dict) (pipeline pipeline_code : PyVal) :
  OPENHEXA_AVAILABLE env = true ->
  openhexa env = Some client ->
  workspace_slug <> EmptyString -> name <> EmptyString -> code_content <> EmptyString ->
  sdk_execute client [] create_query
              (VDict [("input", VDict (create_input workspace_slug name
                                                    functional_type tags))])
  = Return response ->
  json response = Return (VDict response_data) ->
  reports_pipeline response_data pipeline pipeline_code ->
  upload_step_fails env client
    [returned (ReqExecute create_query
                 (VDict [("input", VDict (create_input workspace_slug name
                                                       functional_type tags))]))]
    workspace_slug code_content description pipeline_code ->
  exists msg,
    fst (run env (Call_create_pipeline workspace_slug name code_content description
                                       functional_type tags))
    = Return (VDict [("error", VStr msg);
                     ("pipeline", pipeline);
                     ("note", VStr "Pipeline was created but code upload failed")]).
Proof.
  intros Hav Hclient Hslug Hname Hcode Hexec Hjson Hcreated Hlater.
  destruct Hcreated
    as [Hnone [data [result [fields [success
         [Hdata [Hresult [Hsuccess [Htruthy [Hpipeline [-> Hpcode]]]]]]]]]]].
  unfold run. cbn [invoke]. unfold create_pipeline.
  rewrite Hav, (eqb_empty_false _ Hslug), (eqb_empty_false _ Hname),
    (eqb_empty_false _ Hcode).
  cbn [negb orb]. open_body. rewrite Hclient, Hexec. cbn [app outcome_exn].
  rewrite Hjson. cbn [py_in]. rewrite (has_key_false _ _ Hnone).
  cbn [py_get]. rewrite Hdata. cbn [py_get]. rewrite Hresult. cbn [py_get].
  rewrite Hsuccess, Htruthy, Hpipeline. cbn [negb].
  rewrite (lookup_truthy _ _ _ Hpcode). cbn [negb py_getitem]. rewrite Hpcode.
  destruct Hlater as [e Hzip | b64 response2 d2 errors Hzip Hexec2 Hjson2 Hfail].
  - rewrite Hzip. eexists. reflexivity.
  - rewrite Hzip. fold (returned (ReqExecute create_query
                          (VDict [("input", VDict (create_input workspace_slug name
                                                     functional_type tags))]))).
    rewrite Hexec2. cbn [app outcome_exn]. rewrite Hjson2. cbn [py_in].
    destruct Hfail as [errors Herrors | data2 result2 Hnone2 Hdata2 Hresult2 Hsuccess2].
    + rewrite (has_key_true _ _ _ Herrors). cbn [py_getitem]. rewrite Herrors.
      eexists. reflexivity.
    + rewrite (has_key_false _ _ Hnone2). cbn [py_get]. rewrite Hdata2.
      cbn [py_get]. rewrite Hresult2. cbn [py_get]. rewrite Hsuccess2. cbn [negb].
      eexists. reflexivity.
Qed.

Lemma upload_failure_keeps_pipeline_witness :
  exists msg,
    fst (run (Stub.configured (Stub.scripted [Stub.creation_ok; Stub.upload_refused]))
             (Call_create_pipeline "demo" "etl" "print(1)" None None None))
    = Return (VDict [("error", VStr msg);
                     ("pipeline", Stub.created_pipeline);
                     ("note", VStr "Pipeline was created but code upload failed")]).
Proof.
  apply (upload_failure_keeps_pipeline
           (Stub.configured (Stub.scripted [Stub.creation_ok; Stub.upload_refused]))
           (Stub.scripted [Stub.creation_ok; Stub.upload_refused])
           "demo" "etl" "print(1)" None None None
           {| json := Return Stub.creation_ok |}
           [("data", VDict [("createPipeline",
                VDict [("success", VBool true); ("errors", VList []);
                       ("pipeline", Stub.created_pipeline)])])]
           Stub.created_pipeline (VStr "etl")).
  - reflexivity.
  - reflexivity.
  - discriminate.
  - discriminate.
  - discriminate.
  - reflexivity.
  - reflexivity.
  - split; [reflexivity|].
    exists [("createPipeline",
             VDict [("success", VBool true); ("errors", VList []);
                    ("pipeline", Stub.created_pipeline)])],
           [("success", VBool true); ("errors", VList []);
            ("pipeline", Stub.created_pipeline)],
           [("id", VStr "p1"); ("name", VStr "etl"); ("code", VStr "etl")],
           (VBool true).
    repeat split; reflexivity.
  - apply (upload_reports_failure _ _ _ _ _ _ _
             (Base64.b64encode (list_byte_of_string "print(1)"))
             {| json := Return Stub.upload_refused |}
             [("data", VDict [("uploadPipeline",
                  VDict [("success", VBool false);
                         ("errors", VList [VStr "INVALID_ZIP"])])])]
             (VList [VStr "INVALID_ZIP"])).
    + reflexivity.
    + reflexivity.
    + reflexivity.
    + apply (success_false "uploadPipeline" _
               [("uploadPipeline",
                 VDict [("success", VBool false);
                        ("errors", VList [VStr "INVALID_ZIP"])])]
               [("success", VBool false); ("errors", VList [VStr "INVALID_ZIP"])]);
        reflexivity.
Defined.

(** The packaging branch on a concrete run: the compressor raises after the
    pipeline was created, and no upload is attempted. *)
Example packaging_failure_keeps_pipeline :
  run {| openhexa := Some (Stub.scripted [Stub.creation_ok]);
         environ := Stub.credentials;
         zipfile := Stub.exhausted; localtime := Stub.noon |}
      (Call_create_pipeline "demo" "etl" "print(1)" None None None)
  = (Return (VDict [("error", VStr "Failed to create ZIP file: out of memory");
                    ("pipeline", Stub.created_pipeline);
                    ("note", VStr "Pipeline was created but code upload failed")]),
     [returned (ReqExecute create_query
                  (VDict [("input", VDict (create_input "demo" "etl" None None))]))]).
Proof. reflexivity. Qed.

(** Outside the three cases of C6: when the upload call itself raises, the
    outer handler answers, and the answer has no [pipeline] entry. *)
Example upload_exception_drops_pipeline :
  fst (run (Stub.configured (Stub.scripted [Stub.creation_ok]))
           (Call_create_pipeline "demo" "etl" "print(1)" None None None))
  = Return (VDict [("error", VStr "Failed to create pipeline: connection refused")]).
Proof. reflexivity. Qed.

(* ================================================================== *)
(** ** Pipeline packaging *)

Lemma storing_ok : ZipLibOk Stub.storing.
Proof.
  split.
  - intros data. exists data. reflexivity.
  - intros data c H. injection H as <-. reflexivity.
Qed.

(** C7. Under the contract of the archive library, for every source text
    and every clock reading, [_create_pipeline_zipfile] returns base64 text
    that decodes to the byte image of an archive with exactly one member,
    named [pipeline.py], whose decompressed content is the source text; and
    two packagings of one source text, at any two clock readings, give
    archives equal up to the member's timestamp. *)
Theorem packaging_single_member (lib : ZipLib) (src : string) (now1 now2 : DateTime) :
  ZipLibOk lib ->
  exists text1 text2 member1 member2,
    _create_pipeline_zipfile lib now1 src = Return text1
    /\ _create_pipeline_zipfile lib now2 src = Return text2
    /\ packs lib text1 [member1]
    /\ packs lib text2 [member2]
    /\ member_content lib member1 = Some ("pipeline.py", encode_utf8 src)
    /\ member_content lib member2 = Some ("pipeline.py", encode_utf8 src)
    /\ without_time member1 = without_time member2.
Proof.
  intros Hok.
  destruct (compress_total lib Hok (encode_utf8 src)) as [c Hc].
  pose proof (decompress_compress lib Hok _ _ Hc) as Hback.
  unfold _create_pipeline_zipfile, writestr. rewrite Hc. cbn [app].
  do 4 eexists.
  split; [reflexivity|]. split; [reflexivity|].
  split; [apply Base64Facts.b64decode_b64encode|].
  split; [apply Base64Facts.b64decode_b64encode|].
  unfold member_content. cbn [info stored compress_type filename]. rewrite Hback.
  repeat split.
Qed.

Lemma packaging_single_member_witness :
  exists text1 text2 member1 member2,
    _create_pipeline_zipfile Stub.storing Stub.noon "print(1)" = Return text1
    /\ _create_pipeline_zipfile Stub.storing Stub.midnight "print(1)" = Return text2
    /\ packs Stub.storing text1 [member1]
    /\ packs Stub.storing text2 [member2]
    /\ member_content Stub.storing member1
       = Some ("pipeline.py", encode_utf8 "print(1)")
    /\ member_content Stub.storing member2
       = Some ("pipeline.py", encode_utf8 "print(1)")
    /\ without_time member1 = without_time member2.
Proof.
  apply (packaging_single_member Stub.storing "print(1)" Stub.noon Stub.midnight).
  split.
  - intros data. exists data. reflexivity.
  - intros data c H. injection H as <-. reflexivity.
Defined.

(** The base64 layer on a concrete run. *)
Example packaging_of_hi :
  _create_pipeline_zipfile Stub.storing Stub.noon "hi" = Return "aGk=".
Proof. reflexivity. Qed.

(* ================================================================== *)
(** ** Client-side filtering *)

Lemma answer_inv (env : Env) (query : string) (variables : PyVal) (d : Dict) :
  answer env query variables = Some d ->
  exists client response,
    openhexa env = Some client
    /\ sdk_execute client [] query variables = Return response
    /\ json response = Return (VDict d)
    /\ has_key "errors" d = false.
Proof.
  unfold answer. intros H.
  destruct (openhexa env) as [client|]; [|discriminate].
  destruct (sdk_execute client [] query variables) as [response|] eqn:Hexec;
    [|discriminate].
  destruct (json response) as [[| | | | |d']|] eqn:Hjson; try discriminate.
  destruct (has_key "errors" d') eqn:Herrors; [discriminate|].
  injection H as <-. exists client, response. auto.
Qed.

Lemma answer_list_inv (env : Env) (query : string) (variables : PyVal)
      (path : list string) (l : list PyVal) :
  answer_list env query variables path = Some l ->
  exists client response d,
    openhexa env = Some client
    /\ sdk_execute client [] query variables = Return response
    /\ json response = Return (VDict d)
    /\ has_key "errors" d = false
    /\ walk path (VDict d) = Some (VList l).
Proof.
  unfold answer_list. intros H.
  destruct (answer env query variables) as [d|] eqn:Hanswer; [|discriminate].
  destruct (answer_inv _ _ _ _ Hanswer) as [client [response [H1 [H2 [H3 H4]]]]].
  exists client, response, d. repeat split; try assumption.
  destruct (walk path (VDict d)) as [[| | | |l'|]|]; try discriminate.
  injection H as <-. reflexivity.
Qed.

Lemma answer_list_args_inv (env : Env) (query : string) (second : PyVal)
      (path : list string) (l : list PyVal) :
  answer_list_args env query second path = Some l ->
  exists client response d,
    openhexa env = Some client
    /\ sdk_execute_args client [] query second = Return response
    /\ json response = Return (VDict d)
    /\ has_key "errors" d = false
    /\ walk path (VDict d) = Some (VList l).
Proof.
  unfold answer_list_args, answer_args. intros H.
  destruct (openhexa env) as [client|]; [|discriminate].
  destruct (sdk_execute_args client [] query second) as [response|] eqn:Hexec;
    [|discriminate].
  destruct (json response) as [[| | | | |d]|] eqn:Hjson; try discriminate.
  destruct (has_key "errors" d) eqn:Herrors; [discriminate|].
  destruct (walk path (VDict d)) as [[| | | |l'|]|] eqn:Hwalk; try discriminate.
  injection H as <-. exists client, response, d. auto.
Qed.

Lemma walk_step (key : string) (rest : list string) (d : Dict) (x : PyVal) :
  walk (key :: rest) (VDict d) = Some x ->
  exists y, lookup key d = Some y /\ walk rest y = Some x.
Proof.
  cbn [walk]. destruct (lookup key d) as [y|]; [|discriminate].
  intros H. exists y. split; [reflexivity | assumption].
Qed.

Lemma walk_object (key : string) (rest : list string) (v x : PyVal) :
  walk (key :: rest) v = Some x -> exists d, v = VDict d.
Proof. destruct v; cbn [walk]; try discriminate. intros _. eexists. reflexivity. Qed.

(** On items whose [createdBy] opens, the comprehension is the plain filter. *)
Lemma created_by_reads (email : string) (item : PyVal) :
  opens "createdBy" item = true ->
  created_by email item = Return (creator_is email item).
Proof.
  destruct item as [| | | | |d]; try discriminate.
  unfold opens, created_by, creator_is. cbn [py_get rbind walk].
  destruct (lookup "createdBy" d) as [[| | | | |c]|]; try discriminate; intros _.
  - cbn [py_get rbind walk]. destruct (lookup "email" c); reflexivity.
  - reflexivity.
Qed.

Lemma filter_r_filter (cond : PyVal -> Result bool) (test ok : PyVal -> bool)
      (l : list PyVal) :
  (forall x, ok x = true -> cond x = Return (test x)) ->
  forallb ok l = true ->
  filter_r cond l = Return (filter test l).
Proof.
  intros Hcond. induction l as [|x l IH]; [reflexivity|].
  cbn [forallb filter_r filter]. intros H. apply andb_prop in H. destruct H as [Hx Hl].
  rewrite (Hcond x Hx). cbn [rbind]. rewrite (IH Hl). reflexivity.
Qed.

(** The run of [list_datasets_by_creator] on a fetched page. *)
Lemma by_creator_run (env : Env) (email : string) (page per_page : Z)
      (client : Client) (response : Response) (d : Dict) (page_items : list PyVal) :
  OPENHEXA_AVAILABLE env = true ->
  openhexa env = Some client ->
  sdk_execute client [] list_datasets_by_creator_query
              (VDict [("page", VInt page); ("perPage", VInt per_page)])
  = Return response ->
  json response = Return (VDict d) ->
  has_key "errors" d = false ->
  walk ["data"; "datasets"; "items"] (VDict d) = Some (VList page_items) ->
  exists out,
    run env (Call_list_datasets_by_creator email page per_page)
    = (Return out,
       [returned (ReqExecute list_datasets_by_creator_query
                    (VDict [("page", VInt page); ("perPage", VInt per_page)]))])
    /\ (forallb (opens "createdBy") page_items = true ->
        out = VDict [("datasets", VList (filter (creator_is email) page_items));
                     ("count", VInt (len (filter (creator_is email) page_items)));
                     ("current_page", VInt page);
                     ("per_page", VInt per_page)]).
Proof.
  intros Hav Hclient Hexec Hjson Herrors Hwalk.
  apply walk_step in Hwalk. destruct Hwalk as [data [Hdata Hwalk]].
  destruct (walk_object _ _ _ _ Hwalk) as [data' ->].
  apply walk_step in Hwalk. destruct Hwalk as [datasets [Hdatasets Hwalk]].
  destruct (walk_object _ _ _ _ Hwalk) as [datasets' ->].
  apply walk_step in Hwalk. destruct Hwalk as [found [Hfound Hwalk]].
  cbn [walk] in Hwalk. injection Hwalk as ->.
  unfold run. cbn [invoke]. unfold list_datasets_by_creator.
  rewrite Hav. cbn [negb]. open_body. rewrite Hclient, Hexec.
  cbn [app outcome_exn]. rewrite Hjson. cbn [py_in]. rewrite Herrors.
  cbn [py_get]. rewrite Hdata. cbn [py_get]. rewrite Hdatasets. cbn [py_get].
  rewrite Hfound. cbn [py_iter].
  destruct (filter_r (created_by email) page_items) as [kept | e] eqn:Hfilter.
  - eexists. split; [reflexivity|]. intros Hitems.
    rewrite (filter_r_filter _ (creator_is email) (opens "createdBy") _
               (created_by_reads email) Hitems) in Hfilter.
    injection Hfilter as <-. reflexivity.
  - eexists. split; [reflexivity|]. intros Hitems.
    rewrite (filter_r_filter _ (creator_is email) (opens "createdBy") _
               (created_by_reads email) Hitems) in Hfilter.
    discriminate.
Qed.

(** X22. On a fetched page whose items are objects with a [createdBy]
    entry that is absent or an object, [list_datasets_by_creator] filters on
    the client side: the returned [datasets] list is the sublist, in page
    order, of the page's items whose [createdBy.email] equals the given email;
    [count] is the length of that sublist; there is a single transport call,
    whose document and variables carry page and page size only, so that the
    request is the same whatever the email. *)
Theorem by_creator_filters_fetched_page
        (env : Env) (creator_email : string) (page per_page : Z) (page_items : list PyVal) :
  OPENHEXA_AVAILABLE env = true ->
  fetched env (Call_list_datasets_by_creator creator_email page per_page)
  = Some page_items ->
  forallb (opens "createdBy") page_items = true ->
  run env (Call_list_datasets_by_creator creator_email page per_page)
  = (Return (VDict [("datasets", VList (filter (creator_is creator_email) page_items));
                    ("count", VInt (len (filter (creator_is creator_email) page_items)));
                    ("current_page", VInt page);
                    ("per_page", VInt per_page)]),
     [returned (ReqExecute list_datasets_by_creator_query
                  (VDict [("page", VInt page); ("perPage", VInt per_page)]))])
  /\ forall other_email,
      snd (run env (Call_list_datasets_by_creator other_email page per_page))
      = snd (run env (Call_list_datasets_by_creator creator_email page per_page)).
Proof.
  intros Hav Hfetched Hitems. cbn [fetched] in Hfetched.
  destruct (answer_list_inv _ _ _ _ _ Hfetched)
    as [client [response [d [Hclient [Hexec [Hjson [Herrors Hwalk]]]]]]].
  destruct (by_creator_run env creator_email page per_page client response d
              page_items Hav Hclient Hexec Hjson Herrors Hwalk) as [out [Hrun Hout]].
  rewrite Hrun, (Hout Hitems). split; [reflexivity|].
  intros other.
  destruct (by_creator_run env other page per_page client response d
              page_items Hav Hclient Hexec Hjson Herrors Hwalk) as [out' [Hrun' _]].
  rewrite Hrun'. reflexivity.
Qed.

Lemma by_creator_filters_fetched_page_witness :
  run (Stub.configured (Stub.scripted [Stub.datasets_answer]))
      (Call_list_datasets_by_creator "ada@example.org" 1 20)
  = (Return (VDict [("datasets",
                     VList (filter (creator_is "ada@example.org")
                                   [Stub.dataset_of "d1" "ada@example.org";
                                    Stub.dataset_of "d2" "bob@example.org";
                                    Stub.dataset_of "d3" "ada@example.org"]));
                    ("count",
                     VInt (len (filter (creator_is "ada@example.org")
                                       [Stub.dataset_of "d1" "ada@example.org";
                                        Stub.dataset_of "d2" "bob@example.org";
                                        Stub.dataset_of "d3" "ada@example.org"])));
                    ("current_page", VInt 1);
                    ("per_page", VInt 20)]),
     [returned (ReqExecute list_datasets_by_creator_query
                  (VDict [("page", VInt 1); ("perPage", VInt 20)]))])
  /\ forall other_email,
      snd (run (Stub.configured (Stub.scripted [Stub.datasets_answer]))
               (Call_list_datasets_by_creator other_email 1 20))
      = snd (run (Stub.configured (Stub.scripted [Stub.datasets_answer]))
                 (Call_list_datasets_by_creator "ada@example.org" 1 20)).
Proof.
  apply (by_creator_filters_fetched_page
           (Stub.configured (Stub.scripted [Stub.datasets_answer]))
           "ada@example.org" 1 20
           [Stub.dataset_of "d1" "ada@example.org";
            Stub.dataset_of "d2" "bob@example.org";
            Stub.dataset_of "d3" "ada@example.org"]).
  - reflexivity.
  - reflexivity.
  - reflexivity.
Defined.

(** The filter on the stub page keeps the first and the third dataset. *)
Example by_creator_on_stub_page :
  fst (run (Stub.configured (Stub.scripted [Stub.datasets_answer]))
           (Call_list_datasets_by_creator "ada@example.org" 1 20))
  = Return (VDict [("datasets", VList [Stub.dataset_of "d1" "ada@example.org";
                                       Stub.dataset_of "d3" "ada@example.org"]);
                   ("count", VInt 2);
                   ("current_page", VInt 1);
                   ("per_page", VInt 20)]).
Proof. reflexivity. Qed.

(** A page of one item whose [createdBy] is [null]: the comprehension
    raises on it and the tool answers with an error. *)
Example by_creator_null_creator :
  fst (run (Stub.configured
              (Stub.scripted
                 [VDict [("data", VDict [("datasets", VDict [("items",
                    VList [VDict [("id", VStr "d1"); ("createdBy", VNone)]])])])]]))
           (Call_list_datasets_by_creator "ada@example.org" 1 20))
  = Return (VDict [("error",
      VStr "Failed to list datasets by creator: 'NoneType' object has no attribute 'get'")]).
Proof. reflexivity. Qed.





(** C9 (the defect). The transport delivers a page of two datasets: the
    first was created by the email asked for, the second has [createdBy: null].
    The claim gives the first dataset and [count] 1.  The comprehension
    defaults an absent [createdBy] to an empty object and not a [null] one:
    it raises on the second item, and the tool, after its single call, answers
    with an error in which the matching dataset is lost. *)
Theorem by_creator_null_creator_loses_page :
  fetched (Stub.configured (Stub.scripted [Fixture.orphaned_answer]))
          (Call_list_datasets_by_creator "ada@example.org" 1 20)
  = Some [Stub.dataset_of "d1" "ada@example.org";
          VDict [("id", VStr "d2"); ("createdBy", VNone)]]
  /\ filter (creator_is "ada@example.org")
            [Stub.dataset_of "d1" "ada@example.org";
             VDict [("id", VStr "d2"); ("createdBy", VNone)]]
     = [Stub.dataset_of "d1" "ada@example.org"]
  /\ run (Stub.configured (Stub.scripted [Fixture.orphaned_answer]))
         (Call_list_datasets_by_creator "ada@example.org" 1 20)
     = (Return (VDict [("error",
          VStr "Failed to list datasets by creator: 'NoneType' object has no attribute 'get'")]),
        [returned (ReqExecute list_datasets_by_creator_query
                     (VDict [("page", VInt 1); ("perPage", VInt 20)]))]).
Proof. repeat split. Qed.

(* ================================================================== *)
(** ** Listing operations: the list and its count *)

Lemma answer_page_inv (env : Env) (accessor : Client -> Trace -> Result Page)
      (l : list PyVal) :
  answer_page env accessor = Some l ->
  exists client page,
    openhexa env = Some client
    /\ accessor client [] = Return page
    /\ l = map model_dump (items page).
Proof.
  unfold answer_page. intros H.
  destruct (openhexa env) as [client|]; [|discriminate].
  destruct (accessor client []) as [page|] eqn:Hpage; [|discriminate].
  injection H as <-. exists client, page. auto.
Qed.

Lemma len_map {A B} (f : A -> B) (l : list A) : len (map f l) = len l.
Proof. unfold len. rewrite length_map. reflexivity. Qed.

(** Reads a path of keys off a [walk] equation into [lookup] equations. *)
Ltac walk_all H :=
  repeat (let y := fresh "node" in
          let Hl := fresh "Hlook" in
          apply walk_step in H; destruct H as [y [Hl H]];
          try (let d := fresh "obj" in destruct (walk_object _ _ _ _ H) as [d ->]));
  cbn [walk] in H; injection H as ->.

(** Runs a tool body on the facts at hand. *)
Ltac run_body :=
  repeat first
    [ progress cbn [py_get py_in py_getitem py_len py_iter negb app outcome_exn
                    rbind fst snd]
    | match goal with
      | H : openhexa _ = _ |- _ => rewrite H
      | H : sdk_execute _ _ _ _ = _ |- _ => rewrite H
      | H : sdk_execute_args _ _ _ _ = _ |- _ => rewrite H
      | H : json _ = _ |- _ => rewrite H
      | H : has_key _ _ = _ |- _ => rewrite H
      | H : lookup _ _ = _ |- _ => rewrite H
      | H : lookup _ ?w = Some _ |- context [truthy (VDict ?w)] =>
          rewrite (lookup_truthy _ _ _ H)
      end ].

Ltac enter_tool Hav :=
  unfold run; cbn [invoke]; unfold_tools; rewrite Hav; cbn [negb]; open_body.

Lemma list_workspaces_counted (env : Env) (page per_page : Z) (l : list PyVal) :
  OPENHEXA_AVAILABLE env = true ->
  fetched env (Call_list_workspaces page per_page) = Some l ->
  exists pages,
    fst (run env (Call_list_workspaces page per_page))
    = Return (VDict [("workspaces", VList l); ("total_pages", VInt pages);
                     ("current_page", VInt page); ("per_page", VInt per_page);
                     ("count", VInt (len l))]).
Proof.
  intros Hav Hf. cbn [fetched] in Hf.
  destruct (answer_page_inv _ _ _ Hf) as [client [pg [Hclient [Hpage ->]]]].
  enter_tool Hav. rewrite Hclient, Hpage. cbn [app outcome_exn fst].
  rewrite len_map. eexists. reflexivity.
Qed.

Lemma list_pipelines_counted (env : Env) (slug : string) (page per_page : Z)
      (l : list PyVal) :
  OPENHEXA_AVAILABLE env = true ->
  fetched env (Call_list_pipelines slug page per_page) = Some l ->
  exists pages,
    fst (run env (Call_list_pipelines slug page per_page))
    = Return (VDict [("pipelines", VList l); ("total_pages", VInt pages);
                     ("current_page", VInt page); ("per_page", VInt per_page);
                     ("count", VInt (len l))]).
Proof.
  intros Hav Hf. cbn [fetched] in Hf.
  destruct (answer_page_inv _ _ _ Hf) as [client [pg [Hclient [Hpage ->]]]].
  enter_tool Hav. rewrite Hclient, Hpage. cbn [app outcome_exn fst].
  rewrite len_map. eexists. reflexivity.
Qed.

(** On items whose [workspace] opens, the comprehension is the plain filter. *)
Lemma in_workspace_reads (slug : string) (item : PyVal) :
  opens "workspace" item = true ->
  in_workspace slug item = Return (workspace_is slug item).
Proof.
  destruct item as [| | | | |d]; try discriminate.
  unfold opens, in_workspace, workspace_is. cbn [py_get rbind walk].
  destruct (lookup "workspace" d) as [[| | | | |c]|]; try discriminate; intros _.
  - cbn [py_get rbind walk]. destruct (lookup "slug" c); reflexivity.
  - reflexivity.
Qed.

Lemma list_datasets_counted (env : Env) (page per_page : Z) (slug : option string)
      (l : list PyVal) :
  OPENHEXA_AVAILABLE env = true ->
  fetched env (Call_list_datasets page per_page slug) = Some l ->
  forallb (item_ok (Call_list_datasets page per_page slug)) l = true ->
  exists pages,
    fst (run env (Call_list_datasets page per_page slug))
    = Return (VDict [("datasets",
                      VList (match slug with
                             | Some s => if str_truthy slug
                                         then filter (workspace_is s) l else l
                             | None => l
                             end));
                     ("total_pages", VInt pages);
                     ("current_page", VInt page); ("per_page", VInt per_page);
                     ("count",
                      VInt (len (match slug with
                                 | Some s => if str_truthy slug
                                             then filter (workspace_is s) l else l
                                 | None => l
                                 end)))]).
Proof.
  intros Hav Hf Hok. cbn [fetched] in Hf. cbn [item_ok] in Hok.
  destruct (answer_page_inv _ _ _ Hf) as [client [pg [Hclient [Hpage ->]]]].
  enter_tool Hav. rewrite Hclient, Hpage. cbn [app outcome_exn fst].
  destruct slug as [s|]; [destruct (str_truthy (Some s)) eqn:Hs|].
  - unfold item_ok in Hok. rewrite Hs in Hok.
    rewrite (filter_r_filter _ (workspace_is s) (opens "workspace") _
               (in_workspace_reads s) Hok).
    eexists. reflexivity.
  - eexists. reflexivity.
  - eexists. reflexivity.
Qed.

Lemma list_connections_counted (env : Env) (slug : string) (l : list PyVal) :
  OPENHEXA_AVAILABLE env = true ->
  fetched env (Call_list_connections slug) = Some l ->
  fst (run env (Call_list_connections slug))
  = Return (VDict [("connections", VList l); ("count", VInt (len l))]).
Proof.
  intros Hav Hf. cbn [fetched] in Hf.
  destruct (answer_list_args_inv _ _ _ _ _ Hf)
    as [client [response [d [Hclient [Hexec [Hjson [Herrors Hwalk]]]]]]].
  walk_all Hwalk. enter_tool Hav. run_body. reflexivity.
Qed.

Lemma list_webapps_uncounted (env : Env) (slug : string) (page per_page : Z)
      (l : list PyVal) :
  OPENHEXA_AVAILABLE env = true ->
  fetched env (Call_list_webapps slug page per_page) = Some l ->
  exists pages total current,
    fst (run env (Call_list_webapps slug page per_page))
    = Return (VDict [("webapps", VList l); ("total_pages", pages);
                     ("total_items", total); ("current_page", current)]).
Proof.
  intros Hav Hf. cbn [fetched] in Hf.
  destruct (answer_list_args_inv _ _ _ _ _ Hf)
    as [client [response [d [Hclient [Hexec [Hjson [Herrors Hwalk]]]]]]].
  walk_all Hwalk. enter_tool Hav. run_body. do 3 eexists. reflexivity.
Qed.

Lemma list_dataset_versions_counted (env : Env) (id : string) (l : list PyVal) :
  OPENHEXA_AVAILABLE env = true ->
  fetched env (Call_list_dataset_versions id) = Some l ->
  fst (run env (Call_list_dataset_versions id))
  = Return (VDict [("versions", VList l); ("count", VInt (len l))]).
Proof.
  intros Hav Hf. cbn [fetched] in Hf.
  destruct (answer_list_inv _ _ _ _ _ Hf)
    as [client [response [d [Hclient [Hexec [Hjson [Herrors Hwalk]]]]]]].
  walk_all Hwalk. enter_tool Hav. run_body. reflexivity.
Qed.

Lemma search_datasets_counted (env : Env) (query : string) (page per_page : Z)
      (l : list PyVal) :
  OPENHEXA_AVAILABLE env = true ->
  fetched env (Call_search_datasets query page per_page) = Some l ->
  exists total pages,
    fst (run env (Call_search_datasets query page per_page))
    = Return (VDict [("datasets", VList l); ("count", VInt (len l));
                     ("total_items", total); ("total_pages", pages);
                     ("current_page", VInt page); ("per_page", VInt per_page)]).
Proof.
  intros Hav Hf. cbn [fetched] in Hf.
  destruct (answer_list_inv _ _ _ _ _ Hf)
    as [client [response [d [Hclient [Hexec [Hjson [Herrors Hwalk]]]]]]].
  walk_all Hwalk. enter_tool Hav. run_body. do 2 eexists. reflexivity.
Qed.

Lemma list_datasets_by_creator_counted (env : Env) (email : string)
      (page per_page : Z) (l : list PyVal) :
  OPENHEXA_AVAILABLE env = true ->
  fetched env (Call_list_datasets_by_creator email page per_page) = Some l ->
  forallb (opens "createdBy") l = true ->
  fst (run env (Call_list_datasets_by_creator email page per_page))
  = Return (VDict [("datasets", VList (filter (creator_is email) l));
                   ("count", VInt (len (filter (creator_is email) l)));
                   ("current_page", VInt page);
                   ("per_page", VInt per_page)]).
Proof.
  intros Hav Hf Hok. cbn [fetched] in Hf.
  destruct (answer_list_inv _ _ _ _ _ Hf)
    as [client [response [d [Hclient [Hexec [Hjson [Herrors Hwalk]]]]]]].
  destruct (by_creator_run env email page per_page client response d l
              Hav Hclient Hexec Hjson Herrors Hwalk) as [out [Hrun Hout]].
  rewrite Hrun, (Hout Hok). reflexivity.
Qed.

(** The two [.get] steps and the iteration over the files of a version. *)
Lemma version_files_reads (version : PyVal) (files : list PyVal) :
  version_files version = Some files ->
  (found <~ py_get version "files" (VDict []) ;;
   found <~ py_get found "items" (VList []) ;;
   py_iter found) = Return files.
Proof.
  destruct version as [| | | | |d]; try discriminate.
  cbn [version_files py_get rbind].
  destruct (lookup "files" d) as [[| | | | |f]|]; try discriminate.
  - cbn [py_get rbind].
    destruct (lookup "items" f) as [[| | | |l|]|]; try discriminate;
      intros H; injection H as <-; reflexivity.
  - intros H. injection H as <-. reflexivity.
Qed.

Lemma files_loop_rows (d : Dict) (version_files : list PyVal) :
  forallb is_object version_files = true ->
  has_key "id" d = true -> has_key "name" d = true ->
  forall files, exists rows,
    files_loop (VDict d) version_files files = Return (files ++ rows)%list.
Proof.
  intros Hobjects Hid Hname. unfold has_key in Hid, Hname.
  destruct (lookup "id" d) as [vid|] eqn:Eid; [|discriminate].
  destruct (lookup "name" d) as [vname|] eqn:Ename; [|discriminate].
  induction version_files as [|file rest IH]; intros files.
  - exists []. cbn. rewrite app_nil_r. reflexivity.
  - cbn [forallb] in Hobjects. apply andb_prop in Hobjects.
    destruct Hobjects as [Hfile Hrest].
    destruct file as [| | | | |fields]; try discriminate.
    cbn [files_loop file_row py_getitem rbind]. rewrite Eid, Ename. cbn [rbind].
    destruct (IH Hrest (files ++
                [VDict (dict_set "version_name" vname
                          (dict_set "version_id" vid fields))])%list)
      as [rows Hrows].
    rewrite Hrows. eexists. rewrite <- app_assoc. reflexivity.
Qed.

Lemma versions_loop_rows (versions : list PyVal) :
  forallb version_ok versions = true ->
  forall files, exists rows,
    versions_loop versions files = Return (files ++ rows)%list.
Proof.
  induction versions as [|version rest IH]; intros Hok files.
  - exists []. cbn. rewrite app_nil_r. reflexivity.
  - cbn [forallb] in Hok. apply andb_prop in Hok. destruct Hok as [Hversion Hrest].
    unfold version_ok in Hversion.
    destruct (version_files version) as [found|] eqn:Hfound; [|discriminate].
    pose proof (version_files_reads _ _ Hfound) as Hreads.
    cbn [versions_loop].
    destruct (py_get version "files" (VDict [])) as [v1|]; [|discriminate].
    cbn [rbind] in *.
    destruct (py_get v1 "items" (VList [])) as [v2|]; [|discriminate].
    cbn [rbind] in *. rewrite Hreads. cbn [rbind].
    assert (Hloop : exists rows,
               files_loop version found files = Return (files ++ rows)%list).
    { destruct found as [|file more].
      - exists []. cbn. rewrite app_nil_r. reflexivity.
      - destruct version as [| | | | |d]; try discriminate.
        apply andb_prop in Hversion. destruct Hversion as [Hversion Hname].
        apply andb_prop in Hversion. destruct Hversion as [Hobjects Hid].
        apply files_loop_rows; assumption. }
    destruct Hloop as [rows Hrows]. rewrite Hrows. cbn [rbind].
    destruct (IH Hrest (files ++ rows)%list) as [rows' Hrows'].
    rewrite Hrows'. eexists. rewrite <- app_assoc. reflexivity.
Qed.

Lemma list_dataset_files_counted (env : Env) (id : string) (l : list PyVal) :
  OPENHEXA_AVAILABLE env = true ->
  fetched env (Call_list_dataset_files id) = Some l ->
  forallb version_ok l = true ->
  exists rows,
    fst (run env (Call_list_dataset_files id))
    = Return (VDict [("files", VList rows); ("count", VInt (len rows))]).
Proof.
  intros Hav Hf Hok. cbn [fetched] in Hf.
  destruct (answer_list_inv _ _ _ _ _ Hf)
    as [client [response [d [Hclient [Hexec [Hjson [Herrors Hwalk]]]]]]].
  destruct (versions_loop_rows l Hok []) as [rows Hrows].
  walk_all Hwalk. enter_tool Hav. run_body. rewrite Hrows.
  exists rows. reflexivity.
Qed.

(** C1 (amended). For every listing operation other than [list_webapps],
    whenever the transport delivers an answer with no errors and a resource
    list whose items the client-side step of the operation can read, the
    returned mapping has a list under the operation's resource key and a
    [count] entry equal to the length of that list; the list is the delivered
    one for the operations without a client-side step.  The items that can be
    read are: for [list_datasets] with a non-empty slug, those whose
    [workspace] entry is absent or an object; for [list_datasets_by_creator],
    the objects whose [createdBy] entry is absent or an object; for
    [list_dataset_files], the versions that are objects whose [files] entry is
    absent or an object whose [items] entry is absent or a list of objects,
    and that carry [id] and [name] when that list is not empty; any item for
    the other operations.  [list_webapps] returns the delivered list under
    [webapps] and has no [count] entry. *)
Theorem listing_returns_list_and_count
        (env : Env) (call : ToolCall) (key : string) (l : list PyVal) :
  OPENHEXA_AVAILABLE env = true ->
  resource_key call = Some key ->
  fetched env call = Some l ->
  forallb (item_ok call) l = true ->
  exists out,
    fst (run env call) = Return out
    /\ (is_list_webapps call = false ->
        exists l', counted key l' out /\ (verbatim call = true -> l' = l))
    /\ (is_list_webapps call = true ->
        exists d, out = VDict d
                  /\ lookup key d = Some (VList l)
                  /\ lookup "count" d = None).
Proof.
  intros Hav Hkey Hf Hok.
  destruct call; try discriminate Hkey; injection Hkey as <-.
  - destruct (list_workspaces_counted _ _ _ _ Hav Hf) as [pages ->].
    eexists. split; [reflexivity|]. split; [|discriminate].
    intros _. exists l. split; [|reflexivity].
    eexists. split; [reflexivity|]. split; reflexivity.
  - destruct (list_datasets_counted _ _ _ _ _ Hav Hf Hok) as [pages ->].
    eexists. split; [reflexivity|]. split; [|discriminate].
    intros _. eexists. split.
    + eexists. split; [reflexivity|]. split; reflexivity.
    + cbn [verbatim]. destruct workspace_slug as [s|]; [|reflexivity].
      destruct (str_truthy (Some s)); [discriminate | reflexivity].
  - destruct (list_pipelines_counted _ _ _ _ _ Hav Hf) as [pages ->].
    eexists. split; [reflexivity|]. split; [|discriminate].
    intros _. exists l. split; [|reflexivity].
    eexists. split; [reflexivity|]. split; reflexivity.
  - rewrite (list_connections_counted _ _ _ Hav Hf).
    eexists. split; [reflexivity|]. split; [|discriminate].
    intros _. exists l. split; [|reflexivity].
    eexists. split; [reflexivity|]. split; reflexivity.
  - destruct (list_webapps_uncounted _ _ _ _ _ Hav Hf) as [pages [total [current ->]]].
    eexists. split; [reflexivity|]. split; [discriminate|].
    intros _. eexists. split; [reflexivity|]. split; reflexivity.
  - rewrite (list_dataset_versions_counted _ _ _ Hav Hf).
    eexists. split; [reflexivity|]. split; [|discriminate].
    intros _. exists l. split; [|reflexivity].
    eexists. split; [reflexivity|]. split; reflexivity.
  - destruct (list_dataset_files_counted _ _ _ Hav Hf Hok) as [rows ->].
    eexists. split; [reflexivity|]. split; [|discriminate].
    intros _. exists rows. split; [|discriminate].
    eexists. split; [reflexivity|]. split; reflexivity.
  - destruct (search_datasets_counted _ _ _ _ _ Hav Hf) as [total [pages ->]].
    eexists. split; [reflexivity|]. split; [|discriminate].
    intros _. exists l. split; [|reflexivity].
    eexists. split; [reflexivity|]. split; reflexivity.
  - rewrite (list_datasets_by_creator_counted _ _ _ _ _ Hav Hf Hok).
    eexists. split; [reflexivity|]. split; [|discriminate].
    intros _. eexists. split; [|discriminate].
    eexists. split; [reflexivity|]. split; reflexivity.
Qed.

Lemma listing_returns_list_and_count_witness :
  exists out,
    fst (run (Stub.configured (Stub.paged Fixture.surveys))
             (Call_list_datasets 1 10 (Some "malaria")))
    = Return out
    /\ (is_list_webapps (Call_list_datasets 1 10 (Some "malaria")) = false ->
        exists l', counted "datasets" l' out
                   /\ (verbatim (Call_list_datasets 1 10 (Some "malaria")) = true ->
                       l' = map model_dump (items Fixture.surveys)))
    /\ (is_list_webapps (Call_list_datasets 1 10 (Some "malaria")) = true ->
        exists d, out = VDict d
                  /\ lookup "datasets" d
                     = Some (VList (map model_dump (items Fixture.surveys)))
                  /\ lookup "count" d = None).
Proof.
  apply (listing_returns_list_and_count
           (Stub.configured (Stub.paged Fixture.surveys))
           (Call_list_datasets 1 10 (Some "malaria"))
           "datasets" (map model_dump (items Fixture.surveys))).
  - reflexivity.
  - reflexivity.
  - reflexivity.
  - reflexivity.
Defined.

(** An item the filter of [list_datasets] cannot read: a dump whose
    [workspace] is [None] makes the comprehension raise, and the answer is an
    error without [count]. *)
Example list_datasets_detached_item :
  fst (run (Stub.configured (Stub.paged Fixture.detached))
           (Call_list_datasets 1 10 (Some "malaria")))
  = Return (VDict [("error", VStr "'NoneType' object has no attribute 'get'")]).
Proof. reflexivity. Qed.

(** The paging scenario of the specification on the stub page. *)
Example list_workspaces_on_stub_page :
  run (Stub.configured (Stub.paged Stub.one_page)) (Call_list_workspaces 2 5)
  = (Return (VDict [("workspaces", VList [VDict Stub.malaria]);
                    ("total_pages", VInt 1);
                    ("current_page", VInt 2);
                    ("per_page", VInt 5);
                    ("count", VInt 1)]),
     [returned (ReqWorkspaces 2 5)]).
Proof. reflexivity. Qed.

(** C1 as stated fails on [list_webapps]: the transport delivers a list of
    one webapp with no errors, and the returned mapping has no [count]. *)
Lemma list_webapps_has_no_count :
  fetched (Stub.configured (Stub.scripted [Stub.webapps_answer]))
          (Call_list_webapps "demo" 1 10)
  = Some [VDict [("id", VStr "w1")]]
  /\ fst (run (Stub.configured (Stub.scripted [Stub.webapps_answer]))
              (Call_list_webapps "demo" 1 10))
     = Return (VDict [("webapps", VList [VDict [("id", VStr "w1")]]);
                      ("total_pages", VInt 1);
                      ("total_items", VInt 1);
                      ("current_page", VInt 1)])
  /\ ~ (exists d l',
          fst (run (Stub.configured (Stub.scripted [Stub.webapps_answer]))
                   (Call_list_webapps "demo" 1 10))
          = Return (VDict d)
          /\ lookup "webapps" d = Some (VList l')
          /\ lookup "count" d = Some (VInt (len l'))).
Proof.
  split; [reflexivity|]. split; [reflexivity|].
  intros [d [l' [Hout [_ Hcount]]]].
  vm_compute in Hout. injection Hout as <-. discriminate Hcount.
Qed.

(* ================================================================== *)
(** ** The shape of failure answers *)

Lemma yields_ret (Q : PyVal -> Prop) (v : PyVal) : Q v -> yields Q (ret v).
Proof. intros H t v' t' E. injection E as <- _. exact H. Qed.

Lemma yields_bind {A} (Q : PyVal -> Prop) (m : M A) (k : A -> M PyVal) :
  (forall a, yields Q (k a)) -> yields Q (bind m k).
Proof.
  intros Hk t v t'. unfold bind. destruct (m t) as [[a | e] t1].
  - apply Hk.
  - discriminate.
Qed.

Lemma yields_guarded (Q : PyVal -> Prop) (env : Env) (body : M PyVal)
      (handler : Exn -> PyVal) :
  Q config_error -> yields Q body -> (forall e, Q (handler e)) ->
  yields Q (if negb (OPENHEXA_AVAILABLE env) then ret config_error
            else try_except body (fun e => ret (handler e))).
Proof.
  intros Hgate Hbody Hhandler.
  destruct (OPENHEXA_AVAILABLE env); cbn [negb].
  - intros t v t'. unfold try_except.
    destruct (body t) as [[a | e] t1] eqn:E.
    + intros H. injection H as <- _. apply (Hbody _ _ _ E).
    + intros H. injection H as <- _. apply Hhandler.
  - apply yields_ret, Hgate.
Qed.

(* ------------------------------------------------------------------ *)
(** *** Running a body step by step, keeping what each step returned *)

Lemma yf_ret (t : Trace) (Q : PyVal -> Prop) (v : PyVal) :
  Q v -> yields_from t Q (ret v).
Proof. intros H v' t' E. injection E as <- _. exact H. Qed.

Lemma yf_lift {A} (t : Trace) (Q : PyVal -> Prop) (r : Result A) (k : A -> M PyVal) :
  (forall a, r = Return a -> yields_from t Q (k a)) ->
  yields_from t Q (bind (lift r) k).
Proof.
  intros Hk v t'. unfold bind, lift. destruct r as [a | e].
  - apply (Hk a eq_refl).
  - discriminate.
Qed.

Lemma yf_sdk {A} (t : Trace) (Q : PyVal -> Prop) (env : Env) (attr : string)
      (req : Request) (behaviour : Client -> Trace -> Result A) (k : A -> M PyVal) :
  (forall client a,
      openhexa env = Some client -> behaviour client t = Return a ->
      yields_from (t ++ [returned req])%list Q (k a)) ->
  yields_from t Q (bind (sdk env attr req behaviour) k).
Proof.
  intros Hk v t'. unfold bind, sdk, transport, raise.
  destruct (openhexa env) as [client|]; [|discriminate].
  destruct (behaviour client t) as [a | e] eqn:Hcall; cbn [outcome_exn].
  - apply (Hk client a eq_refl Hcall).
  - discriminate.
Qed.

Lemma yf_bind {A} (t : Trace) (Q : PyVal -> Prop) (m : M A) (k : A -> M PyVal) :
  (forall a t1, yields_from t1 Q (k a)) -> yields_from t Q (bind m k).
Proof.
  intros Hk v t'. unfold bind. destruct (m t) as [[a | e] t1].
  - apply Hk.
  - discriminate.
Qed.

Lemma yf_guarded (t : Trace) (Q : PyVal -> Prop) (env : Env) (body : M PyVal)
      (handler : Exn -> PyVal) :
  Q config_error -> yields_from t Q body -> (forall e, Q (handler e)) ->
  yields_from t Q (if negb (OPENHEXA_AVAILABLE env) then ret config_error
                   else try_except body (fun e => ret (handler e))).
Proof.
  intros Hgate Hbody Hhandler.
  destruct (OPENHEXA_AVAILABLE env); cbn [negb].
  - intros v t'. unfold try_except.
    destruct (body t) as [[a | e] t1] eqn:E.
    + intros H. injection H as <- _. apply (Hbody _ _ E).
    + intros H. injection H as <- _. apply Hhandler.
  - apply yf_ret, Hgate.
Qed.

(** From the steps of the creation part of [create_pipeline] to [created]. *)
Lemma created_facts (env : Env) (client : Client) (workspace_slug name : string)
      (functional_type : option string) (tags : option (list string))
      (response : Response)
      (response_data data create_result success pipeline pipeline_code : PyVal) :
  openhexa env = Some client ->
  sdk_execute client [] create_query
              (VDict [("input", VDict (create_input workspace_slug name
                                                    functional_type tags))])
  = Return response ->
  json response = Return response_data ->
  py_in "errors" response_data = Return false ->
  py_get response_data "data" (VDict []) = Return data ->
  py_get data "createPipeline" (VDict []) = Return create_result ->
  py_get create_result "success" VNone = Return success ->
  negb (truthy success) = false ->
  py_get create_result "pipeline" VNone = Return pipeline ->
  negb (truthy pipeline) = false ->
  py_getitem pipeline "code" = Return pipeline_code ->
  created env workspace_slug name functional_type tags pipeline.
Proof.
  intros Hclient Hexec Hjson Hin Hdata Hresult Hsuccess Hts Hpipeline Htp Hcode.
  apply negb_false_iff in Hts, Htp.
  destruct create_result as [| | | | |result]; try discriminate Hsuccess.
  cbn [py_get] in Hsuccess, Hpipeline.
  injection Hsuccess as Hsuccess. injection Hpipeline as Hpipeline.
  destruct (lookup "success" result) as [s|] eqn:Es;
    [subst s | subst success; discriminate Hts].
  destruct (lookup "pipeline" result) as [p|] eqn:Ep;
    [subst p | subst pipeline; discriminate Htp].
  destruct data as [| | | | |d]; try discriminate Hresult.
  cbn [py_get] in Hresult. injection Hresult as Hresult.
  destruct (lookup "createPipeline" d) as [r|] eqn:Er;
    [subst r | injection Hresult as <-; discriminate Es].
  destruct response_data as [| | | | |body]; try discriminate Hdata.
  cbn [py_get py_in] in Hdata, Hin. injection Hdata as Hdata. injection Hin as Hin.
  destruct (lookup "data" body) as [x|] eqn:Ed;
    [subst x | injection Hdata as <-; discriminate Er].
  destruct pipeline as [| | | | |fields]; try discriminate Hcode.
  cbn [py_getitem] in Hcode.
  destruct (lookup "code" fields) as [c|] eqn:Ec; [|discriminate Hcode].
  injection Hcode as ->.
  exists client, response, body, pipeline_code.
  split; [exact Hclient|]. split; [exact Hexec|]. split; [exact Hjson|].
  split.
  - unfold has_key in Hin. destruct (lookup "errors" body); [discriminate | reflexivity].
  - exists d, result, fields, success. auto 10.
Qed.

(** From the steps before the [raw] answer to [raw_error_answer]. *)
Lemma raw_facts (env : Env) (call : ToolCall) (client : Client) (query : string)
      (variables : PyVal) (response : Response) (response_data errors : PyVal) :
  attaches_raw call = true ->
  request_of call = Some (ReqExecute query variables) ->
  openhexa env = Some client ->
  sdk_execute client [] query variables = Return response ->
  json response = Return response_data ->
  py_getitem response_data "errors" = Return errors ->
  raw_error_answer env call
    (VDict [("error", VStr ("GraphQL error: " ++ py_str errors));
            ("raw", response_data)]).
Proof.
  intros Hraw Hreq Hclient Hexec Hjson Hitem.
  destruct response_data as [| | | | |body]; try discriminate Hitem.
  cbn [py_getitem] in Hitem.
  destruct (lookup "errors" body) as [found|] eqn:Hfound; [|discriminate Hitem].
  injection Hitem as ->.
  split; [exact Hraw|]. exists body, errors.
  split; [|split; [exact Hfound | reflexivity]].
  unfold decoded. rewrite Hclient, Hreq, Hexec, Hjson. reflexivity.
Qed.

(** Settles [classified] on a literal answer: a success answer by its keys,
    the dump of the object the SDK returned, or the single-key error. *)
Ltac settle_classified :=
  unfold classified, error_dict, config_error, pipeline_not_found;
  first
    [ right; left; eexists; reflexivity
    | left; cbn [success_answer success_keys]; eexists; split; reflexivity
    | left; cbn [success_answer success_keys remote_dump]; do 2 eexists;
      split; [eassumption | split; [eassumption | reflexivity]] ].

(** Walks a tool body, keeping the equation of each step; leaves the answers
    that [settle_classified] does not settle. *)
Ltac classify_body :=
  repeat first
    [ apply yf_ret; try settle_classified
    | apply yf_lift; intros ? ?
    | apply yf_sdk; intros ? ? ? ?; cbv beta in *
    | apply yf_bind; intros ? ?
    | match goal with
      | |- yields_from _ _ (if ?c then _ else _) =>
          first [is_var c; destruct c | destruct c eqn:?]
      | |- yields_from _ _ (match ?x with _ => _ end) =>
          first [is_var x; destruct x | destruct x eqn:?]
      | |- yields_from _ _ (let _ := _ in _) => cbv zeta
      end ].

Lemma invoke_classified (env : Env) (call : ToolCall) :
  yields_from [] (classified env call) (invoke env call).
Proof.
  destruct call; cbn [invoke]; unfold_tools; unfold execute, execute_args;
    (apply yf_guarded;
     [ settle_classified | classify_body | intros e; settle_classified ]).
  (* the three partial-failure answers of [create_pipeline] *)
  1-3: try match goal with
           | H : openhexa ?e = Some ?c, H' : openhexa ?e = Some ?c' |- _ =>
               rewrite H in H'; injection H' as <-
           end;
       right; right; left; cbn [partial_failure_answer];
       unfold partial_failure, upload_failed_note;
       do 2 eexists; (split; [reflexivity|]);
       eapply created_facts; eassumption.
  (* the [raw] answers of [list_dataset_files] and [preview_dataset_file] *)
  all: right; right; right;
       eapply raw_facts; try eassumption; reflexivity.
Qed.

(** C8 (amended). Every tool returns, and its answer is either the success
    answer of the tool (a mapping with the tool's own result keys; for the
    three details tools, the dump of the object the SDK returned) or a
    failure answer.  A failure answer is a mapping with the single key [error]
    holding a string, except in two cases: after a creation step of
    [create_pipeline] that returned a pipeline object, the answer holds
    [error], [pipeline] (that object) and the fixed [note]; and on a decoded
    body that has an [errors] entry, [list_dataset_files] and
    [preview_dataset_file] answer with [error] ("GraphQL error: " and the
    entry) and [raw], the decoded body. *)
Theorem every_answer_is_classified (env : Env) (call : ToolCall) :
  exists out,
    fst (run env call) = Return out
    /\ (success_answer env call out
        \/ single_error out
        \/ partial_failure_answer env call out
        \/ raw_error_answer env call out).
Proof.
  unfold run. destruct (invoke_returns env call []) as [out Hout].
  exists out. split; [exact Hout|].
  destruct (invoke env call []) as [r t'] eqn:Hrun. cbn [fst] in Hout. subst r.
  apply (invoke_classified env call _ _ Hrun).
Qed.

(** C8 as stated fails on [list_dataset_files]: on a GraphQL error the answer
    has two keys, [error] and [raw], and the tool is not [create_pipeline]. *)
Lemma raw_entry_beside_error :
  fst (run (Stub.configured (Stub.scripted [Stub.graphql_failure]))
           (Call_list_dataset_files "ds1"))
  = Return (VDict [("error", VStr "GraphQL error: ['boom']");
                   ("raw", VDict [("errors", VList [VStr "boom"])])])
  /\ is_create_pipeline (Call_list_dataset_files "ds1") = false
  /\ ~ single_error (VDict [("error", VStr "GraphQL error: ['boom']");
                            ("raw", VDict [("errors", VList [VStr "boom"])])]).
Proof.
  split; [reflexivity|]. split; [reflexivity|].
  intros [msg H]. discriminate H.
Qed.

(** The same two-key answer from [preview_dataset_file]. *)
Example preview_raw_entry :
  fst (run (Stub.configured (Stub.scripted [Stub.graphql_failure]))
           (Call_preview_dataset_file "f1"))
  = Return (VDict [("error", VStr "GraphQL error: ['boom']");
                   ("raw", VDict [("errors", VList [VStr "boom"])])]).
Proof. reflexivity. Qed.

(** The preview scenario of the specification: a [null] file sample. *)
Example preview_without_sample :
  fst (run (Stub.configured
              (Stub.scripted
                 [VDict [("data", VDict [("datasetVersionFile",
                    VDict [("id", VStr "f1"); ("properties", VStr "{}");
                           ("fileSample", VNone)])])]]))
           (Call_preview_dataset_file "f1"))
  = Return (VDict [("file_id", VStr "f1"); ("sample", VNone); ("status", VNone);
                   ("status_reason", VNone); ("properties", VStr "{}")]).
Proof. reflexivity. Qed.

(* ================================================================== *)
(** ** [search_resources] *)

Ltac settle_lacks :=
  unfold lacks_success, error_dict, config_error; eexists; split; reflexivity.

Ltac lacks_body :=
  repeat first
    [ apply yields_ret; settle_lacks
    | apply yields_bind; intros ?
    | match goal with
      | |- yields _ (if ?c then _ else _) => destruct c
      | |- yields _ (match ?x with _ => _ end) => destruct x
      end ].

Lemma list_workspaces_lacks_success (env : Env) (page per_page : Z) :
  yields lacks_success (list_workspaces env page per_page).
Proof.
  unfold list_workspaces.
  apply yields_guarded; [settle_lacks | lacks_body | intros e; settle_lacks].
Qed.

Lemma list_datasets_lacks_success (env : Env) (page per_page : Z)
      (slug : option string) :
  yields lacks_success (list_datasets env page per_page slug).
Proof.
  unfold list_datasets.
  apply yields_guarded; [settle_lacks | lacks_body | intros e; settle_lacks].
Qed.

Lemma list_pipelines_lacks_success (env : Env) (slug : option string)
      (page per_page : Z) :
  yields lacks_success (list_pipelines env slug page per_page).
Proof.
  unfold list_pipelines.
  apply yields_guarded; [settle_lacks | lacks_body | intros e; settle_lacks].
Qed.

(** A block of the search leaves the results as they are when the listing
    answer has no [success] entry. *)
Lemma search_block_skips (query type key : string) (unwrap : PyVal -> Result PyVal)
      (listing : PyVal) (results : list PyVal) :
  lacks_success listing ->
  search_block query type key unwrap listing results = Return results.
Proof.
  intros [d [-> Hnone]]. unfold search_block. cbn [py_get rbind].
  rewrite Hnone. reflexivity.
Qed.

(** One guarded block of [search_resources] returns the results unchanged. *)
Lemma search_step_skips (wanted : bool) (listing : M PyVal)
      (search : PyVal -> list PyVal -> Result (list PyVal))
      (results : list PyVal) (t : Trace) :
  yields lacks_success listing ->
  (forall out, lacks_success out -> search out results = Return results) ->
  (forall t0, exists out, fst (listing t0) = Return out) ->
  exists t',
    (if wanted
     then (found <- listing ;; lift (search found results))
     else ret results) t = (Return results, t').
Proof.
  intros Hyields Hskip Hreturns. destruct wanted.
  - unfold bind, lift. destruct (Hreturns t) as [out Hout].
    destruct (listing t) as [r t1] eqn:Hl. cbn [fst] in Hout. subst r.
    rewrite (Hskip out (Hyields _ _ _ Hl)). eexists. reflexivity.
  - eexists. reflexivity.
Qed.

(** Whatever the transport delivers, the search finds nothing: the three
    blocks test a [success] entry that no listing answer has. *)
Lemma search_resources_finds_nothing (env : Env) (query : string)
      (resource_type workspace_slug : option string) :
  OPENHEXA_AVAILABLE env = true ->
  fst (run env (Call_search_resources query resource_type workspace_slug))
  = Return (VDict [("success", VBool true); ("query", VStr query);
                   ("results", VList []); ("count", VInt 0)]).
Proof.
  intros Hav. unfold run. cbn [invoke]. unfold search_resources.
  rewrite Hav. cbn [negb]. unfold try_except. cbv zeta.
  destruct (search_step_skips (wants resource_type "workspace")
              (list_workspaces env 1 10)
              (search_block query "workspace" "workspaces" (fun w => Return w))
              [] [] (list_workspaces_lacks_success env 1 10)
              (fun out H => search_block_skips _ _ _ _ out [] H)
              (fun t0 => invoke_returns env (Call_list_workspaces 1 10) t0))
    as [t1 H1].
  destruct (search_step_skips (wants resource_type "dataset")
              (list_datasets env 1 10 workspace_slug)
              (search_block query "dataset" "datasets"
                            (fun d => py_get d "dataset" d))
              [] t1 (list_datasets_lacks_success env 1 10 workspace_slug)
              (fun out H => search_block_skips _ _ _ _ out [] H)
              (fun t0 => invoke_returns env
                           (Call_list_datasets 1 10 workspace_slug) t0))
    as [t2 H2].
  assert (Hpipes : forall t0, exists out,
             fst (list_pipelines env workspace_slug 1 10 t0) = Return out).
  { intros t0. unfold list_pipelines. apply guarded_body_returns. }
  destruct (search_step_skips (wants resource_type "pipeline")
              (list_pipelines env workspace_slug 1 10)
              (search_block query "pipeline" "pipelines" (fun p => Return p))
              [] t2 (list_pipelines_lacks_success env workspace_slug 1 10)
              (fun out H => search_block_skips _ _ _ _ out [] H)
              Hpipes)
    as [t3 H3].
  unfold bind at 1. rewrite H1.
  unfold bind at 1. rewrite H2.
  unfold bind at 1. rewrite H3.
  reflexivity.
Qed.

(** C4 (the defect). The transport delivers the workspace "Malaria Survey";
    its name contains the query "malaria" up to case, so the claim puts it in
    [results] tagged [workspace]; the search lists the workspaces (one call on
    the transport) and returns no result. *)
Theorem search_resources_misses_match :
  fetched (Stub.configured (Stub.paged Stub.one_page)) (Call_list_workspaces 1 10)
  = Some [VDict Stub.malaria]
  /\ matches_query "malaria" (VDict Stub.malaria) = Return true
  /\ run (Stub.configured (Stub.paged Stub.one_page))
         (Call_search_resources "malaria" (Some "workspace") None)
     = (Return (VDict [("success", VBool true); ("query", VStr "malaria");
                       ("results", VList []); ("count", VInt 0)]),
        [returned (ReqWorkspaces 1 10)]).
Proof. repeat split. Qed.

(** What the three loops would collect from a listing answer that did carry
    a truthy [success] entry. *)
Example search_block_on_success :
  search_block "malaria" "workspace" "workspaces" (fun w => Return w)
    (VDict [("success", VBool true); ("workspaces", VList [VDict Stub.malaria])])
    []
  = Return [VDict [("type", VStr "workspace"); ("resource", VDict Stub.malaria)]].
Proof. reflexivity. Qed.

(* ================================================================== *)
(** ** Further properties: what the tools return and what they send *)

Lemma available_client (env : Env) :
  OPENHEXA_AVAILABLE env = true -> exists client, openhexa env = Some client.
Proof.
  unfold OPENHEXA_AVAILABLE. destruct (openhexa env) as [client|].
  - intros _. exists client. reflexivity.
  - discriminate.
Qed.

Ltac settle_mapping :=
  unfold is_mapping, error_dict, config_error, partial_failure,
    pipeline_not_found, model_dump;
  eexists; reflexivity.

Ltac mapping_body :=
  repeat first
    [ apply yields_ret; settle_mapping
    | apply yields_bind; intros ?
    | match goal with
      | |- yields _ (if ?c then _ else _) => destruct c
      | |- yields _ (match ?x with _ => _ end) => destruct x
      | |- yields _ (let _ := _ in _) => cbv zeta
      end ].

Lemma invoke_yields_mapping (env : Env) (call : ToolCall) :
  yields is_mapping (invoke env call).
Proof.
  destruct call; cbn [invoke]; unfold_tools;
    (apply yields_guarded; [settle_mapping | mapping_body | intros e; settle_mapping]).
Qed.

(** X1. Whatever the transport does and whatever the body of its answers
    holds, every tool returns, and what it returns is a mapping: no exception
    of the transport, of the decoding or of the walk through the answer
    leaves a tool. *)
Theorem every_tool_returns_a_mapping (env : Env) (call : ToolCall) (t : Trace) :
  exists d t', invoke env call t = (Return (VDict d), t').
Proof.
  destruct (invoke_returns env call t) as [out Hout].
  destruct (invoke env call t) as [r t'] eqn:Hrun. cbn [fst] in Hout. subst r.
  destruct (invoke_yields_mapping env call _ _ _ Hrun) as [d ->].
  exists d, t'. reflexivity.
Qed.

(* ------------------------------------------------------------------ *)
(** *** The requests a computation emits *)

Lemma emits_ret {A} (a : A) : emits [] (ret a).
Proof. intros t. cbn. rewrite app_nil_r. reflexivity. Qed.

Lemma emits_raise {A} (e : Exn) : emits [] (@raise A e).
Proof. intros t. cbn. rewrite app_nil_r. reflexivity. Qed.

Lemma emits_lift {A} (r : Result A) : emits [] (lift r).
Proof. intros t. cbn. rewrite app_nil_r. reflexivity. Qed.

Lemma emits_transport {A} (req : Request) (behaviour : Trace -> Result A) :
  emits [req] (transport req behaviour).
Proof. intros t. unfold transport. cbn [snd]. rewrite map_app. reflexivity. Qed.

Lemma emits_sdk {A} (env : Env) (client : Client) (attr : string) (req : Request)
      (behaviour : Client -> Trace -> Result A) :
  openhexa env = Some client -> emits [req] (sdk env attr req behaviour).
Proof. intros H. unfold sdk. rewrite H. apply emits_transport. Qed.

Lemma emits_bind {A B} (reqs : list Request) (m : M A) (k : A -> M B) :
  emits reqs m -> (forall a, emits [] (k a)) -> emits reqs (bind m k).
Proof.
  intros Hm Hk t. specialize (Hm t). unfold bind.
  destruct (m t) as [[a | e] t1]; cbn [snd] in *.
  - rewrite (Hk a t1), app_nil_r. exact Hm.
  - exact Hm.
Qed.

Lemma emits_try {A} (reqs : list Request) (body : M A) (handler : Exn -> M A) :
  emits reqs body -> (forall e, emits [] (handler e)) ->
  emits reqs (try_except body handler).
Proof.
  intros Hbody Hh t. specialize (Hbody t). unfold try_except.
  destruct (body t) as [[a | e] t1]; cbn [snd] in *.
  - exact Hbody.
  - rewrite (Hh e t1), app_nil_r. exact Hbody.
Qed.

Lemma emits_guarded (reqs : list Request) (env : Env) (body : M PyVal)
      (handler : Exn -> PyVal) :
  OPENHEXA_AVAILABLE env = true -> emits reqs body ->
  emits reqs (if negb (OPENHEXA_AVAILABLE env) then ret config_error
              else try_except body (fun e => ret (handler e))).
Proof.
  intros -> Hbody. cbn [negb]. apply emits_try; [exact Hbody|].
  intros e. apply emits_ret.
Qed.

(** Without the configuration a tool leaves the trace alone. *)
Lemma unguarded_trace (env : Env) (body : M PyVal) (handler : Exn -> M PyVal)
      (t : Trace) :
  OPENHEXA_AVAILABLE env = false ->
  snd ((if negb (OPENHEXA_AVAILABLE env) then ret config_error
        else try_except body handler) t) = t.
Proof. intros ->. reflexivity. Qed.

(** Walks a body whose first step is its only call on the client. *)
Ltac emits_body :=
  repeat first
    [ apply emits_ret
    | apply emits_lift
    | apply emits_raise
    | eapply emits_sdk; eassumption
    | apply emits_bind; [| intros ?]
    | match goal with
      | |- emits _ (if ?c then _ else _) => destruct c
      | |- emits _ (match ?x with _ => _ end) => destruct x
      | |- emits _ (let _ := _ in _) => cbv zeta
      end ].

Lemma single_call_emits (env : Env) (call : ToolCall) (req : Request) :
  OPENHEXA_AVAILABLE env = true ->
  request_of call = Some req ->
  emits [req] (invoke env call).
Proof.
  intros Hav Hreq. destruct (available_client env Hav) as [client Hclient].
  destruct call; try discriminate Hreq; injection Hreq as <-;
    cbn [invoke]; unfold_tools; unfold execute, execute_args;
    (apply emits_guarded; [exact Hav | emits_body]).
Qed.

(** X2. With the configuration present, every tool other than
    [create_pipeline] and [search_resources] makes exactly one call on the
    client, whatever the answer is: its SDK accessor, or [execute] with its
    GraphQL document and the mapping built from its arguments.  Seven tools
    pass document and mapping by keyword ([query=], [variables=]);
    [list_connections] and [list_webapps] pass them as two positional
    arguments.  No branch of a tool calls again. *)
Theorem one_call_per_tool (env : Env) (call : ToolCall) (req : Request) :
  OPENHEXA_AVAILABLE env = true ->
  request_of call = Some req ->
  map request (snd (run env call)) = [req].
Proof.
  intros Hav Hreq. unfold run.
  rewrite (single_call_emits env call req Hav Hreq []). reflexivity.
Qed.

Lemma one_call_per_tool_witness :
  map request (snd (run (Stub.configured (Stub.scripted [Stub.graphql_failure]))
                        (Call_search_datasets "malaria" 3 25)))
  = [ReqExecute search_datasets_query
                (VDict [("query", VStr "malaria"); ("page", VInt 3);
                        ("perPage", VInt 25)])].
Proof.
  apply (one_call_per_tool (Stub.configured (Stub.scripted [Stub.graphql_failure]))
                           (Call_search_datasets "malaria" 3 25)).
  - reflexivity.
  - reflexivity.
Defined.

(** The positional form of the call, in [list_webapps]. *)
Example list_webapps_calls_positionally :
  map request (snd (run (Stub.configured (Stub.scripted [Stub.graphql_failure]))
                        (Call_list_webapps "demo" 3 25)))
  = [ReqExecuteArgs list_webapps_query
                    (VDict [("slug", VStr "demo"); ("page", VInt 3);
                            ("perPage", VInt 25)])].
Proof. reflexivity. Qed.

(* ------------------------------------------------------------------ *)
(** *** The tools that call several times *)

Lemma list_workspaces_emits (env : Env) (page per_page : Z) :
  OPENHEXA_AVAILABLE env = true ->
  emits [ReqWorkspaces page per_page] (list_workspaces env page per_page).
Proof.
  intros Hav. destruct (available_client env Hav) as [client Hclient].
  unfold list_workspaces. apply emits_guarded; [exact Hav | emits_body].
Qed.

Lemma list_datasets_emits (env : Env) (page per_page : Z) (slug : option string) :
  OPENHEXA_AVAILABLE env = true ->
  emits [ReqDatasets page per_page] (list_datasets env page per_page slug).
Proof.
  intros Hav. destruct (available_client env Hav) as [client Hclient].
  unfold list_datasets. apply emits_guarded; [exact Hav | emits_body].
Qed.

Lemma list_pipelines_emits (env : Env) (slug : option string) (page per_page : Z) :
  OPENHEXA_AVAILABLE env = true ->
  emits [ReqPipelines slug page per_page] (list_pipelines env slug page per_page).
Proof.
  intros Hav. destruct (available_client env Hav) as [client Hclient].
  unfold list_pipelines. apply emits_guarded; [exact Hav | emits_body].
Qed.

(** One guarded block of [search_resources]: its result and its request. *)
Lemma search_step (wanted : bool) (req : Request) (listing : M PyVal)
      (search : PyVal -> list PyVal -> Result (list PyVal))
      (results : list PyVal) (t : Trace) :
  yields lacks_success listing ->
  (forall out, lacks_success out -> search out results = Return results) ->
  (forall t0, exists out, fst (listing t0) = Return out) ->
  emits [req] listing ->
  exists t',
    (if wanted
     then (found <- listing ;; lift (search found results))
     else ret results) t = (Return results, t')
    /\ map request t' = (map request t ++ (if wanted then [req] else []))%list.
Proof.
  intros Hyields Hskip Hreturns Hemits. destruct wanted.
  - unfold bind, lift. destruct (Hreturns t) as [out Hout]. specialize (Hemits t).
    destruct (listing t) as [r t1] eqn:Hl. cbn [fst snd] in *. subst r.
    rewrite (Hskip out (Hyields _ _ _ Hl)). exists t1. split; [reflexivity | exact Hemits].
  - exists t. split; [reflexivity|]. rewrite app_nil_r. reflexivity.
Qed.

(** The requests of [search_resources], from any trace. *)
Lemma search_requests_sent (env : Env) (query : string)
      (resource_type workspace_slug : option string) :
  OPENHEXA_AVAILABLE env = true ->
  emits (search_requests resource_type workspace_slug)
        (search_resources env query resource_type workspace_slug).
Proof.
  intros Hav t. unfold search_resources.
  rewrite Hav. cbn [negb]. unfold try_except. cbv zeta.
  destruct (search_step (wants resource_type "workspace") (ReqWorkspaces 1 10)
              (list_workspaces env 1 10)
              (search_block query "workspace" "workspaces" (fun w => Return w))
              [] t (list_workspaces_lacks_success env 1 10)
              (fun out H => search_block_skips _ _ _ _ out [] H)
              (fun t0 => invoke_returns env (Call_list_workspaces 1 10) t0)
              (list_workspaces_emits env 1 10 Hav))
    as [t1 [H1 E1]].
  destruct (search_step (wants resource_type "dataset") (ReqDatasets 1 10)
              (list_datasets env 1 10 workspace_slug)
              (search_block query "dataset" "datasets"
                            (fun d => py_get d "dataset" d))
              [] t1 (list_datasets_lacks_success env 1 10 workspace_slug)
              (fun out H => search_block_skips _ _ _ _ out [] H)
              (fun t0 => invoke_returns env
                           (Call_list_datasets 1 10 workspace_slug) t0)
              (list_datasets_emits env 1 10 workspace_slug Hav))
    as [t2 [H2 E2]].
  assert (Hpipes : forall t0, exists out,
             fst (list_pipelines env workspace_slug 1 10 t0) = Return out).
  { intros t0. unfold list_pipelines. apply guarded_body_returns. }
  destruct (search_step (wants resource_type "pipeline")
              (ReqPipelines workspace_slug 1 10)
              (list_pipelines env workspace_slug 1 10)
              (search_block query "pipeline" "pipelines" (fun p => Return p))
              [] t2 (list_pipelines_lacks_success env workspace_slug 1 10)
              (fun out H => search_block_skips _ _ _ _ out [] H)
              Hpipes (list_pipelines_emits env workspace_slug 1 10 Hav))
    as [t3 [H3 E3]].
  unfold bind at 1. rewrite H1.
  unfold bind at 1. rewrite H2.
  unfold bind at 1. rewrite H3.
  cbn [ret snd]. rewrite E3, E2, E1.
  unfold search_requests. rewrite <- !app_assoc. reflexivity.
Qed.

(** X3. With the configuration present, [search_resources] lists, in this
    order and once each, the workspaces, the datasets and the pipelines that
    [resource_type] asks for (all three when it is absent or empty, none when
    it names another type), always page 1 with 10 items, the pipelines with
    the optional [workspace_slug] as given; it makes no other call. *)
Theorem search_resources_fan_out (env : Env) (query : string)
        (resource_type workspace_slug : option string) :
  OPENHEXA_AVAILABLE env = true ->
  map request (snd (run env (Call_search_resources query resource_type workspace_slug)))
  = search_requests resource_type workspace_slug.
Proof.
  intros Hav. unfold run. cbn [invoke].
  rewrite (search_requests_sent env query resource_type workspace_slug Hav []).
  reflexivity.
Qed.

Lemma search_resources_fan_out_witness :
  map request (snd (run (Stub.configured Stub.offline)
                        (Call_search_resources "malaria" (Some "pipeline")
                                               (Some "demo"))))
  = search_requests (Some "pipeline") (Some "demo").
Proof.
  apply (search_resources_fan_out (Stub.configured Stub.offline) "malaria"
                                  (Some "pipeline") (Some "demo")).
  reflexivity.
Defined.

(** A resource type outside the three makes the search call nothing. *)
Example search_resources_unknown_type :
  run (Stub.configured Stub.offline) (Call_search_resources "malaria" (Some "webapp") None)
  = (Return (VDict [("success", VBool true); ("query", VStr "malaria");
                    ("results", VList []); ("count", VInt 0)]),
     []).
Proof. reflexivity. Qed.

(* ------------------------------------------------------------------ *)

Lemma ua_ret (env : Env) (slug code : string) (description : option string)
      (v : PyVal) :
  uploads_at_most env slug code description (ret v).
Proof. intros t. left. reflexivity. Qed.

Lemma ua_bind_lift {A} (env : Env) (slug code : string) (description : option string)
      (r : Result A) (k : A -> M PyVal) :
  (forall a, uploads_at_most env slug code description (k a)) ->
  uploads_at_most env slug code description (bind (lift r) k).
Proof.
  intros Hk t. unfold bind, lift. destruct r as [a | e].
  - apply Hk.
  - left. reflexivity.
Qed.

Lemma ua_upload (env : Env) (client : Client) (slug code : string)
      (description : option string) (pipeline_code : PyVal) (zipfile_b64 : string)
      (k : Response -> M PyVal) :
  _create_pipeline_zipfile (zipfile env) (localtime env) code = Return zipfile_b64 ->
  openhexa env = Some client ->
  (forall a, emits [] (k a)) ->
  uploads_at_most env slug code description
    (bind (execute env upload_query
                   (VDict [("input", VDict (upload_input slug pipeline_code
                                                         description zipfile_b64))]))
          k).
Proof.
  intros Hzip Hclient Hk t. right. exists pipeline_code, zipfile_b64.
  split; [exact Hzip|].
  apply (emits_bind _ _ _ (emits_sdk env client _ _ _ Hclient) Hk).
Qed.

Ltac uploads_body :=
  repeat first
    [ apply ua_ret
    | apply ua_bind_lift; intros ?
    | eapply ua_upload; [eassumption | eassumption | intros ?; emits_body]
    | match goal with
      | |- uploads_at_most _ _ _ _ (if ?c then _ else _) => destruct c
      | |- uploads_at_most _ _ _ _ (match ?x with _ => _ end) => destruct x eqn:?
      | |- uploads_at_most _ _ _ _ (let _ := _ in _) => cbv zeta
      end ].

Lemma try_trace {A} (body : M A) (handler : Exn -> A) (t : Trace) :
  snd (try_except body (fun e => ret (handler e)) t) = snd (body t).
Proof. unfold try_except. destruct (body t) as [[a | e] t1]; reflexivity. Qed.

(** X4. [create_pipeline] calls the client at most twice and in one order:
    nothing (no configuration or a missing argument), or the [createPipeline]
    mutation alone, or that mutation followed by one [uploadPipeline] mutation
    whose [zipfile] is the packaging of [code_content] and whose other
    variables are the workspace, a pipeline code, the fixed version name and
    the description or its default.  The upload is never sent first, never
    sent twice, and the creation is never repeated. *)
Theorem create_pipeline_call_order
        (env : Env) (workspace_slug name code_content : string)
        (description functional_type : option string) (tags : option (list string)) :
  map request (snd (run env (Call_create_pipeline workspace_slug name code_content
                                                  description functional_type tags)))
  = []
  \/ map request (snd (run env (Call_create_pipeline workspace_slug name code_content
                                                     description functional_type tags)))
     = [create_request workspace_slug name functional_type tags]
  \/ exists pipeline_code zipfile_b64,
      _create_pipeline_zipfile (zipfile env) (localtime env) code_content
      = Return zipfile_b64
      /\ map request (snd (run env (Call_create_pipeline workspace_slug name
                                      code_content description functional_type tags)))
         = [create_request workspace_slug name functional_type tags;
            upload_request workspace_slug pipeline_code description zipfile_b64].
Proof.
  unfold run. cbn [invoke]. unfold create_pipeline.
  destruct (OPENHEXA_AVAILABLE env) eqn:Hav; cbn [negb]; [|left; reflexivity].
  destruct (available_client env Hav) as [client Hclient].
  rewrite try_trace.
  destruct (String.eqb workspace_slug EmptyString || String.eqb name EmptyString
            || String.eqb code_content EmptyString)%bool; [left; reflexivity|].
  cbv zeta. right.
  match goal with
  | |- context [bind (execute env create_query ?vars) ?k] =>
      assert (Hk : forall result,
                 uploads_at_most env workspace_slug code_content description (k result))
        by (intros result; uploads_body);
      set (K := k) in *; clearbody K
  end.
  unfold bind, execute, sdk, transport. rewrite Hclient.
  destruct (sdk_execute client [] create_query
              (VDict [("input", VDict (create_input workspace_slug name
                                                    functional_type tags))]))
    as [result | e]; cbn [app outcome_exn snd map request].
  - destruct (Hk result [{| request := create_request workspace_slug name
                                          functional_type tags;
                            raised := None |}]) as [H | [pc [b64 [Hzip H]]]].
    + left. exact H.
    + right. exists pc, b64. split; [exact Hzip | exact H].
  - left. reflexivity.
Qed.

(** The two-call run on the stub: creation, then the upload of the archive. *)
Example create_pipeline_two_calls :
  map request
      (snd (run (Stub.configured (Stub.scripted [Stub.creation_ok; Fixture.upload_ok]))
                (Call_create_pipeline "demo" "etl" "hi" None None None)))
  = [create_request "demo" "etl" None None;
     upload_request "demo" (VStr "etl") None "aGk="].
Proof. reflexivity. Qed.

(* ------------------------------------------------------------------ *)

Lemma closed_gate_trace (env : Env) (call : ToolCall) (t : Trace) :
  OPENHEXA_AVAILABLE env = false -> snd (invoke env call t) = t.
Proof.
  intros Hav. destruct call; cbn [invoke]; unfold_tools; apply unguarded_trace, Hav.
Qed.

(** X5. Only [create_pipeline] writes: no other tool, on any input and
    whatever the transport answers, sends the [createPipeline] or the
    [uploadPipeline] mutation. *)
Theorem only_create_pipeline_mutates (env : Env) (call : ToolCall) :
  is_create_pipeline call = false ->
  existsb is_mutation (map request (snd (run env call))) = false.
Proof.
  intros Hcall. unfold run.
  destruct (OPENHEXA_AVAILABLE env) eqn:Hav;
    [| rewrite (closed_gate_trace env call [] Hav); reflexivity].
  destruct call; try discriminate Hcall;
    try (match goal with
         | |- context [invoke env ?c []] =>
             rewrite (single_call_emits env c _ Hav eq_refl [])
         end; vm_compute; reflexivity).
  match goal with
  | |- context [invoke env (Call_search_resources ?q ?rt ?ws) []] =>
      cbn [invoke];
      rewrite (search_requests_sent env q rt ws Hav []); cbn [map app];
      unfold search_requests;
      destruct (wants rt "workspace"), (wants rt "dataset"), (wants rt "pipeline");
      reflexivity
  end.
Qed.

Lemma only_create_pipeline_mutates_witness :
  existsb is_mutation
    (map request (snd (run (Stub.configured (Stub.scripted [Stub.datasets_answer]))
                           (Call_search_datasets "malaria" 1 20)))) = false.
Proof.
  apply (only_create_pipeline_mutates
           (Stub.configured (Stub.scripted [Stub.datasets_answer]))
           (Call_search_datasets "malaria" 1 20)).
  reflexivity.
Defined.

(* ================================================================== *)
(** ** Further properties: reading the answer of a GraphQL tool *)

Lemma decoded_inv (env : Env) (call : ToolCall) (body : Result PyVal) :
  decoded env call = Some body ->
  exists client query variables response,
    openhexa env = Some client
    /\ json response = body
    /\ ((request_of call = Some (ReqExecute query variables)
         /\ sdk_execute client [] query variables = Return response)
        \/ (request_of call = Some (ReqExecuteArgs query variables)
            /\ sdk_execute_args client [] query variables = Return response)).
Proof.
  unfold decoded. intros H.
  destruct (openhexa env) as [client|]; [|discriminate].
  destruct (request_of call)
    as [[| | | | | | |query variables|query variables]|]; try discriminate.
  - destruct (sdk_execute client [] query variables) as [response|] eqn:Hexec;
      [|discriminate].
    injection H as <-. exists client, query, variables, response. auto.
  - destruct (sdk_execute_args client [] query variables) as [response|] eqn:Hexec;
      [|discriminate].
    injection H as <-. exists client, query, variables, response. auto.
Qed.

(** Opens a single-call GraphQL tool on the decoded body of its call. *)
Ltac open_decoded Hav Hdecoded :=
  let client := fresh "client" in
  let query := fresh "query" in
  let variables := fresh "variables" in
  let response := fresh "response" in
  let Hclient := fresh "Hclient" in
  let Hreq := fresh "Hreq" in
  let Hexec := fresh "Hexec" in
  let Hjson := fresh "Hjson" in
  destruct (decoded_inv _ _ _ Hdecoded)
    as [client [query [variables [response
         [Hclient [Hjson [[Hreq Hexec] | [Hreq Hexec]]]]]]]];
  match type of Hreq with
  | request_of ?call = _ =>
      destruct call; try discriminate Hreq; injection Hreq as <- <-
  end.

(** X6. In the nine tools that send one GraphQL document, the presence of an
    [errors] key in the decoded body decides the answer, whatever its value
    (an empty list included) and whatever [data] holds beside it: the [error]
    text is "GraphQL error: " followed by [str] of that value. *)
Theorem errors_entry_decides (env : Env) (call : ToolCall) (body : Dict)
        (errors : PyVal) :
  OPENHEXA_AVAILABLE env = true ->
  decoded env call = Some (Return (VDict body)) ->
  lookup "errors" body = Some errors ->
  exists out,
    fst (run env call) = Return (VDict out)
    /\ lookup "error" out = Some (VStr ("GraphQL error: " ++ py_str errors)).
Proof.
  intros Hav Hdecoded Herrors.
  pose proof (has_key_true _ _ _ Herrors) as Hkey.
  open_decoded Hav Hdecoded; enter_tool Hav; run_body;
    eexists; split; reflexivity.
Qed.

Lemma errors_entry_decides_witness :
  exists out,
    fst (run (Stub.configured (Stub.scripted [Fixture.empty_errors]))
             (Call_search_datasets "malaria" 1 20))
    = Return (VDict out)
    /\ lookup "error" out = Some (VStr ("GraphQL error: " ++ py_str (VList []))).
Proof.
  apply (errors_entry_decides
           (Stub.configured (Stub.scripted [Fixture.empty_errors]))
           (Call_search_datasets "malaria" 1 20)
           [("errors", VList []); ("data", VDict [])] (VList [])).
  - reflexivity.
  - reflexivity.
  - reflexivity.
Defined.

(** X7. In the seven GraphQL tools that look a resource up (workspace,
    dataset, dataset version, file), a body without errors in which the
    resource is missing gives the tool's "not found" message with the
    identifier asked for.  Missing means: no [data] entry at all, no entry for
    the resource, or an entry that is not truthy ([null], an empty object). *)
Theorem missing_resource_not_found (env : Env) (call : ToolCall) (body : Dict)
        (key message : string) :
  OPENHEXA_AVAILABLE env = true ->
  decoded env call = Some (Return (VDict body)) ->
  lookup "errors" body = None ->
  looked_up call = Some (key, message) ->
  resource_missing key body ->
  fst (run env call) = Return (VDict [("error", VStr message)]).
Proof.
  intros Hav Hdecoded Herrors Hlooked Hmissing.
  pose proof (has_key_false _ _ Herrors) as Hkey.
  open_decoded Hav Hdecoded; try discriminate Hlooked;
    injection Hlooked as <- <-;
    (destruct Hmissing as [Hnodata | [data [Hdata Hfalsy]]];
     enter_tool Hav; run_body; cbn [lookup truthy negb]; rewrite ?Hfalsy;
     reflexivity).
Qed.

Lemma missing_resource_not_found_witness :
  fst (run (Stub.configured (Stub.scripted [Fixture.no_data]))
           (Call_get_dataset_file_details "f9"))
  = Return (VDict [("error", VStr "File 'f9' not found")]).
Proof.
  apply (missing_resource_not_found
           (Stub.configured (Stub.scripted [Fixture.no_data]))
           (Call_get_dataset_file_details "f9") [] "datasetVersionFile"
           "File 'f9' not found").
  - reflexivity.
  - reflexivity.
  - reflexivity.
  - reflexivity.
  - left. reflexivity.
Defined.

(** X8. In the nine tools that send one GraphQL document, a body that does
    not decode (the answer's [json()] raises) gives the single-key error
    mapping whose text is the tool's own prefix followed by the text of the
    exception. *)
Theorem undecodable_body_reported (env : Env) (call : ToolCall) (e : Exn) :
  OPENHEXA_AVAILABLE env = true ->
  decoded env call = Some (Raise e) ->
  fst (run env call)
  = Return (VDict [("error", VStr (failure_prefix call ++ exn_text e))]).
Proof.
  intros Hav Hdecoded.
  open_decoded Hav Hdecoded; enter_tool Hav; run_body; reflexivity.
Qed.

Lemma undecodable_body_reported_witness :
  fst (run (Stub.configured Fixture.garbled) (Call_list_dataset_versions "ds1"))
  = Return (VDict [("error",
              VStr (failure_prefix (Call_list_dataset_versions "ds1")
                    ++ "Expecting value"))]).
Proof.
  apply (undecodable_body_reported (Stub.configured Fixture.garbled)
                                   (Call_list_dataset_versions "ds1")
                                   (PyExn "JSONDecodeError" "Expecting value")).
  - reflexivity.
  - reflexivity.
Defined.

(** X9. In the nine tools that send one GraphQL document, a body without
    errors whose [data] entry is present but is not an object ([null], as a
    server sends it beside a failure) is not read as "not found" nor as an
    empty page: the [.get] chain raises on it and the tool answers with its
    prefix followed by the text of that attribute error. *)
Theorem data_not_object_reported (env : Env) (call : ToolCall) (body : Dict)
        (data : PyVal) :
  OPENHEXA_AVAILABLE env = true ->
  decoded env call = Some (Return (VDict body)) ->
  lookup "errors" body = None ->
  lookup "data" body = Some data ->
  is_object data = false ->
  fst (run env call)
  = Return (VDict [("error",
              VStr (failure_prefix call ++ exn_text (AttributeError data "get")))]).
Proof.
  intros Hav Hdecoded Herrors Hdata Hshape.
  pose proof (has_key_false _ _ Herrors) as Hkey.
  open_decoded Hav Hdecoded; enter_tool Hav; run_body;
    destruct data; try discriminate Hshape; reflexivity.
Qed.

Lemma data_not_object_reported_witness :
  fst (run (Stub.configured (Stub.scripted [Fixture.null_data]))
           (Call_list_connections "demo"))
  = Return (VDict [("error",
              VStr (failure_prefix (Call_list_connections "demo")
                    ++ exn_text (AttributeError VNone "get")))]).
Proof.
  apply (data_not_object_reported
           (Stub.configured (Stub.scripted [Fixture.null_data]))
           (Call_list_connections "demo") [("data", VNone)] VNone).
  - reflexivity.
  - reflexivity.
  - reflexivity.
  - reflexivity.
  - reflexivity.
Defined.

(** The text of the last answer, as Python words it. *)
Example null_data_on_stub :
  fst (run (Stub.configured (Stub.scripted [Fixture.null_data]))
           (Call_list_connections "demo"))
  = Return (VDict [("error",
      VStr "Failed to list connections: 'NoneType' object has no attribute 'get'")]).
Proof. reflexivity. Qed.

(* ================================================================== *)
(** ** Further properties: what the tools make of a good answer *)

Lemma packaging_result (lib : ZipLib) (now : DateTime) (src : string) :
  ZipLibOk lib ->
  exists member,
    _create_pipeline_zipfile lib now src
    = Return (Base64.b64encode (archive_bytes lib [member]))
    /\ member_content lib member = Some ("pipeline.py", encode_utf8 src).
Proof.
  intros Hok.
  destruct (compress_total lib Hok (encode_utf8 src)) as [c Hc].
  pose proof (decompress_compress lib Hok _ _ Hc) as Hback.
  unfold _create_pipeline_zipfile, writestr. rewrite Hc. cbn [app].
  eexists. split; [reflexivity|].
  unfold member_content. cbn [info stored compress_type filename]. rewrite Hback.
  reflexivity.
Qed.

(** X10. The two steps of [create_pipeline] compose: when the creation
    succeeds with a pipeline object, the archive library keeps its contract
    and the upload succeeds, the tool sends exactly the creation and then one
    upload whose [zipfile] variable decodes to an archive with the single
    member [pipeline.py] holding [code_content], under the [code] of the
    created pipeline; and it answers with [success], the created pipeline and
    the message naming the pipeline. *)
Theorem create_pipeline_uploads_the_code
        (env : Env) (client : Client) (workspace_slug name code_content : string)
        (description functional_type : option string) (tags : option (list string))
        (response upload_response : Response) (response_data upload_data : Dict)
        (pipeline pipeline_code : PyVal) (data result : Dict) (success : PyVal) :
  OPENHEXA_AVAILABLE env = true ->
  openhexa env = Some client ->
  workspace_slug <> EmptyString -> name <> EmptyString -> code_content <> EmptyString ->
  ZipLibOk (zipfile env) ->
  sdk_execute client [] create_query
              (VDict [("input", VDict (create_input workspace_slug name
                                                    functional_type tags))])
  = Return response ->
  json response = Return (VDict response_data) ->
  reports_pipeline response_data pipeline pipeline_code ->
  (forall variables,
      sdk_execute client
        [returned (create_request workspace_slug name functional_type tags)]
        upload_query variables = Return upload_response) ->
  json upload_response = Return (VDict upload_data) ->
  lookup "errors" upload_data = None ->
  lookup "data" upload_data = Some (VDict data) ->
  lookup "uploadPipeline" data = Some (VDict result) ->
  lookup "success" result = Some success -> truthy success = true ->
  exists zipfile_b64 member,
    run env (Call_create_pipeline workspace_slug name code_content description
                                  functional_type tags)
    = (Return (VDict [("success", VBool true);
                      ("pipeline", pipeline);
                      ("message",
                       VStr ("Pipeline '" ++ name
                             ++ "' created and code uploaded successfully"))]),
       [returned (create_request workspace_slug name functional_type tags);
        returned (upload_request workspace_slug pipeline_code description
                                 zipfile_b64)])
    /\ packs (zipfile env) zipfile_b64 [member]
    /\ member_content (zipfile env) member = Some ("pipeline.py", encode_utf8 code_content).
Proof.
  intros Hav Hclient Hslug Hname Hcode Hlib Hexec Hjson Hcreated
         Hupload Hjson2 Hnone2 Hdata2 Hresult2 Hsuccess2 Htruthy2.
  destruct Hcreated
    as [Hnone [data1 [result1 [fields [success1
         [Hdata [Hresult [Hsuccess [Htruthy [Hpipeline [-> Hpcode]]]]]]]]]]].
  destruct (packaging_result (zipfile env) (localtime env) code_content Hlib)
    as [member [Hzip Hcontent]].
  exists (Base64.b64encode (archive_bytes (zipfile env) [member])), member.
  split; [| split; [apply Base64Facts.b64decode_b64encode | exact Hcontent]].
  unfold run. cbn [invoke]. unfold create_pipeline.
  rewrite Hav, (eqb_empty_false _ Hslug), (eqb_empty_false _ Hname),
    (eqb_empty_false _ Hcode).
  cbn [negb orb]. open_body. rewrite Hclient, Hexec. cbn [app outcome_exn].
  rewrite Hjson. cbn [py_in]. rewrite (has_key_false _ _ Hnone).
  cbn [py_get]. rewrite Hdata. cbn [py_get]. rewrite Hresult. cbn [py_get].
  rewrite Hsuccess, Htruthy, Hpipeline. cbn [negb].
  rewrite (lookup_truthy _ _ _ Hpcode). cbn [negb py_getitem]. rewrite Hpcode.
  rewrite Hzip.
  fold (create_request workspace_slug name functional_type tags).
  fold (returned (create_request workspace_slug name functional_type tags)).
  rewrite Hupload. cbn [app outcome_exn]. rewrite Hjson2. cbn [py_in].
  rewrite (has_key_false _ _ Hnone2). cbn [py_get]. rewrite Hdata2.
  cbn [py_get]. rewrite Hresult2. cbn [py_get]. rewrite Hsuccess2, Htruthy2.
  cbn [negb]. reflexivity.
Qed.

Lemma create_pipeline_uploads_the_code_witness :
  exists zipfile_b64 member,
    run (Stub.configured (Stub.scripted [Stub.creation_ok; Fixture.upload_ok]))
        (Call_create_pipeline "demo" "etl" "print(1)" None None None)
    = (Return (VDict [("success", VBool true);
                      ("pipeline", Stub.created_pipeline);
                      ("message",
                       VStr ("Pipeline '" ++ "etl"
                             ++ "' created and code uploaded successfully"))]),
       [returned (create_request "demo" "etl" None None);
        returned (upload_request "demo" (VStr "etl") None zipfile_b64)])
    /\ packs Stub.storing zipfile_b64 [member]
    /\ member_content Stub.storing member
       = Some ("pipeline.py", encode_utf8 "print(1)").
Proof.
  apply (create_pipeline_uploads_the_code
           (Stub.configured (Stub.scripted [Stub.creation_ok; Fixture.upload_ok]))
           (Stub.scripted [Stub.creation_ok; Fixture.upload_ok])
           "demo" "etl" "print(1)" None None None
           {| json := Return Stub.creation_ok |}
           {| json := Return Fixture.upload_ok |}
           [("data", VDict [("createPipeline",
                VDict [("success", VBool true); ("errors", VList []);
                       ("pipeline", Stub.created_pipeline)])])]
           [("data", VDict [("uploadPipeline",
                VDict [("success", VBool true); ("errors", VList [])])])]
           Stub.created_pipeline (VStr "etl")
           [("uploadPipeline",
             VDict [("success", VBool true); ("errors", VList [])])]
           [("success", VBool true); ("errors", VList [])]
           (VBool true)).
  - reflexivity.
  - reflexivity.
  - discriminate.
  - discriminate.
  - discriminate.
  - split.
    + intros data. exists data. reflexivity.
    + intros data c H. injection H as <-. reflexivity.
  - reflexivity.
  - reflexivity.
  - split; [reflexivity|].
    exists [("createPipeline",
             VDict [("success", VBool true); ("errors", VList []);
                    ("pipeline", Stub.created_pipeline)])],
           [("success", VBool true); ("errors", VList []);
            ("pipeline", Stub.created_pipeline)],
           [("id", VStr "p1"); ("name", VStr "etl"); ("code", VStr "etl")],
           (VBool true).
    repeat split; reflexivity.
  - intros variables. reflexivity.
  - reflexivity.
  - reflexivity.
  - reflexivity.
  - reflexivity.
  - reflexivity.
  - reflexivity.
Defined.

(* ------------------------------------------------------------------ *)
(** *** The rows of [list_dataset_files] *)

Lemma lookup_dict_set_same (key : string) (v : PyVal) (d : Dict) :
  lookup key (dict_set key v d) = Some v.
Proof.
  induction d as [|[k x] rest IH]; cbn [dict_set lookup].
  - rewrite String.eqb_refl. reflexivity.
  - destruct (String.eqb k key) eqn:E; cbn [lookup]; rewrite E; [reflexivity | exact IH].
Qed.

Lemma lookup_dict_set_other (key other : string) (v : PyVal) (d : Dict) :
  other <> key -> lookup other (dict_set key v d) = lookup other d.
Proof.
  intros Hneq. induction d as [|[k x] rest IH]; cbn [dict_set lookup].
  - destruct (String.eqb key other) eqn:E; [|reflexivity].
    apply String.eqb_eq in E. congruence.
  - destruct (String.eqb k key) eqn:E; cbn [lookup].
    + apply String.eqb_eq in E. subst k.
      destruct (String.eqb key other) eqn:E'; [|reflexivity].
      apply String.eqb_eq in E'. congruence.
    + rewrite IH. reflexivity.
Qed.

(** X11. A row of [list_dataset_files] is the file merged with the tags of
    its version: [version_id] and [version_name] are the version's [id] and
    [name], also when the file had entries of those names, and every other
    entry of the file is kept as it was. *)
Theorem file_row_tags_the_file (version fields row : Dict) :
  file_row (VDict version) (VDict fields) = Return (VDict row) ->
  lookup "version_id" row = lookup "id" version
  /\ lookup "version_name" row = lookup "name" version
  /\ forall key, key <> "version_id" -> key <> "version_name" ->
                 lookup key row = lookup key fields.
Proof.
  unfold file_row. cbn [py_getitem rbind].
  destruct (lookup "id" version) as [vid|]; [|discriminate]. cbn [rbind].
  destruct (lookup "name" version) as [vname|]; [|discriminate]. cbn [rbind].
  intros H. injection H as <-. repeat split.
  - rewrite lookup_dict_set_other by discriminate. apply lookup_dict_set_same.
  - apply lookup_dict_set_same.
  - intros key H1 H2. rewrite !lookup_dict_set_other by assumption. reflexivity.
Qed.

Lemma file_row_tags_the_file_witness :
  lookup "version_id"
         [("id", VStr "f1"); ("version_id", VStr "v1"); ("version_name", VStr "first")]
  = lookup "id" [("id", VStr "v1"); ("name", VStr "first")]
  /\ lookup "version_name"
            [("id", VStr "f1"); ("version_id", VStr "v1"); ("version_name", VStr "first")]
     = lookup "name" [("id", VStr "v1"); ("name", VStr "first")]
  /\ forall key, key <> "version_id" -> key <> "version_name" ->
                 lookup key [("id", VStr "f1"); ("version_id", VStr "v1");
                             ("version_name", VStr "first")]
                 = lookup key [("id", VStr "f1"); ("version_id", VStr "stale")].
Proof.
  apply (file_row_tags_the_file
           [("id", VStr "v1"); ("name", VStr "first")]
           [("id", VStr "f1"); ("version_id", VStr "stale")]
           [("id", VStr "f1"); ("version_id", VStr "v1"); ("version_name", VStr "first")]).
  reflexivity.
Defined.

Lemma files_loop_tagged (d : Dict) (vid vname : PyVal) (found : list PyVal) :
  lookup "id" d = Some vid -> lookup "name" d = Some vname ->
  forallb is_object found = true ->
  forall files,
    files_loop (VDict d) found files
    = Return (files ++ map (tagged_file vid vname) found)%list.
Proof.
  intros Hid Hname. induction found as [|file rest IH]; intros Hobjects files.
  - cbn. rewrite app_nil_r. reflexivity.
  - cbn [forallb] in Hobjects. apply andb_prop in Hobjects.
    destruct Hobjects as [Hfile Hrest].
    destruct file as [| | | | |fields]; try discriminate.
    cbn [files_loop file_row py_getitem rbind]. rewrite Hid, Hname. cbn [rbind].
    rewrite (IH Hrest). cbn [map tagged_file]. rewrite <- app_assoc. reflexivity.
Qed.

Lemma versions_loop_flat (versions : list PyVal) :
  forallb version_ok versions = true ->
  forall files,
    versions_loop versions files
    = Return (files ++ flat_map version_rows versions)%list.
Proof.
  induction versions as [|version rest IH]; intros Hok files.
  - cbn. rewrite app_nil_r. reflexivity.
  - cbn [forallb] in Hok. apply andb_prop in Hok. destruct Hok as [Hversion Hrest].
    unfold version_ok in Hversion.
    destruct (version_files version) as [found|] eqn:Hfound; [|discriminate].
    pose proof (version_files_reads _ _ Hfound) as Hreads.
    cbn [versions_loop flat_map].
    destruct (py_get version "files" (VDict [])) as [v1|]; [|discriminate].
    cbn [rbind] in *.
    destruct (py_get v1 "items" (VList [])) as [v2|]; [|discriminate].
    cbn [rbind] in *. rewrite Hreads. cbn [rbind].
    assert (Hloop : files_loop version found files
                    = Return (files ++ version_rows version)%list).
    { unfold version_rows. rewrite Hfound.
      destruct found as [|file more].
      - cbn [files_loop].
        destruct (walk ["id"] version), (walk ["name"] version);
          cbn [map]; rewrite app_nil_r; reflexivity.
      - destruct version as [| | | | |d]; try discriminate.
        apply andb_prop in Hversion. destruct Hversion as [Hversion Hname].
        apply andb_prop in Hversion. destruct Hversion as [Hobjects Hid].
        unfold has_key in Hid, Hname. cbn [walk].
        destruct (lookup "id" d) as [vid|] eqn:Eid; [|discriminate].
        destruct (lookup "name" d) as [vname|] eqn:Ename; [|discriminate].
        apply files_loop_tagged; assumption. }
    rewrite Hloop. cbn [rbind]. rewrite (IH Hrest). rewrite <- app_assoc. reflexivity.
Qed.

(** X12. [list_dataset_files] flattens the versions of the dataset: its
    [files] list is, version after version in the order of the answer, the
    files of each version tagged with that version's [id] and [name], and
    [count] is the total number of files over all versions; a version without
    files contributes nothing. *)
Theorem dataset_files_are_flattened (env : Env) (dataset_id : string)
        (versions : list PyVal) :
  OPENHEXA_AVAILABLE env = true ->
  fetched env (Call_list_dataset_files dataset_id) = Some versions ->
  forallb version_ok versions = true ->
  fst (run env (Call_list_dataset_files dataset_id))
  = Return (VDict [("files", VList (flat_map version_rows versions));
                   ("count", VInt (len (flat_map version_rows versions)))]).
Proof.
  intros Hav Hf Hok. cbn [fetched] in Hf.
  destruct (answer_list_inv _ _ _ _ _ Hf)
    as [client [response [d [Hclient [Hexec [Hjson [Herrors Hwalk]]]]]]].
  pose proof (versions_loop_flat versions Hok []) as Hrows.
  walk_all Hwalk. enter_tool Hav. run_body. rewrite Hrows. reflexivity.
Qed.

Lemma dataset_files_are_flattened_witness :
  fst (run (Stub.configured (Stub.scripted [Fixture.two_versions]))
           (Call_list_dataset_files "ds1"))
  = Return (VDict [("files",
                    VList (flat_map version_rows
                      [VDict [("id", VStr "v1"); ("name", VStr "first");
                              ("files", VDict [("items",
                                 VList [VDict [("id", VStr "f1")];
                                        VDict [("id", VStr "f2")]])])];
                       VDict [("id", VStr "v2"); ("name", VStr "second")]]));
                   ("count",
                    VInt (len (flat_map version_rows
                      [VDict [("id", VStr "v1"); ("name", VStr "first");
                              ("files", VDict [("items",
                                 VList [VDict [("id", VStr "f1")];
                                        VDict [("id", VStr "f2")]])])];
                       VDict [("id", VStr "v2"); ("name", VStr "second")]])))]).
Proof.
  apply (dataset_files_are_flattened
           (Stub.configured (Stub.scripted [Fixture.two_versions])) "ds1").
  - reflexivity.
  - reflexivity.
  - reflexivity.
Defined.

(** The two rows of the stub dataset. *)
Example dataset_files_on_stub :
  fst (run (Stub.configured (Stub.scripted [Fixture.two_versions]))
           (Call_list_dataset_files "ds1"))
  = Return (VDict [("files",
              VList [VDict [("id", VStr "f1"); ("version_id", VStr "v1");
                            ("version_name", VStr "first")];
                     VDict [("id", VStr "f2"); ("version_id", VStr "v1");
                            ("version_name", VStr "first")]]);
                   ("count", VInt 2)]).
Proof. reflexivity. Qed.

(* ------------------------------------------------------------------ *)
(** *** Pages, samples and SDK lookups *)

(** X13. [list_datasets] filters by workspace on the client side, over the
    page it fetched.  With a non-empty [workspace_slug], and when the
    [workspace] entry of every dump of the page is absent or an object, the
    [datasets] list is the sublist, in page order, of the datasets whose
    [workspace.slug] equals the slug, and [count] is its length, while
    [total_pages] stays the remote's count for the unfiltered listing.  With
    no slug, or an empty one, the whole page is returned, whatever the dumps
    hold. *)
Theorem list_datasets_filters_page
        (env : Env) (client : Client) (page per_page : Z)
        (workspace_slug : option string) (fetched_page : Page) :
  OPENHEXA_AVAILABLE env = true ->
  openhexa env = Some client ->
  sdk_datasets client [] page per_page = Return fetched_page ->
  (str_truthy workspace_slug = true ->
   forallb (opens "workspace") (map model_dump (items fetched_page)) = true) ->
  run env (Call_list_datasets page per_page workspace_slug)
  = (Return (VDict [("datasets",
                     VList (kept_datasets workspace_slug
                                          (map model_dump (items fetched_page))));
                    ("total_pages", VInt (total_pages fetched_page));
                    ("current_page", VInt page);
                    ("per_page", VInt per_page);
                    ("count",
                     VInt (len (kept_datasets workspace_slug
                                              (map model_dump (items fetched_page)))))]),
     [returned (ReqDatasets page per_page)]).
Proof.
  intros Hav Hclient Hpage Hok. enter_tool Hav. rewrite Hclient, Hpage.
  cbn [app outcome_exn]. unfold kept_datasets.
  destruct workspace_slug as [s|]; [destruct (str_truthy (Some s)) eqn:Hs|].
  - rewrite (filter_r_filter _ (workspace_is s) (opens "workspace") _
               (in_workspace_reads s) (Hok eq_refl)).
    reflexivity.
  - reflexivity.
  - reflexivity.
Qed.

Lemma list_datasets_filters_page_witness :
  run (Stub.configured (Stub.paged Fixture.surveys))
      (Call_list_datasets 1 10 (Some "malaria"))
  = (Return (VDict [("datasets",
                     VList (kept_datasets (Some "malaria")
                                          (map model_dump (items Fixture.surveys))));
                    ("total_pages", VInt (total_pages Fixture.surveys));
                    ("current_page", VInt 1);
                    ("per_page", VInt 10);
                    ("count",
                     VInt (len (kept_datasets (Some "malaria")
                                              (map model_dump (items Fixture.surveys)))))]),
     [returned (ReqDatasets 1 10)]).
Proof.
  apply (list_datasets_filters_page
           (Stub.configured (Stub.paged Fixture.surveys))
           (Stub.paged Fixture.surveys) 1 10 (Some "malaria") Fixture.surveys).
  - reflexivity.
  - reflexivity.
  - reflexivity.
  - intros _. reflexivity.
Defined.

(** One dataset of three is kept, and the page count is still the remote's. *)
Example list_datasets_on_stub :
  fst (run (Stub.configured (Stub.paged Fixture.surveys))
           (Call_list_datasets 1 10 (Some "malaria")))
  = Return (VDict [("datasets",
              VList [VDict [("id", VStr "d1");
                            ("workspace", VDict [("slug", VStr "malaria")])]]);
                   ("total_pages", VInt 4);
                   ("current_page", VInt 1);
                   ("per_page", VInt 10);
                   ("count", VInt 1)]).
Proof. reflexivity. Qed.

(** X14. [preview_dataset_file] flattens the file it finds: [sample],
    [status] and [status_reason] are the [sample], [status] and
    [statusReason] entries of the [fileSample] object, each [None] when the
    entry is absent; all three are [None] when [fileSample] is absent, [null]
    or empty; [properties] is the file's entry, or [None]; [file_id] is the
    argument. *)
Theorem preview_flattens_sample
        (env : Env) (file_id : string) (body data file : Dict) :
  OPENHEXA_AVAILABLE env = true ->
  decoded env (Call_preview_dataset_file file_id) = Some (Return (VDict body)) ->
  lookup "errors" body = None ->
  lookup "data" body = Some (VDict data) ->
  lookup "datasetVersionFile" data = Some (VDict file) ->
  file <> [] ->
  truthy (entry_or VNone "fileSample" file) = false
  \/ is_object (entry_or VNone "fileSample" file) = true ->
  fst (run env (Call_preview_dataset_file file_id))
  = Return (VDict [("file_id", VStr file_id);
                   ("sample", sample_entry (entry_or VNone "fileSample" file) "sample");
                   ("status", sample_entry (entry_or VNone "fileSample" file) "status");
                   ("status_reason",
                    sample_entry (entry_or VNone "fileSample" file) "statusReason");
                   ("properties", entry_or VNone "properties" file)]).
Proof.
  intros Hav Hdecoded Herrors Hdata Hfile Hnonempty Hinfo.
  pose proof (has_key_false _ _ Herrors) as Hkey.
  assert (Htruthy : truthy (VDict file) = true)
    by (destruct file; [contradiction | reflexivity]).
  destruct (decoded_inv _ _ _ Hdecoded)
    as [client [query [variables [response
         [Hclient [Hjson [[Hreq Hexec] | [Hreq Hexec]]]]]]]];
    cbn [request_of] in Hreq; [|discriminate Hreq]. injection Hreq as <- <-.
  enter_tool Hav. run_body. rewrite Htruthy. cbn [negb py_get].
  unfold entry_or in *. unfold sample_field.
  destruct (lookup "fileSample" file) as [info|].
  - destruct Hinfo as [Hfalsy | Hobject].
    + rewrite Hfalsy. cbn [lift]. unfold sample_entry.
      destruct info as [| | | | |s]; try reflexivity.
      destruct s; [reflexivity | discriminate Hfalsy].
    + destruct info as [| | | | |s]; try discriminate Hobject.
      destruct (truthy (VDict s)) eqn:Hs.
      * reflexivity.
      * destruct s; [reflexivity | discriminate Hs].
  - reflexivity.
Qed.

Lemma preview_flattens_sample_witness :
  fst (run (Stub.configured (Stub.scripted [Fixture.sampled_file]))
           (Call_preview_dataset_file "f1"))
  = Return (VDict [("file_id", VStr "f1");
                   ("sample",
                    sample_entry (entry_or VNone "fileSample"
                      [("id", VStr "f1"); ("properties", VStr "{}");
                       ("fileSample", VDict [("sample", VStr "a,b");
                                             ("status", VStr "FINISHED")])])
                      "sample");
                   ("status",
                    sample_entry (entry_or VNone "fileSample"
                      [("id", VStr "f1"); ("properties", VStr "{}");
                       ("fileSample", VDict [("sample", VStr "a,b");
                                             ("status", VStr "FINISHED")])])
                      "status");
                   ("status_reason",
                    sample_entry (entry_or VNone "fileSample"
                      [("id", VStr "f1"); ("properties", VStr "{}");
                       ("fileSample", VDict [("sample", VStr "a,b");
                                             ("status", VStr "FINISHED")])])
                      "statusReason");
                   ("properties",
                    entry_or VNone "properties"
                      [("id", VStr "f1"); ("properties", VStr "{}");
                       ("fileSample", VDict [("sample", VStr "a,b");
                                             ("status", VStr "FINISHED")])])]).
Proof.
  apply (preview_flattens_sample
           (Stub.configured (Stub.scripted [Fixture.sampled_file])) "f1"
           [("data", VDict [("datasetVersionFile",
              VDict [("id", VStr "f1"); ("properties", VStr "{}");
                     ("fileSample", VDict [("sample", VStr "a,b");
                                           ("status", VStr "FINISHED")])])])]
           [("datasetVersionFile",
              VDict [("id", VStr "f1"); ("properties", VStr "{}");
                     ("fileSample", VDict [("sample", VStr "a,b");
                                           ("status", VStr "FINISHED")])])]).
  - reflexivity.
  - reflexivity.
  - reflexivity.
  - reflexivity.
  - reflexivity.
  - discriminate.
  - right. reflexivity.
Defined.

(** The flattened record of the stub file: the absent reason is [None]. *)
Example preview_on_stub :
  fst (run (Stub.configured (Stub.scripted [Fixture.sampled_file]))
           (Call_preview_dataset_file "f1"))
  = Return (VDict [("file_id", VStr "f1"); ("sample", VStr "a,b");
                   ("status", VStr "FINISHED"); ("status_reason", VNone);
                   ("properties", VStr "{}")]).
Proof. reflexivity. Qed.

(** X15. The two dataset searches have no "not found" answer: on a body
    without errors that holds no [data] entry, or whose [data] object holds no
    [datasets] entry, [search_datasets] and [list_datasets_by_creator] answer
    with an empty page (no datasets, count 0, and for the search zero total
    items and pages) for the page and page size asked for. *)
Theorem dataset_searches_default_to_empty_page
        (env : Env) (call : ToolCall) (body : Dict) (page : PyVal) :
  OPENHEXA_AVAILABLE env = true ->
  decoded env call = Some (Return (VDict body)) ->
  lookup "errors" body = None ->
  empty_page call = Some page ->
  (lookup "data" body = None
   \/ exists data, lookup "data" body = Some (VDict data)
                   /\ lookup "datasets" data = None) ->
  fst (run env call) = Return page.
Proof.
  intros Hav Hdecoded Herrors Hpage Hmissing.
  pose proof (has_key_false _ _ Herrors) as Hkey.
  open_decoded Hav Hdecoded; try discriminate Hpage; injection Hpage as <-;
    (destruct Hmissing as [Hnodata | [data [Hdata Hdatasets]]];
     enter_tool Hav; run_body; reflexivity).
Qed.

Lemma dataset_searches_default_to_empty_page_witness :
  fst (run (Stub.configured (Stub.scripted [Fixture.no_data]))
           (Call_search_datasets "malaria" 2 20))
  = Return (VDict [("datasets", VList []); ("count", VInt 0);
                   ("total_items", VInt 0); ("total_pages", VInt 0);
                   ("current_page", VInt 2); ("per_page", VInt 20)]).
Proof.
  apply (dataset_searches_default_to_empty_page
           (Stub.configured (Stub.scripted [Fixture.no_data]))
           (Call_search_datasets "malaria" 2 20) []).
  - reflexivity.
  - reflexivity.
  - reflexivity.
  - reflexivity.
  - left. reflexivity.
Defined.

(** X16. [list_webapps] on a workspace whose answer has no [webapps] entry
    returns an empty page: no webapps, zero total pages and items, and the
    page number that was asked for. *)
Theorem list_webapps_defaults
        (env : Env) (workspace_slug : string) (page per_page : Z)
        (body data workspace : Dict) :
  OPENHEXA_AVAILABLE env = true ->
  decoded env (Call_list_webapps workspace_slug page per_page)
  = Some (Return (VDict body)) ->
  lookup "errors" body = None ->
  lookup "data" body = Some (VDict data) ->
  lookup "workspace" data = Some (VDict workspace) ->
  workspace <> [] ->
  lookup "webapps" workspace = None ->
  fst (run env (Call_list_webapps workspace_slug page per_page))
  = Return (VDict [("webapps", VList []); ("total_pages", VInt 0);
                   ("total_items", VInt 0); ("current_page", VInt page)]).
Proof.
  intros Hav Hdecoded Herrors Hdata Hworkspace Hnonempty Hwebapps.
  pose proof (has_key_false _ _ Herrors) as Hkey.
  assert (Htruthy : truthy (VDict workspace) = true)
    by (destruct workspace; [contradiction | reflexivity]).
  destruct (decoded_inv _ _ _ Hdecoded)
    as [client [query [variables [response
         [Hclient [Hjson [[Hreq Hexec] | [Hreq Hexec]]]]]]]];
    cbn [request_of] in Hreq; [discriminate Hreq|]. injection Hreq as <- <-.
  enter_tool Hav. run_body. rewrite Htruthy. cbn [negb]. run_body. reflexivity.
Qed.

Lemma list_webapps_defaults_witness :
  fst (run (Stub.configured
              (Stub.scripted
                 [VDict [("data", VDict [("workspace",
                    VDict [("slug", VStr "demo")])])]]))
           (Call_list_webapps "demo" 3 25))
  = Return (VDict [("webapps", VList []); ("total_pages", VInt 0);
                   ("total_items", VInt 0); ("current_page", VInt 3)]).
Proof.
  apply (list_webapps_defaults
           (Stub.configured
              (Stub.scripted
                 [VDict [("data", VDict [("workspace",
                    VDict [("slug", VStr "demo")])])]]))
           "demo" 3 25
           [("data", VDict [("workspace", VDict [("slug", VStr "demo")])])]
           [("workspace", VDict [("slug", VStr "demo")])]
           [("slug", VStr "demo")]).
  - reflexivity.
  - reflexivity.
  - reflexivity.
  - reflexivity.
  - reflexivity.
  - discriminate.
  - reflexivity.
Defined.

(** X17. The four SDK lookups ([get_workspace_details],
    [get_dataset_details], [get_pipeline_details], [get_pipeline_runs]) answer
    with their own "not found" message, naming what was asked for, when the
    SDK returns nothing; the answer has the single key [error]. *)
Theorem sdk_lookup_not_found (env : Env) (client : Client) (call : ToolCall)
        (message : string) :
  OPENHEXA_AVAILABLE env = true ->
  openhexa env = Some client ->
  sdk_lookup_missing client call = Some message ->
  fst (run env call) = Return (VDict [("error", VStr message)]).
Proof.
  intros Hav Hclient Hmissing.
  destruct call; try discriminate Hmissing; cbn [sdk_lookup_missing] in Hmissing;
    enter_tool Hav; rewrite Hclient; cbn [app outcome_exn fst].
  - destruct (sdk_workspace client [] workspace_slug) as [[w|]|e];
      try discriminate Hmissing. injection Hmissing as <-. reflexivity.
  - destruct (sdk_dataset client [] dataset_id) as [[d|]|e];
      try discriminate Hmissing. injection Hmissing as <-. reflexivity.
  - destruct (sdk_pipeline client [] workspace_slug pipeline_code) as [[p|]|e];
      try discriminate Hmissing. injection Hmissing as <-. reflexivity.
  - destruct (sdk_pipeline client [] workspace_slug pipeline_code) as [[p|]|e];
      try discriminate Hmissing. injection Hmissing as <-. reflexivity.
Qed.

Lemma sdk_lookup_not_found_witness :
  fst (run (Stub.configured Fixture.garbled) (Call_get_dataset_details "ds9"))
  = Return (VDict [("error", VStr "Dataset with ID 'ds9' not found")]).
Proof.
  apply (sdk_lookup_not_found (Stub.configured Fixture.garbled) Fixture.garbled
                              (Call_get_dataset_details "ds9")
                              "Dataset with ID 'ds9' not found").
  - reflexivity.
  - reflexivity.
  - reflexivity.
Defined.

(** X18. [get_pipeline_runs] returns the dumps of the runs of the pipeline
    it found with their number as [count], and [list_workspace_members] the
    dumps of the users found by an unrestricted search (the empty query) in
    the workspace with their number as [count]. *)
Theorem runs_and_members_are_counted
        (env : Env) (client : Client) (workspace_slug pipeline_code : string)
        (pipeline : PipelineModel) (members : list Model) :
  OPENHEXA_AVAILABLE env = true ->
  openhexa env = Some client ->
  sdk_pipeline client [] workspace_slug pipeline_code = Return (Some pipeline) ->
  sdk_get_users client [] EmptyString workspace_slug = Return members ->
  run env (Call_get_pipeline_runs workspace_slug pipeline_code)
  = (Return (VDict [("runs", VList (map model_dump (runs_items pipeline)));
                    ("count", VInt (len (map model_dump (runs_items pipeline))))]),
     [returned (ReqPipeline workspace_slug pipeline_code)])
  /\ run env (Call_list_workspace_members workspace_slug)
     = (Return (VDict [("members", VList (map model_dump members));
                       ("count", VInt (len (map model_dump members)))]),
        [returned (ReqGetUsers EmptyString workspace_slug)]).
Proof.
  intros Hav Hclient Hpipeline Hmembers. split.
  - enter_tool Hav. rewrite Hclient, Hpipeline. cbn [app outcome_exn].
    rewrite len_map. reflexivity.
  - enter_tool Hav. rewrite Hclient, Hmembers. cbn [app outcome_exn].
    rewrite len_map. reflexivity.
Qed.

Lemma runs_and_members_are_counted_witness :
  run (Stub.configured Fixture.garbled) (Call_get_pipeline_runs "demo" "etl")
  = (Return (VDict [("runs", VList (map model_dump [[("id", VStr "r1")];
                                                    [("id", VStr "r2")]]));
                    ("count", VInt (len (map model_dump [[("id", VStr "r1")];
                                                         [("id", VStr "r2")]])))]),
     [returned (ReqPipeline "demo" "etl")])
  /\ run (Stub.configured Fixture.garbled) (Call_list_workspace_members "demo")
     = (Return (VDict [("members",
                        VList (map model_dump [[("email", VStr "ada@example.org")]]));
                       ("count",
                        VInt (len (map model_dump [[("email", VStr "ada@example.org")]])))]),
        [returned (ReqGetUsers EmptyString "demo")]).
Proof.
  apply (runs_and_members_are_counted
           (Stub.configured Fixture.garbled) Fixture.garbled "demo" "etl"
           {| pipeline_fields := [("code", VStr "etl")];
              runs_items := [[("id", VStr "r1")]; [("id", VStr "r2")]] |}
           [[("email", VStr "ada@example.org")]]).
  - reflexivity.
  - reflexivity.
  - reflexivity.
  - reflexivity.
Defined.

(* ------------------------------------------------------------------ *)
(** *** Edges of [create_pipeline] and of [search_resources] *)

(** X19. When the creation step of [create_pipeline] succeeded and the
    archive was packaged, an exception raised by the upload call itself is
    caught by the outer handler: the answer is the single-key mapping
    "Failed to create pipeline: " followed by the exception's text, with
    neither the [pipeline] entry nor the note of the partial-failure answers,
    although the pipeline exists on the server. *)
Theorem upload_exception_hides_pipeline
        (env : Env) (client : Client) (workspace_slug name code_content : string)
        (description functional_type : option string) (tags : option (list string))
        (response : Response) (response_data : Dict) (pipeline pipeline_code : PyVal)
        (zipfile_b64 : string) (e : Exn) :
  OPENHEXA_AVAILABLE env = true ->
  openhexa env = Some client ->
  workspace_slug <> EmptyString -> name <> EmptyString -> code_content <> EmptyString ->
  sdk_execute client [] create_query
              (VDict [("input", VDict (create_input workspace_slug name
                                                    functional_type tags))])
  = Return response ->
  json response = Return (VDict response_data) ->
  reports_pipeline response_data pipeline pipeline_code ->
  _create_pipeline_zipfile (zipfile env) (localtime env) code_content
  = Return zipfile_b64 ->
  sdk_execute client
    [returned (create_request workspace_slug name functional_type tags)]
    upload_query
    (VDict [("input", VDict (upload_input workspace_slug pipeline_code description
                                          zipfile_b64))])
  = Raise e ->
  run env (Call_create_pipeline workspace_slug name code_content description
                                functional_type tags)
  = (Return (VDict [("error", VStr ("Failed to create pipeline: " ++ exn_text e))]),
     [returned (create_request workspace_slug name functional_type tags);
      {| request := upload_request workspace_slug pipeline_code description
                                   zipfile_b64;
         raised := Some e |}]).
Proof.
  intros Hav Hclient Hslug Hname Hcode Hexec Hjson Hcreated Hzip Hupload.
  destruct Hcreated
    as [Hnone [data [result [fields [success
         [Hdata [Hresult [Hsuccess [Htruthy [Hpipeline [-> Hpcode]]]]]]]]]]].
  unfold run. cbn [invoke]. unfold create_pipeline.
  rewrite Hav, (eqb_empty_false _ Hslug), (eqb_empty_false _ Hname),
    (eqb_empty_false _ Hcode).
  cbn [negb orb]. open_body. rewrite Hclient, Hexec. cbn [app outcome_exn].
  rewrite Hjson. cbn [py_in]. rewrite (has_key_false _ _ Hnone).
  cbn [py_get]. rewrite Hdata. cbn [py_get]. rewrite Hresult. cbn [py_get].
  rewrite Hsuccess, Htruthy, Hpipeline. cbn [negb].
  rewrite (lookup_truthy _ _ _ Hpcode). cbn [negb py_getitem]. rewrite Hpcode.
  rewrite Hzip.
  fold (create_request workspace_slug name functional_type tags).
  fold (returned (create_request workspace_slug name functional_type tags)).
  rewrite Hupload. reflexivity.
Qed.

Lemma upload_exception_hides_pipeline_witness :
  run (Stub.configured (Stub.scripted [Stub.creation_ok]))
      (Call_create_pipeline "demo" "etl" "hi" None None None)
  = (Return (VDict [("error",
               VStr ("Failed to create pipeline: " ++ exn_text Stub.refused))]),
     [returned (create_request "demo" "etl" None None);
      {| request := upload_request "demo" (VStr "etl") None "aGk=";
         raised := Some Stub.refused |}]).
Proof.
  apply (upload_exception_hides_pipeline
           (Stub.configured (Stub.scripted [Stub.creation_ok]))
           (Stub.scripted [Stub.creation_ok])
           "demo" "etl" "hi" None None None
           {| json := Return Stub.creation_ok |}
           [("data", VDict [("createPipeline",
                VDict [("success", VBool true); ("errors", VList []);
                       ("pipeline", Stub.created_pipeline)])])]
           Stub.created_pipeline (VStr "etl") "aGk=" Stub.refused).
  - reflexivity.
  - reflexivity.
  - discriminate.
  - discriminate.
  - discriminate.
  - reflexivity.
  - reflexivity.
  - split; [reflexivity|].
    exists [("createPipeline",
             VDict [("success", VBool true); ("errors", VList []);
                    ("pipeline", Stub.created_pipeline)])],
           [("success", VBool true); ("errors", VList []);
            ("pipeline", Stub.created_pipeline)],
           [("id", VStr "p1"); ("name", VStr "etl"); ("code", VStr "etl")],
           (VBool true).
    repeat split; reflexivity.
  - reflexivity.
  - reflexivity.
Defined.

(** X20. When the [createPipeline] result says [success] but carries no
    pipeline object (no [pipeline] entry, [null], or an empty object),
    [create_pipeline] answers that the creation gave no pipeline data and
    sends no upload. *)
Theorem success_without_pipeline
        (env : Env) (client : Client) (workspace_slug name code_content : string)
        (description functional_type : option string) (tags : option (list string))
        (response : Response) (response_data data result : Dict) (success : PyVal) :
  OPENHEXA_AVAILABLE env = true ->
  openhexa env = Some client ->
  workspace_slug <> EmptyString -> name <> EmptyString -> code_content <> EmptyString ->
  sdk_execute client [] create_query
              (VDict [("input", VDict (create_input workspace_slug name
                                                    functional_type tags))])
  = Return response ->
  json response = Return (VDict response_data) ->
  lookup "errors" response_data = None ->
  lookup "data" response_data = Some (VDict data) ->
  lookup "createPipeline" data = Some (VDict result) ->
  lookup "success" result = Some success -> truthy success = true ->
  truthy (entry_or VNone "pipeline" result) = false ->
  run env (Call_create_pipeline workspace_slug name code_content description
                                functional_type tags)
  = (Return (VDict [("error",
               VStr "Pipeline creation succeeded but no pipeline data returned")]),
     [returned (create_request workspace_slug name functional_type tags)]).
Proof.
  intros Hav Hclient Hslug Hname Hcode Hexec Hjson Hnone Hdata Hresult
         Hsuccess Htruthy Hpipeline.
  unfold entry_or in Hpipeline.
  unfold run. cbn [invoke]. unfold create_pipeline.
  rewrite Hav, (eqb_empty_false _ Hslug), (eqb_empty_false _ Hname),
    (eqb_empty_false _ Hcode).
  cbn [negb orb]. open_body. rewrite Hclient, Hexec. cbn [app outcome_exn].
  rewrite Hjson. cbn [py_in]. rewrite (has_key_false _ _ Hnone).
  cbn [py_get]. rewrite Hdata. cbn [py_get]. rewrite Hresult. cbn [py_get].
  rewrite Hsuccess, Htruthy. cbn [negb]. rewrite Hpipeline. reflexivity.
Qed.

Lemma success_without_pipeline_witness :
  run (Stub.configured
         (Stub.scripted
            [VDict [("data", VDict [("createPipeline",
               VDict [("success", VBool true); ("pipeline", VNone)])])]]))
      (Call_create_pipeline "demo" "etl" "hi" None None None)
  = (Return (VDict [("error",
               VStr "Pipeline creation succeeded but no pipeline data returned")]),
     [returned (create_request "demo" "etl" None None)]).
Proof.
  apply (success_without_pipeline
           (Stub.configured
              (Stub.scripted
                 [VDict [("data", VDict [("createPipeline",
                    VDict [("success", VBool true); ("pipeline", VNone)])])]]))
           (Stub.scripted
              [VDict [("data", VDict [("createPipeline",
                 VDict [("success", VBool true); ("pipeline", VNone)])])]])
           "demo" "etl" "hi" None None None
           {| json := Return (VDict [("data", VDict [("createPipeline",
                 VDict [("success", VBool true); ("pipeline", VNone)])])]) |}
           [("data", VDict [("createPipeline",
                 VDict [("success", VBool true); ("pipeline", VNone)])])]
           [("createPipeline",
             VDict [("success", VBool true); ("pipeline", VNone)])]
           [("success", VBool true); ("pipeline", VNone)]
           (VBool true)).
  - reflexivity.
  - reflexivity.
  - discriminate.
  - discriminate.
  - discriminate.
  - reflexivity.
  - reflexivity.
  - reflexivity.
  - reflexivity.
  - reflexivity.
  - reflexivity.
  - reflexivity.
  - reflexivity.
Defined.

(** X21. [search_resources] never reports a match and never reports a
    failure of its own: in every environment and for every input, its answer
    is either the configuration error or the success mapping with the query,
    an empty [results] list and [count] 0. *)
Theorem search_resources_answers (env : Env) (query : string)
        (resource_type workspace_slug : option string) :
  fst (run env (Call_search_resources query resource_type workspace_slug))
  = Return config_error
  \/ fst (run env (Call_search_resources query resource_type workspace_slug))
     = Return (VDict [("success", VBool true); ("query", VStr query);
                      ("results", VList []); ("count", VInt 0)]).
Proof.
  destruct (OPENHEXA_AVAILABLE env) eqn:Hav.
  - right. apply search_resources_finds_nothing, Hav.
  - left. unfold run. cbn [invoke]. unfold search_resources. rewrite Hav. reflexivity.
Qed.
